(** * The water-test controller (server/controllers/waterTestController.js)

    A shallow embedding of the six request handlers of the controller and
    of the part of JavaScript they rely on.

    - Request-body values are JSON values with their truthiness, [typeof],
      string conversion and lower-casing (module [Js]).
    - The tables of the store are lists of rows in insertion order.  A
      handler is a function from a request and a world (the four tables and
      the trace of what has been sent and logged) to a response and a world.
    - The awaited collaborators (the Prisma client, the SMS and WhatsApp
      wrappers, the health-card controller) are not part of the controller:
      each call either resolves or rejects, as an environment decides from
      the world and the call ([Env]).  The environment also gives new rows
      their id and creation time and stands for the [Date] operations of
      the runtime.
    - [async]/[await] with [try]/[catch] is a state and exception monad
      ([M]); the outer [try]/[catch] of a handler is [catching].  What is
      thrown is the call that rejected, or the TypeError of a conversion
      ([String(v)], a template literal, [new Date(v)]) applied to an object
      that has no primitive form.

    The first part holds the definitions, the second the properties. *)

From Stdlib Require Import String Ascii List ZArith Bool Lia DecimalString.
From Stdlib Require Import Sorting.Sorted Sorting.Permutation.
Import ListNotations.
Local Open Scope string_scope.

(** ** JavaScript values as the handlers see them *)

Module Js.

(** A field of [req.body] after JSON parsing, or a column read back from
    the store.  [Undefined] is an absent key.  [Number m e] is the finite
    number [m * 10^e].  [Object o] is an array or a plain object: the
    handlers only ever test such a value for truthiness and convert it to
    a primitive.  [Object (Some s)] converts to the string [s]
    (["[object Object]"], or the joined elements of an array).
    [Object None] has no primitive form: converting it throws a TypeError.
    Such is the parsed JSON [{"toString": 1}], whose own [toString] is not
    callable and whose [valueOf] returns the object itself, and an array
    that holds such an object. *)
Inductive Value : Type :=
| Undefined
| Null
| Boolean (b : bool)
| Number (mantissa exponent : Z)
| Str (s : string)
| Object (toStr : option string).

(** ToBoolean: what [if (v)], [!v] and [v || w] test. *)
Definition truthy (v : Value) : bool :=
  match v with
  | Undefined | Null => false
  | Boolean b => b
  | Number m _ => negb (m =? 0)%Z
  | Str s => negb (s =? "")
  | Object _ => true
  end.

(** [a || b] *)
Definition or (a b : Value) : Value := if truthy a then a else b.

Definition typeof (v : Value) : string :=
  match v with
  | Undefined => "undefined"
  | Null | Object _ => "object"
  | Boolean _ => "boolean"
  | Number _ _ => "number"
  | Str _ => "string"
  end.

(** *** Number to string (Number::toString, radix 10) *)

Definition digitsOf (n : Z) : string :=
  NilZero.string_of_uint (N.to_uint (Z.to_N n)).

Fixpoint zeros (n : nat) : string :=
  match n with O => "" | S k => String "0" (zeros k) end.

Fixpoint rev (s : string) : string :=
  match s with
  | EmptyString => ""
  | String c r => rev r ++ String c ""
  end.

(** Drops the zeros a string starts with and counts them. *)
Fixpoint dropZeros (s : string) : nat * string :=
  match s with
  | String "0" r => let '(n, t) := dropZeros r in (S n, t)
  | _ => (O, s)
  end.

Definition numberToString (m e : Z) : string :=
  if (m =? 0)%Z then "0"
  else
    let sign := if (m <? 0)%Z then "-" else "" in
    let '(z, r) := dropZeros (rev (digitsOf (Z.abs m))) in
    let s := rev r in
    let k := String.length s in
    let n := (e + Z.of_nat z + Z.of_nat k)%Z in
    sign ++
    (if ((Z.of_nat k <=? n) && (n <=? 21))%Z then
       s ++ zeros (Z.to_nat n - k)
     else if ((0 <? n) && (n <=? 21))%Z then
       substring 0 (Z.to_nat n) s ++ "." ++
       substring (Z.to_nat n) (k - Z.to_nat n) s
     else if ((-6 <? n) && (n <=? 0))%Z then
       "0." ++ zeros (Z.to_nat (- n)) ++ s
     else
       let x := (n - 1)%Z in
       let exp := (if (x <? 0)%Z then "-" else "+") ++ digitsOf (Z.abs x) in
       if (k =? 1)%nat then s ++ "e" ++ exp
       else substring 0 1 s ++ "." ++ substring 1 (k - 1) s ++ "e" ++ exp).

(** ToPrimitive throws a TypeError for the value.  [String(v)], a template
    literal and [new Date(v)] all start with it. *)
Definition throws (v : Value) : bool :=
  match v with
  | Object None => true
  | _ => false
  end.

(** [String(v)], which is also what a template literal does to [${v}]:
    the string, or [None] when the conversion throws. *)
Definition toString (v : Value) : option string :=
  match v with
  | Undefined => Some "undefined"
  | Null => Some "null"
  | Boolean true => Some "true"
  | Boolean false => Some "false"
  | Number m e => Some (numberToString m e)
  | Str s => Some s
  | Object o => o
  end.

(** *** [String.prototype.toLowerCase]

    Strings are byte strings (UTF-8); the letters A to Z are mapped to a
    to z and every other byte is kept.  No string with a character outside
    ASCII lower-cases to "good", "medium" or "high" under the Unicode
    mapping either, so membership in that set is the same. *)
Definition lowerChar (c : ascii) : ascii :=
  let n := nat_of_ascii c in
  if ((65 <=? n) && (n <=? 90))%nat then ascii_of_nat (n + 32) else c.

Fixpoint toLowerCase (s : string) : string :=
  match s with
  | EmptyString => ""
  | String c r => String (lowerChar c) (toLowerCase r)
  end.

(** [xs.includes(s)] on an array of strings *)
Definition includes (xs : list string) (s : string) : bool :=
  existsb (String.eqb s) xs.

(** *** The regular expression [/^\+\d{10,15}$/] *)

Definition isDigit (c : ascii) : bool :=
  let n := nat_of_ascii c in ((48 <=? n) && (n <=? 57))%nat.

Fixpoint allDigits (s : string) : bool :=
  match s with
  | EmptyString => true
  | String c r => isDigit c && allDigits r
  end.

Definition e164_test (s : string) : bool :=
  match s with
  | String "+" r =>
      allDigits r && (10 <=? String.length r)%nat && (String.length r <=? 15)%nat
  | _ => false
  end.

End Js.

(** ** The data model *)

(** A JavaScript [Date]: milliseconds since the epoch, [None] for an
    invalid date. *)
Definition Date : Type := option Z.

(** One row of the [User] table; [req.user] is such a row, attached by the
    authentication middleware. *)
Module User.
Record t : Type := mk {
  id : string;
  role : string;
  number : Js.Value
}.
End User.

(** The fields that [createWaterTest] and [updateWaterTest] destructure
    from [req.body]. *)
Module Body.
Record t : Type := mk {
  waterbodyName : Js.Value;
  waterbodyId : Js.Value;
  dateTime : Js.Value;
  location : Js.Value;
  latitude : Js.Value;
  longitude : Js.Value;
  photoUrl : Js.Value;
  notes : Js.Value;
  quality : Js.Value
}.
End Body.

Record Request : Type := mkRequest {
  params_id : string;
  body : Body.t;
  user : User.t
}.

(** The [data] object handed to [prisma.waterTest.create]. *)
Module Data.
Record t : Type := mk {
  waterbodyName : Js.Value;
  waterbodyId : Js.Value;
  dateTime : Date;
  location : Js.Value;
  latitude : Js.Value;
  longitude : Js.Value;
  photoUrl : Js.Value;
  notes : Js.Value;
  quality : string;
  ashaId : string
}.
End Data.

(** One row of the [WaterTest] table: the data it was created with, the
    generated id and the creation time. *)
Module WaterTest.
Record t : Type := mk {
  id : string;
  waterbodyName : Js.Value;
  waterbodyId : Js.Value;
  dateTime : Date;
  location : Js.Value;
  latitude : Js.Value;
  longitude : Js.Value;
  photoUrl : Js.Value;
  notes : Js.Value;
  quality : string;
  ashaId : string;
  createdAt : Z
}.
End WaterTest.

(** The [data] object that [updateWaterTest] fills in key by key: [None]
    is a key that was never assigned. *)
Module Patch.
Record t : Type := mk {
  waterbodyName : option Js.Value;
  waterbodyId : option Js.Value;
  dateTime : option Date;
  location : option Js.Value;
  latitude : option Js.Value;
  longitude : option Js.Value;
  photoUrl : option Js.Value;
  notes : option Js.Value;
  quality : option string
}.
End Patch.

Module LeaderAlert.
Record t : Type := mk {
  leaderId : string;
  message : string;
  waterTestId : string
}.
End LeaderAlert.

Module GlobalAlert.
Record t : Type := mk {
  message : string;
  waterTestId : string
}.
End GlobalAlert.

(** The request object built for [createOrUpdateHealthCard]. *)
Module HealthCardReq.
Record t : Type := mk {
  waterbodyName : Js.Value;
  waterbodyId : Js.Value;
  location : Js.Value;
  latitude : Js.Value;
  longitude : Js.Value;
  user : User.t
}.
End HealthCardReq.

(** ** Collaborators and the world they act on *)

(** Every awaited call of the controller. *)
Inductive Call : Type :=
| WaterTestCreate (data : Data.t)
| WaterTestFindUnique (id : string)
| WaterTestUpdate (id : string) (data : Patch.t)
| WaterTestDelete (id : string)
| WaterTestFindMany (ashaId : option string)
| UserFindMany (role : option string)
| LeaderAlertCreateMany (data : list LeaderAlert.t)
| GlobalAlertCreate (data : GlobalAlert.t)
| SendSMS (number : Js.Value) (message : string)
| SendWhatsApp (number : Js.Value) (message : string)
| CreateOrUpdateHealthCard (req : HealthCardReq.t).

(** What a handler can throw: the rejection of an awaited call, which
    carries the call, or the TypeError of a conversion. *)
Inductive Error : Type :=
| CallRejected (c : Call)
| TypeError.

Coercion CallRejected : Call >-> Error.

(** What a handler does besides reading and writing the tables, in the
    order it happens.  A send is recorded with its outcome: [true] when the
    promise resolved, [false] when it rejected. *)
Inductive Effect : Type :=
| Sms (number : Js.Value) (message : string) (resolved : bool)
| WhatsApp (number : Js.Value) (message : string) (resolved : bool)
| HealthCard (req : HealthCardReq.t) (resolved : bool)
| ConsoleWarn (text : string)
| ConsoleError (text : string) (error : Error).

Record World : Type := mkWorld {
  waterTests : list WaterTest.t;
  users : list User.t;
  leaderAlerts : list LeaderAlert.t;
  globalAlerts : list GlobalAlert.t;
  trace : list Effect
}.

(** What the controller does not decide: whether an awaited call resolves
    or rejects in a given world, the id and the creation time the store
    gives a new row, and the two [Date] operations of the runtime:
    [timeValue v] is the time value that [new Date(v)] takes from the
    primitive form of [v] (the parse of a string, the number itself), and
    [toLocaleString] is the formatting with the options of the controller. *)
Record Env : Type := mkEnv {
  resolves : World -> Call -> bool;
  generateId : World -> string;
  now : World -> Z;
  timeValue : Js.Value -> Date;
  toLocaleString : Date -> string
}.

Module Json.
Inductive t : Type :=
| Message (message : string)
| WaterTestId (id : string)
| Items (items : list WaterTest.t)
| Deleted.
End Json.

(** [res.status(status).json(json)] *)
Record Response : Type := mkResponse {
  status : nat;
  json : Json.t
}.

(** ** Promises: a state and exception monad *)

Inductive Outcome (A : Type) : Type :=
| Resolved (a : A)
| Rejected (error : Error).
Arguments Resolved {A} a.
Arguments Rejected {A} error.

Definition M (A : Type) : Type := World -> Outcome A * World.

Definition ret {A : Type} (a : A) : M A := fun w => (Resolved a, w).

Definition bind {A B : Type} (m : M A) (k : A -> M B) : M B :=
  fun w =>
    match m w with
    | (Resolved a, w') => k a w'
    | (Rejected e, w') => (Rejected e, w')
    end.

Notation "x <- m ;; k" := (bind m (fun x => k))
  (at level 61, m at next level, right associativity).
Notation "m ;;; k" := (bind m (fun _ => k))
  (at level 61, right associativity).

(** [throw error] *)
Definition throw {A : Type} (error : Error) : M A := fun w => (Rejected error, w).

(** [try { m } catch (error) { handler(error) }] *)
Definition tryCatch {A : Type} (m : M A) (handler : Error -> M A) : M A :=
  fun w =>
    match m w with
    | (Resolved a, w') => (Resolved a, w')
    | (Rejected e, w') => handler e w'
    end.

(** [for (const x of xs) { await body(x) }]: a rejection leaves the loop. *)
Fixpoint forOf {A : Type} (xs : list A) (body : A -> M unit) : M unit :=
  match xs with
  | [] => ret tt
  | x :: rest => body x ;;; forOf rest body
  end.

(** [xs.map(f)] with a callback that may throw. *)
Fixpoint mapM {A B : Type} (f : A -> M B) (xs : list A) : M (list B) :=
  match xs with
  | [] => ret []
  | x :: rest => y <- f x ;; ys <- mapM f rest ;; ret (y :: ys)
  end.

(** [String(v)] and the substitution [${v}] of a template literal. *)
Definition toStringM (v : Js.Value) : M string :=
  match Js.toString v with
  | Some s => ret s
  | None => throw TypeError
  end.

Definition emit (e : Effect) : M unit :=
  fun w => (Resolved tt,
            mkWorld (waterTests w) (users w) (leaderAlerts w) (globalAlerts w)
                    (trace w ++ [e])).

Definition console_warn (text : string) : M unit := emit (ConsoleWarn text).

Definition console_error (text : string) (error : Error) : M unit :=
  emit (ConsoleError text error).

(** ** The controller *)

Definition nl : string := String (ascii_of_nat 10) "".

Definition setWaterTests (rows : list WaterTest.t) (w : World) : World :=
  mkWorld rows (users w) (leaderAlerts w) (globalAlerts w) (trace w).

(** [data[key] === undefined ? row[key] : data[key]], column by column. *)
Definition applyPatch (p : Patch.t) (r : WaterTest.t) : WaterTest.t :=
  let pick {A : Type} (new : option A) (old : A) : A :=
    match new with Some v => v | None => old end in
  WaterTest.mk
    (WaterTest.id r)
    (pick (Patch.waterbodyName p) (WaterTest.waterbodyName r))
    (pick (Patch.waterbodyId p) (WaterTest.waterbodyId r))
    (pick (Patch.dateTime p) (WaterTest.dateTime r))
    (pick (Patch.location p) (WaterTest.location r))
    (pick (Patch.latitude p) (WaterTest.latitude r))
    (pick (Patch.longitude p) (WaterTest.longitude r))
    (pick (Patch.photoUrl p) (WaterTest.photoUrl r))
    (pick (Patch.notes p) (WaterTest.notes r))
    (pick (Patch.quality p) (WaterTest.quality r))
    (WaterTest.ashaId r)
    (WaterTest.createdAt r).

(** Modelled from the spec: the ordering that the data-access collaborator
    applies for [orderBy: { createdAt: "desc" }], as a stable insertion sort
    of the table order. *)
Fixpoint insertDesc (r : WaterTest.t) (l : list WaterTest.t) : list WaterTest.t :=
  match l with
  | [] => [r]
  | x :: rest =>
      if (WaterTest.createdAt x <=? WaterTest.createdAt r)%Z then r :: l
      else x :: insertDesc r rest
  end.

Fixpoint orderByCreatedAtDesc (l : list WaterTest.t) : list WaterTest.t :=
  match l with
  | [] => []
  | x :: rest => insertDesc x (orderByCreatedAtDesc rest)
  end.

Section Controller.

Variable env : Env.

(** *** The awaited collaborators

    The controller imports them from lib/db.js, lib/sms.js, lib/whatapp.js
    and controllers/healthCardController.js.  Each is given here by what
    the controller's calls need of it: the effect of a call that resolves,
    and a rejection when the environment says so. *)

Definition await (c : Call) : M unit :=
  fun w => if resolves env w c then (Resolved tt, w) else (Rejected c, w).

(** [new Date(v)]: the value is converted to a primitive, which may throw,
    and the time value is taken from the primitive. *)
Definition newDate (v : Js.Value) : M Date :=
  if Js.throws v then throw TypeError else ret (timeValue env v).

(** Modelled from the spec: [prisma.waterTest.create({ data })] of the
    data-access collaborator appends a row made of [data], a generated id
    and the creation time, and returns it. *)
Definition prisma_waterTest_create (data : Data.t) : M WaterTest.t :=
  await (WaterTestCreate data) ;;;
  fun w =>
    let record :=
      WaterTest.mk (generateId env w)
        (Data.waterbodyName data) (Data.waterbodyId data) (Data.dateTime data)
        (Data.location data) (Data.latitude data) (Data.longitude data)
        (Data.photoUrl data) (Data.notes data) (Data.quality data)
        (Data.ashaId data) (now env w) in
    (Resolved record, setWaterTests (waterTests w ++ [record]) w).

(** Modelled from the spec: [prisma.waterTest.findUnique({ where: { id } })]
    returns the row with the id, or null. *)
Definition prisma_waterTest_findUnique (id : string) : M (option WaterTest.t) :=
  await (WaterTestFindUnique id) ;;;
  fun w => (Resolved (find (fun r => WaterTest.id r =? id) (waterTests w)), w).

(** Modelled from the spec: [prisma.waterTest.update({ where: { id }, data })]
    overwrites the columns that are keys of [data] and returns the row;
    it rejects when no row has the id. *)
Definition prisma_waterTest_update (id : string) (data : Patch.t) : M WaterTest.t :=
  await (WaterTestUpdate id data) ;;;
  fun w =>
    match find (fun r => WaterTest.id r =? id) (waterTests w) with
    | None => (Rejected (WaterTestUpdate id data), w)
    | Some r =>
        (Resolved (applyPatch data r),
         setWaterTests
           (map (fun x => if WaterTest.id x =? id then applyPatch data x else x)
                (waterTests w)) w)
    end.

(** Modelled from the spec: [prisma.waterTest.delete({ where: { id } })]
    removes the row; it rejects when no row has the id. *)
Definition prisma_waterTest_delete (id : string) : M unit :=
  await (WaterTestDelete id) ;;;
  fun w =>
    match find (fun r => WaterTest.id r =? id) (waterTests w) with
    | None => (Rejected (WaterTestDelete id), w)
    | Some _ =>
        (Resolved tt,
         setWaterTests
           (filter (fun x => negb (WaterTest.id x =? id)) (waterTests w)) w)
    end.

(** Modelled from the spec:
    [prisma.waterTest.findMany({ where, orderBy: { createdAt: "desc" } })]
    returns the rows whose ashaId is the one asked for ([None]: a call
    without [where], every row), newest first. *)
Definition prisma_waterTest_findMany (ashaId : option string) : M (list WaterTest.t) :=
  await (WaterTestFindMany ashaId) ;;;
  fun w =>
    (Resolved
       (orderByCreatedAtDesc
          (filter (fun r => match ashaId with
                            | Some a => WaterTest.ashaId r =? a
                            | None => true
                            end) (waterTests w))), w).

(** Modelled from the spec: [prisma.user.findMany({ where: { role }, select })]
    returns the users with the role ([None]: a call without [where], every
    user), in table order; the columns that [select] leaves out are never
    read by the controller. *)
Definition prisma_user_findMany (role : option string) : M (list User.t) :=
  await (UserFindMany role) ;;;
  fun w =>
    (Resolved
       (filter (fun u => match role with
                         | Some r => User.role u =? r
                         | None => true
                         end) (users w)), w).

(** Modelled from the spec: [prisma.leaderAlert.createMany({ data })]
    appends the rows of [data]. *)
Definition prisma_leaderAlert_createMany (data : list LeaderAlert.t) : M unit :=
  await (LeaderAlertCreateMany data) ;;;
  fun w =>
    (Resolved tt,
     mkWorld (waterTests w) (users w) (leaderAlerts w ++ data) (globalAlerts w)
             (trace w)).

(** Modelled from the spec: [prisma.globalAlert.create({ data })] appends
    the row [data]. *)
Definition prisma_globalAlert_create (data : GlobalAlert.t) : M unit :=
  await (GlobalAlertCreate data) ;;;
  fun w =>
    (Resolved tt,
     mkWorld (waterTests w) (users w) (leaderAlerts w) (globalAlerts w ++ [data])
             (trace w)).

(** Modelled from the spec: [sendSMSWrapper(number, message)] of the SMS
    collaborator; the attempt is recorded in the trace with its outcome. *)
Definition sendSMSWrapper (number : Js.Value) (message : string) : M unit :=
  fun w =>
    let ok := resolves env w (SendSMS number message) in
    match emit (Sms number message ok) w with
    | (_, w') =>
        (if ok then Resolved tt else Rejected (SendSMS number message), w')
    end.

(** Modelled from the spec: [sendWhatsAppWrapper(number, message)] of the
    WhatsApp collaborator, with the same contract as the SMS one. *)
Definition sendWhatsAppWrapper (number : Js.Value) (message : string) : M unit :=
  fun w =>
    let ok := resolves env w (SendWhatsApp number message) in
    match emit (WhatsApp number message ok) w with
    | (_, w') =>
        (if ok then Resolved tt else Rejected (SendWhatsApp number message), w')
    end.

(** Modelled from the spec: [createOrUpdateHealthCard(req, res)] of the
    health-card collaborator; the controller passes a [res] whose [json]
    does nothing and ignores the result, so only the attempt and its
    outcome are recorded. *)
Definition createOrUpdateHealthCard (req : HealthCardReq.t) : M unit :=
  fun w =>
    let ok := resolves env w (CreateOrUpdateHealthCard req) in
    match emit (HealthCard req ok) w with
    | (_, w') =>
        (if ok then Resolved tt else Rejected (CreateOrUpdateHealthCard req), w')
    end.

(** *** createWaterTest *)

(** The helper declared inside [createWaterTest].  [test] converts its
    argument to a string, which is the argument itself where the test is
    reached. *)
Definition isValidPhoneNumber (number : Js.Value) : bool :=
  (Js.typeof number =? "string")
  && match Js.toString number with
     | Some s => Js.e164_test s
     | None => false
     end.

Definition requiredMessage : string :=
  "waterbodyName, dateTime, location, photoUrl, notes, quality are required".

(** The block under the banner ALERT HANDLING.  Each template literal
    converts its substitutions when it is evaluated: the one of the alert
    rows before the store is called, the one of the message at each
    recipient with a valid number, the one of the warning at each other
    recipient. *)
Definition alertHandling (req : Request) (normalizedQuality : string)
    (record : WaterTest.t) (formattedDate : string) : M unit :=
  let b := body req in
  if normalizedQuality =? "medium" then
    leaders <- prisma_user_findMany (Some "leader") ;;
    (if (0 <? List.length leaders)%nat then
       data <- mapM (fun l =>
                       name <- toStringM (WaterTest.waterbodyName record) ;;
                       ret (LeaderAlert.mk
                              (User.id l)
                              ("⚠️ Medium Water Quality at " ++ name)
                              (WaterTest.id record)))
                    leaders ;;
       prisma_leaderAlert_createMany data
     else ret tt) ;;;
    forOf leaders (fun leader =>
      if Js.truthy (User.number leader)
         && isValidPhoneNumber (User.number leader)
      then
        name <- toStringM (WaterTest.waterbodyName record) ;;
        location <- toStringM (Body.location b) ;;
        let alertMessage :=
          "⚠️ Medium Water Quality Alert" ++ nl
          ++ "Waterbody: " ++ name ++ nl
          ++ "Location: " ++ location ++ nl
          ++ "Date: " ++ formattedDate in
        sendSMSWrapper (User.number leader) alertMessage ;;;
        sendWhatsAppWrapper (User.number leader) alertMessage
      else
        number <- toStringM (User.number leader) ;;
        console_warn ("Skipping invalid leader number: " ++ number))
  else if normalizedQuality =? "high" then
    name <- toStringM (WaterTest.waterbodyName record) ;;
    prisma_globalAlert_create
      (GlobalAlert.mk
         ("🚨 High Risk Water Quality detected at " ++ name)
         (WaterTest.id record)) ;;;
    users <- prisma_user_findMany None ;;
    forOf users (fun user =>
      if Js.truthy (User.number user)
         && isValidPhoneNumber (User.number user)
      then
        name <- toStringM (WaterTest.waterbodyName record) ;;
        location <- toStringM (Body.location b) ;;
        let alertMessage :=
          "🚨 HIGH RISK ALERT" ++ nl
          ++ "Waterbody: " ++ name ++ nl
          ++ "Location: " ++ location ++ nl
          ++ "Date: " ++ formattedDate in
        sendSMSWrapper (User.number user) alertMessage ;;;
        sendWhatsAppWrapper (User.number user) alertMessage
      else
        number <- toStringM (User.number user) ;;
        console_warn ("Skipping invalid user number: " ++ number))
  else ret tt.

(** The block under the banner HEALTH CARD UPDATE, with its own
    [try]/[catch]. *)
Definition healthCardUpdate (req : Request) (record : WaterTest.t) : M unit :=
  tryCatch
    (let healthCardReq :=
       HealthCardReq.mk
         (WaterTest.waterbodyName record)
         (WaterTest.waterbodyId record)
         (WaterTest.location record)
         (WaterTest.latitude record)
         (WaterTest.longitude record)
         (user req) in
     createOrUpdateHealthCard healthCardReq)
    (fun healthCardError =>
       console_error "Error updating health card:" healthCardError).

Definition createWaterTest_try (req : Request) : M Response :=
  let b := body req in
  if negb (Js.truthy (Body.waterbodyName b))
     || negb (Js.truthy (Body.dateTime b))
     || negb (Js.truthy (Body.location b))
     || negb (Js.truthy (Body.photoUrl b))
     || negb (Js.truthy (Body.notes b))
     || negb (Js.truthy (Body.quality b))
  then ret (mkResponse 400 (Json.Message requiredMessage))
  else if negb (Js.includes ["asha"; "admin"; "leader"] (User.role (user req)))
  then ret (mkResponse 403 (Json.Message "forbidden"))
  else
    quality <- toStringM (Body.quality b) ;;
    let normalizedQuality := Js.toLowerCase quality in
    if negb (Js.includes ["good"; "medium"; "high"] normalizedQuality)
    then ret (mkResponse 400 (Json.Message "invalid quality"))
    else
      dateTime <- newDate (Body.dateTime b) ;;
      record <- prisma_waterTest_create
        (Data.mk
           (Body.waterbodyName b)
           (Js.or (Body.waterbodyId b) Js.Null)
           dateTime
           (Body.location b)
           (if Js.typeof (Body.latitude b) =? "number"
            then Body.latitude b else Js.Null)
           (if Js.typeof (Body.longitude b) =? "number"
            then Body.longitude b else Js.Null)
           (Body.photoUrl b)
           (Body.notes b)
           normalizedQuality
           (User.id (user req))) ;;
      date <- newDate (Body.dateTime b) ;;
      let formattedDate := toLocaleString env date in
      alertHandling req normalizedQuality record formattedDate ;;;
      healthCardUpdate req record ;;;
      ret (mkResponse 201 (Json.WaterTestId (WaterTest.id record))).

(** The outer [try]/[catch] that every handler has: a rejection is
    logged under the handler's name and answered with 500. *)
Definition catching (name : string) (m : M Response) : World -> Response * World :=
  fun w =>
    match m w with
    | (Resolved response, w') => (response, w')
    | (Rejected error, w') =>
        (mkResponse 500 (Json.Message "Internal Server Error"),
         snd (console_error (name ++ " error") error w'))
    end.

Definition createWaterTest (req : Request) : World -> Response * World :=
  catching "createWaterTest" (createWaterTest_try req).

(** *** updateWaterTest *)

Definition updateWaterTest_try (req : Request) : M Response :=
  let id := params_id req in
  let b := body req in
  existing <- prisma_waterTest_findUnique id ;;
  match existing with
  | None => ret (mkResponse 404 (Json.Message "water test not found"))
  | Some existing =>
      if negb ((User.role (user req) =? "admin")
               || (User.id (user req) =? WaterTest.ashaId existing))
      then ret (mkResponse 403 (Json.Message "forbidden"))
      else
        dateTime <- (if Js.truthy (Body.dateTime b)
                     then d <- newDate (Body.dateTime b) ;; ret (Some d)
                     else ret None) ;;
        let data (quality : option string) : Patch.t :=
          Patch.mk
            (if Js.truthy (Body.waterbodyName b)
             then Some (Body.waterbodyName b) else None)
            (if negb (Js.typeof (Body.waterbodyId b) =? "undefined")
             then Some (Js.or (Body.waterbodyId b) Js.Null) else None)
            dateTime
            (if Js.truthy (Body.location b)
             then Some (Body.location b) else None)
            (if Js.typeof (Body.latitude b) =? "number"
             then Some (Body.latitude b) else None)
            (if Js.typeof (Body.longitude b) =? "number"
             then Some (Body.longitude b) else None)
            (if Js.truthy (Body.photoUrl b)
             then Some (Body.photoUrl b) else None)
            (if Js.truthy (Body.notes b)
             then Some (Body.notes b) else None)
            quality in
        let update (quality : option string) : M Response :=
          updated <- prisma_waterTest_update id (data quality) ;;
          ret (mkResponse 200 (Json.WaterTestId (WaterTest.id updated))) in
        if Js.truthy (Body.quality b) then
          quality <- toStringM (Body.quality b) ;;
          let q := Js.toLowerCase quality in
          if negb (Js.includes ["good"; "medium"; "high"] q)
          then ret (mkResponse 400 (Json.Message "invalid quality"))
          else update (Some q)
        else update None
  end.

Definition updateWaterTest (req : Request) : World -> Response * World :=
  catching "updateWaterTest" (updateWaterTest_try req).

(** *** deleteWaterTest *)

Definition deleteWaterTest_try (req : Request) : M Response :=
  let id := params_id req in
  existing <- prisma_waterTest_findUnique id ;;
  match existing with
  | None => ret (mkResponse 404 (Json.Message "water test not found"))
  | Some existing =>
      if negb ((User.role (user req) =? "admin")
               || (User.id (user req) =? WaterTest.ashaId existing))
      then ret (mkResponse 403 (Json.Message "forbidden"))
      else
        prisma_waterTest_delete id ;;;
        ret (mkResponse 200 Json.Deleted)
  end.

Definition deleteWaterTest (req : Request) : World -> Response * World :=
  catching "deleteWaterTest" (deleteWaterTest_try req).

(** *** listAllWaterTests *)

Definition listAllWaterTests_try (req : Request) : M Response :=
  if negb (User.role (user req) =? "admin")
  then ret (mkResponse 403 (Json.Message "forbidden"))
  else
    items <- prisma_waterTest_findMany None ;;
    ret (mkResponse 200 (Json.Items items)).

Definition listAllWaterTests (req : Request) : World -> Response * World :=
  catching "listAllWaterTests" (listAllWaterTests_try req).

(** *** getUserWaterTests and getWaterTestsByUser *)

Definition getUserWaterTests_try (req : Request) : M Response :=
  items <- prisma_waterTest_findMany (Some (User.id (user req))) ;;
  ret (mkResponse 200 (Json.Items items)).

Definition getUserWaterTests (req : Request) : World -> Response * World :=
  catching "getUserWaterTests" (getUserWaterTests_try req).

Definition getWaterTestsByUser_try (req : Request) : M Response :=
  items <- prisma_waterTest_findMany (Some (User.id (user req))) ;;
  ret (mkResponse 200 (Json.Items items)).

Definition getWaterTestsByUser (req : Request) : World -> Response * World :=
  catching "getWaterTestsByUser" (getWaterTestsByUser_try req).

End Controller.

(** *** Stepping through a handler in a proof *)

(** The computation in hypothesis [H] starts with the awaited store call
    [op]: unfolds it and splits on whether the call resolves, which is
    recorded as [E]. *)
Ltac await_in H op E :=
  unfold bind at 1, op, bind at 1, await in H;
  match type of H with
  | context [resolves ?env ?w ?c] => destruct (resolves env w c) eqn:E
  end.

(** The same for a goal that starts with the awaited store call [op]. *)
Ltac await_goal op E :=
  unfold bind at 1, op, bind at 1, await;
  match goal with
  | |- context [resolves ?env ?w ?c] => destruct (resolves env w c) eqn:E
  end.

(** ** A concrete deployment, used to run the handlers *)

Module Fixture.

Definition epoch : Z := 1757584800000.

(** Every call resolves; ids are "wt" followed by the number of rows. *)
Definition reliable : Env :=
  mkEnv
    (fun _ _ => true)
    (fun w => "wt" ++ Js.digitsOf (Z.of_nat (List.length (waterTests w))))
    (fun w => (epoch + Z.of_nat (List.length (waterTests w)))%Z)
    (fun v => match v with
              | Js.Str "2025-09-11T10:00:00Z" => Some epoch
              | Js.Number m 0 => Some m
              | _ => None
              end)
    (fun d => match d with
              | Some _ => "Thu, 11 Sept 2025, 03:30 pm"
              | None => "Invalid Date"
              end).

(** As [reliable], except that every WhatsApp send rejects. *)
Definition whatsAppDown : Env :=
  mkEnv
    (fun _ c => match c with SendWhatsApp _ _ => false | _ => true end)
    (generateId reliable) (now reliable) (timeValue reliable)
    (toLocaleString reliable).

(** As [reliable], except that the health-card controller rejects. *)
Definition healthCardDown : Env :=
  mkEnv
    (fun _ c => match c with CreateOrUpdateHealthCard _ => false | _ => true end)
    (generateId reliable) (now reliable) (timeValue reliable)
    (toLocaleString reliable).

Definition asha : User.t := User.mk "u1" "asha" (Js.Str "+919876543210").
Definition other : User.t := User.mk "u2" "asha" Js.Null.
Definition leader1 : User.t := User.mk "l1" "leader" (Js.Str "+911234567890").
Definition leader2 : User.t := User.mk "l2" "leader" (Js.Str "invalid").
Definition admin : User.t := User.mk "a1" "admin" Js.Null.
Definition villager : User.t := User.mk "v1" "villager" (Js.Str "+919000000001").

Definition stored : WaterTest.t :=
  WaterTest.mk "wt0" (Js.Str "Yamuna") Js.Null (Some epoch) (Js.Str "Delhi")
    (Js.Number 286139 (-4)) (Js.Number 772090 (-4))
    (Js.Str "https://cdn.example/p.jpg") (Js.Str "turbid") "good" "u1" epoch.

Definition empty : World :=
  mkWorld [] [asha; other; leader1; leader2; admin; villager] [] [] [].

Definition world : World :=
  mkWorld [stored] [asha; other; leader1; leader2; admin; villager] [] [] [].

Definition form (quality : Js.Value) : Body.t :=
  Body.mk (Js.Str "Yamuna") Js.Undefined (Js.Str "2025-09-11T10:00:00Z")
    (Js.Str "Delhi") (Js.Number 286139 (-4)) (Js.Number 772090 (-4))
    (Js.Str "https://cdn.example/p.jpg") (Js.Str "turbid") quality.

Definition noChange : Body.t :=
  Body.mk Js.Undefined Js.Undefined Js.Undefined Js.Undefined Js.Undefined
    Js.Undefined Js.Undefined Js.Undefined Js.Undefined.

(** Three rows: an old one and a new one of [asha], one of [other]. *)
Definition three : World :=
  mkWorld
    [stored;
     WaterTest.mk "wt1" (Js.Str "Ganga") Js.Null (Some epoch) (Js.Str "Patna")
       Js.Null Js.Null (Js.Str "https://cdn.example/q.jpg") (Js.Str "clear")
       "good" "u2" (epoch + 1);
     WaterTest.mk "wt2" (Js.Str "Hindon") Js.Null (Some epoch) (Js.Str "Noida")
       Js.Null Js.Null (Js.Str "https://cdn.example/r.jpg") (Js.Str "foam")
       "high" "u1" (epoch + 2)]
    [asha; other] [] [] [].

End Fixture.

(** ** Vocabulary of the properties *)

(** A send was attempted. *)
Definition isSend (e : Effect) : bool :=
  match e with
  | Sms _ _ _ | WhatsApp _ _ _ => true
  | _ => false
  end.

(** A send was attempted and its promise rejected. *)
Definition failedSend (e : Effect) : bool :=
  match e with
  | Sms _ _ false | WhatsApp _ _ false => true
  | _ => false
  end.

Definition isHealthCard (e : Effect) : bool :=
  match e with
  | HealthCard _ _ => true
  | _ => false
  end.

(** The calls that go to the Prisma client. *)
Definition isPrisma (c : Call) : bool :=
  match c with
  | SendSMS _ _ | SendWhatsApp _ _ | CreateOrUpdateHealthCard _ => false
  | _ => true
  end.

(** The persistence layer answers every call. *)
Definition persistenceUp (env : Env) : Prop :=
  forall w c, isPrisma c = true -> resolves env w c = true.

(** The number is a string matching [^\+\d{10,15}$]. *)
Definition matchesE164 (number : Js.Value) : Prop :=
  exists s, number = Js.Str s /\ Js.e164_test s = true.

(** What the fan-out loops may leave in the trace: sends to the valid
    number of one of the recipients, and warnings. *)
Definition fanOutEffect (recipients : list User.t) (e : Effect) : Prop :=
  match e with
  | Sms n _ _ | WhatsApp n _ _ =>
      matchesE164 n /\ exists u, In u recipients /\ User.number u = n
  | ConsoleWarn _ => True
  | _ => False
  end.

(** Same rows in the four tables. *)
Definition sameTables (w w' : World) : Prop :=
  waterTests w' = waterTests w /\ users w' = users w /\
  leaderAlerts w' = leaderAlerts w /\ globalAlerts w' = globalAlerts w.

(** The condition of the first [if] of [createWaterTest]. *)
Definition missingRequired (b : Body.t) : bool :=
  negb (Js.truthy (Body.waterbodyName b))
  || negb (Js.truthy (Body.dateTime b))
  || negb (Js.truthy (Body.location b))
  || negb (Js.truthy (Body.photoUrl b))
  || negb (Js.truthy (Body.notes b))
  || negb (Js.truthy (Body.quality b)).

(** The string form of a value that has one.  For a value without, which
    no handler gets past, the empty string stands in. *)
Definition textOf (v : Js.Value) : string :=
  match Js.toString v with
  | Some s => s
  | None => ""
  end.

(** [String(quality).toLowerCase()], for a quality that converts. *)
Definition normalize (quality : Js.Value) : string :=
  Js.toLowerCase (textOf quality).

(** The [data] object of [createWaterTest], once its quality and its
    dateTime have been converted. *)
Definition createData (env : Env) (req : Request) : Data.t :=
  let b := body req in
  Data.mk
    (Body.waterbodyName b)
    (Js.or (Body.waterbodyId b) Js.Null)
    (timeValue env (Body.dateTime b))
    (Body.location b)
    (if Js.typeof (Body.latitude b) =? "number" then Body.latitude b else Js.Null)
    (if Js.typeof (Body.longitude b) =? "number" then Body.longitude b else Js.Null)
    (Body.photoUrl b)
    (Body.notes b)
    (normalize (Body.quality b))
    (User.id (user req)).

(** The row that [prisma.waterTest.create] inserts in world [w]. *)
Definition createdRow (env : Env) (data : Data.t) (w : World) : WaterTest.t :=
  WaterTest.mk (generateId env w)
    (Data.waterbodyName data) (Data.waterbodyId data) (Data.dateTime data)
    (Data.location data) (Data.latitude data) (Data.longitude data)
    (Data.photoUrl data) (Data.notes data) (Data.quality data)
    (Data.ashaId data) (now env w).

(** The in-app alert a leader gets for a record of medium quality. *)
Definition leaderAlertFor (record : WaterTest.t) (l : User.t) : LeaderAlert.t :=
  LeaderAlert.mk (User.id l)
    ("⚠️ Medium Water Quality at " ++ textOf (WaterTest.waterbodyName record))
    (WaterTest.id record).

Definition leadersOf (w : World) : list User.t :=
  filter (fun u => User.role u =? "leader") (users w).

(** Newer rows first. *)
Definition newerFirst (a b : WaterTest.t) : Prop :=
  (WaterTest.createdAt b <= WaterTest.createdAt a)%Z.

(** Whom the alert block of [createWaterTest] may notify for a quality. *)
Definition alertRecipients (q : string) (w : World) : list User.t :=
  if q =? "medium" then leadersOf w
  else if q =? "high" then users w
  else [].

(** The rows the alert block inserts for a quality. *)
Definition insertedLeaderAlerts (q : string) (record : WaterTest.t) (w : World)
  : list LeaderAlert.t :=
  if q =? "medium" then map (leaderAlertFor record) (leadersOf w) else [].

Definition globalAlertFor (record : WaterTest.t) : GlobalAlert.t :=
  GlobalAlert.mk
    ("🚨 High Risk Water Quality detected at "
       ++ textOf (WaterTest.waterbodyName record))
    (WaterTest.id record).

Definition insertedGlobalAlerts (q : string) (record : WaterTest.t)
  : list GlobalAlert.t :=
  if q =? "medium" then []
  else if q =? "high" then [globalAlertFor record]
  else [].

(** The number a send went to. *)
Definition recipient (e : Effect) : option Js.Value :=
  match e with
  | Sms n _ _ | WhatsApp n _ _ => Some n
  | _ => None
  end.

(** [new Date(dateTime).toLocaleString("en-IN", ...)], for a dateTime
    that converts. *)
Definition formattedDate (env : Env) (req : Request) : string :=
  toLocaleString env (timeValue env (Body.dateTime (body req))).

Definition internalError : Response :=
  mkResponse 500 (Json.Message "Internal Server Error").

(** The same send, had it resolved. *)
Definition settled (e : Effect) : Effect :=
  match e with
  | Sms n m _ => Sms n m true
  | WhatsApp n m _ => WhatsApp n m true
  | _ => e
  end.

(** The call behind a send. *)
Definition callOf (e : Effect) : option Call :=
  match e with
  | Sms n m _ => Some (SendSMS n m)
  | WhatsApp n m _ => Some (SendWhatsApp n m)
  | _ => None
  end.

(** What a fan-out over [xs] leaves in the trace when every send resolves:
    an SMS and a WhatsApp message for each valid number, a warning for
    each other one, in the order of [xs], up to the first recipient at
    which a template literal throws: a valid number when the message has
    no text, or a number that has no string form. *)
Fixpoint fanOutPlan (message : option string) (warning : string) (xs : list User.t)
  : list Effect :=
  match xs with
  | [] => []
  | u :: rest =>
      if Js.truthy (User.number u) && isValidPhoneNumber (User.number u)
      then match message with
           | Some m =>
               Sms (User.number u) m true :: WhatsApp (User.number u) m true
               :: fanOutPlan message warning rest
           | None => []
           end
      else match Js.toString (User.number u) with
           | Some number =>
               ConsoleWarn (warning ++ number) :: fanOutPlan message warning rest
           | None => []
           end
  end.

(** The two message templates of [createWaterTest]: [None] when the
    waterbody name or the location has no string form. *)
Definition mediumAlertMessage (req : Request) (record : WaterTest.t) (date : string)
  : option string :=
  match Js.toString (WaterTest.waterbodyName record),
        Js.toString (Body.location (body req)) with
  | Some name, Some location =>
      Some ("⚠️ Medium Water Quality Alert" ++ nl
            ++ "Waterbody: " ++ name ++ nl
            ++ "Location: " ++ location ++ nl
            ++ "Date: " ++ date)
  | _, _ => None
  end.

Definition highAlertMessage (req : Request) (record : WaterTest.t) (date : string)
  : option string :=
  match Js.toString (WaterTest.waterbodyName record),
        Js.toString (Body.location (body req)) with
  | Some name, Some location =>
      Some ("🚨 HIGH RISK ALERT" ++ nl
            ++ "Waterbody: " ++ name ++ nl
            ++ "Location: " ++ location ++ nl
            ++ "Date: " ++ date)
  | _, _ => None
  end.

(** What the alert block of [createWaterTest] leaves in the trace when
    every call resolves and the alert rows could be built. *)
Definition alertPlan (req : Request) (q : string) (record : WaterTest.t)
    (date : string) (w : World) : list Effect :=
  if q =? "medium" then
    fanOutPlan (mediumAlertMessage req record date)
      "Skipping invalid leader number: " (leadersOf w)
  else if q =? "high" then
    fanOutPlan (highAlertMessage req record date)
      "Skipping invalid user number: " (users w)
  else [].

(** The request gets as far as the insert: it passes the three checks
    that precede it, and its quality and its dateTime convert. *)
Definition accepted (req : Request) : bool :=
  negb (missingRequired (body req))
  && Js.includes ["asha"; "admin"; "leader"] (User.role (user req))
  && negb (Js.throws (Body.quality (body req)))
  && Js.includes ["good"; "medium"; "high"] (normalize (Body.quality (body req)))
  && negb (Js.throws (Body.dateTime (body req))).

(** The health-card request that [createWaterTest] builds for a record. *)
Definition healthCardReqFor (req : Request) (record : WaterTest.t) : HealthCardReq.t :=
  HealthCardReq.mk
    (WaterTest.waterbodyName record) (WaterTest.waterbodyId record)
    (WaterTest.location record) (WaterTest.latitude record)
    (WaterTest.longitude record) (user req).

(** What the health-card block leaves in the trace. *)
Definition healthCardTrace (req : Request) (record : WaterTest.t) (ok : bool)
  : list Effect :=
  HealthCard (healthCardReqFor req record) ok
  :: (if ok then []
      else [ConsoleError "Error updating health card:"
              (CreateOrUpdateHealthCard (healthCardReqFor req record))]).

(** The six ways an accepted [createWaterTest] ends, from world [w], with
    response [res] in world [w']. *)
Inductive CreateEnding (env : Env) (req : Request) (w : World)
    (res : Response) (w' : World) : Prop :=
| InsertRejected :
    resolves env w (WaterTestCreate (createData env req)) = false ->
    sameTables w w' ->
    trace w' = (trace w ++ [ConsoleError "createWaterTest error"
                              (WaterTestCreate (createData env req))])%list ->
    res = internalError ->
    CreateEnding env req w res w'
| AlertStoreRejected (c : Call) (w0 : World) :
    resolves env w (WaterTestCreate (createData env req)) = true ->
    isPrisma c = true -> resolves env w0 c = false ->
    waterTests w' = (waterTests w ++ [createdRow env (createData env req) w])%list ->
    users w' = users w ->
    trace w' = (trace w ++ [ConsoleError "createWaterTest error" c])%list ->
    res = internalError ->
    CreateEnding env req w res w'
| AlertRowThrew :
    resolves env w (WaterTestCreate (createData env req)) = true ->
    Js.toString (Body.waterbodyName (body req)) = None ->
    waterTests w' = (waterTests w ++ [createdRow env (createData env req) w])%list ->
    users w' = users w ->
    leaderAlerts w' = leaderAlerts w ->
    globalAlerts w' = globalAlerts w ->
    trace w' = (trace w ++ [ConsoleError "createWaterTest error" TypeError])%list ->
    res = internalError ->
    CreateEnding env req w res w'
| FanOutThrew :
    resolves env w (WaterTestCreate (createData env req)) = true ->
    waterTests w' = (waterTests w ++ [createdRow env (createData env req) w])%list ->
    users w' = users w ->
    leaderAlerts w' =
      (leaderAlerts w ++
       insertedLeaderAlerts (normalize (Body.quality (body req)))
         (createdRow env (createData env req) w) w)%list ->
    globalAlerts w' =
      (globalAlerts w ++
       insertedGlobalAlerts (normalize (Body.quality (body req)))
         (createdRow env (createData env req) w))%list ->
    trace w' =
      (trace w
         ++ alertPlan req (normalize (Body.quality (body req)))
              (createdRow env (createData env req) w) (formattedDate env req) w
         ++ [ConsoleError "createWaterTest error" TypeError])%list ->
    res = internalError ->
    CreateEnding env req w res w'
| SendRejected (before rest : list Effect) (last : Effect) (c : Call) :
    resolves env w (WaterTestCreate (createData env req)) = true ->
    waterTests w' = (waterTests w ++ [createdRow env (createData env req) w])%list ->
    users w' = users w ->
    leaderAlerts w' =
      (leaderAlerts w ++
       insertedLeaderAlerts (normalize (Body.quality (body req)))
         (createdRow env (createData env req) w) w)%list ->
    globalAlerts w' =
      (globalAlerts w ++
       insertedGlobalAlerts (normalize (Body.quality (body req)))
         (createdRow env (createData env req) w))%list ->
    alertPlan req (normalize (Body.quality (body req)))
      (createdRow env (createData env req) w) (formattedDate env req) w =
      (before ++ settled last :: rest)%list ->
    failedSend last = true ->
    callOf last = Some c ->
    trace w' = (trace w ++ before
                  ++ [last; ConsoleError "createWaterTest error" c])%list ->
    res = internalError ->
    CreateEnding env req w res w'
| Answered (ok : bool) :
    resolves env w (WaterTestCreate (createData env req)) = true ->
    waterTests w' = (waterTests w ++ [createdRow env (createData env req) w])%list ->
    users w' = users w ->
    leaderAlerts w' =
      (leaderAlerts w ++
       insertedLeaderAlerts (normalize (Body.quality (body req)))
         (createdRow env (createData env req) w) w)%list ->
    globalAlerts w' =
      (globalAlerts w ++
       insertedGlobalAlerts (normalize (Body.quality (body req)))
         (createdRow env (createData env req) w))%list ->
    trace w' =
      (trace w
         ++ alertPlan req (normalize (Body.quality (body req)))
              (createdRow env (createData env req) w) (formattedDate env req) w
         ++ healthCardTrace req (createdRow env (createData env req) w) ok)%list ->
    res = mkResponse 201
            (Json.WaterTestId (WaterTest.id (createdRow env (createData env req) w))) ->
    CreateEnding env req w res w'.

(** The [data] object of [updateWaterTest] once every key is assigned,
    for a dateTime and a quality that convert. *)
Definition patchOf (env : Env) (req : Request) : Patch.t :=
  let b := body req in
  Patch.mk
    (if Js.truthy (Body.waterbodyName b) then Some (Body.waterbodyName b) else None)
    (if negb (Js.typeof (Body.waterbodyId b) =? "undefined")
     then Some (Js.or (Body.waterbodyId b) Js.Null) else None)
    (if Js.truthy (Body.dateTime b) then Some (timeValue env (Body.dateTime b)) else None)
    (if Js.truthy (Body.location b) then Some (Body.location b) else None)
    (if Js.typeof (Body.latitude b) =? "number" then Some (Body.latitude b) else None)
    (if Js.typeof (Body.longitude b) =? "number" then Some (Body.longitude b) else None)
    (if Js.truthy (Body.photoUrl b) then Some (Body.photoUrl b) else None)
    (if Js.truthy (Body.notes b) then Some (Body.notes b) else None)
    (if Js.truthy (Body.quality b) then Some (normalize (Body.quality b)) else None).

(** [prisma.waterTest.findUnique] on the rows of a world. *)
Definition lookup (id : string) (w : World) : option WaterTest.t :=
  find (fun r => WaterTest.id r =? id) (waterTests w).

(** The caller may update or delete the row. *)
Definition mayWrite (caller : User.t) (row : WaterTest.t) : bool :=
  (User.role caller =? "admin") || (User.id caller =? WaterTest.ashaId row).

(** One round of a fan-out loop, for a message that is [None] when its
    template throws. *)
Definition notify (env : Env) (message : option string) (warning : string)
    (u : User.t) : M unit :=
  if Js.truthy (User.number u) && isValidPhoneNumber (User.number u)
  then match message with
       | Some m =>
           sendSMSWrapper env (User.number u) m ;;;
           sendWhatsAppWrapper env (User.number u) m
       | None => throw TypeError
       end
  else
    number <- toStringM (User.number u) ;;
    console_warn (warning ++ number).

(** How a fan-out with plan [plan] ends, having left [new] in the trace:
    it resolves after the whole plan, or a template literal throws where
    the plan ends, or it rejects with the call of the first send that
    rejected, after an initial part of the plan. *)
Definition fanOutEnds (plan : list Effect) (o : Outcome unit) (new : list Effect)
  : Prop :=
  match o with
  | Resolved _ => new = plan
  | Rejected TypeError => new = plan
  | Rejected (CallRejected c) =>
      exists before last rest,
        new = (before ++ [last])%list /\ failedSend last = true /\
        callOf last = Some c /\
        plan = (before ++ settled last :: rest)%list
  end.

(** What the alert block has done when it ends in world [w'] with
    outcome [o]: the persistence layer rejected before any send, or the
    template of the alert rows threw, or the rows are inserted and the
    fan-out ran. *)
Definition alertOutcome (env : Env) (req : Request) (q : string)
    (record : WaterTest.t) (date : string)
    (w : World) (o : Outcome unit) (w' : World) : Prop :=
  waterTests w' = waterTests w /\ users w' = users w /\
  exists new,
    trace w' = (trace w ++ new)%list /\
    ((exists (c : Call) w0, o = Rejected c /\ isPrisma c = true /\
                            resolves env w0 c = false /\ new = [])
     \/
     (o = Rejected TypeError /\
      Js.toString (WaterTest.waterbodyName record) = None /\ new = [] /\
      leaderAlerts w' = leaderAlerts w /\ globalAlerts w' = globalAlerts w)
     \/
     (fanOutEnds (alertPlan req q record date w) o new /\
      leaderAlerts w' = (leaderAlerts w ++ insertedLeaderAlerts q record w)%list /\
      globalAlerts w' = (globalAlerts w ++ insertedGlobalAlerts q record)%list)).

(** ** Vocabulary of the further properties *)

(** What a handler that writes nothing but the WaterTest table, and that
    only when it answers [okStatus], leaves behind: the other tables as
    they were, and a trace that grew by at most the error log of the outer
    catch, which goes with a 500. *)
Definition writesOnlyWaterTests (name : string) (okStatus : nat)
    (w : World) (res : Response) (w' : World) : Prop :=
  users w' = users w /\
  leaderAlerts w' = leaderAlerts w /\
  globalAlerts w' = globalAlerts w /\
  (status res <> okStatus -> waterTests w' = waterTests w) /\
  (status res <> 500 -> trace w' = trace w) /\
  (status res = 500 ->
     exists c, trace w' = (trace w ++ [ConsoleError (name ++ " error") c])%list).

(** One of the three checks of [createWaterTest] fails: a required field
    is missing, or the role is not allowed, or the quality converts to a
    string that is none of the three levels. *)
Definition refused (req : Request) : bool :=
  missingRequired (body req)
  || negb (Js.includes ["asha"; "admin"; "leader"] (User.role (user req)))
  || (negb (Js.throws (Body.quality (body req)))
      && negb (Js.includes ["good"; "medium"; "high"]
                 (normalize (Body.quality (body req))))).

(** The request addresses the row with this id. *)
Definition hasId (id : string) (r : WaterTest.t) : bool := WaterTest.id r =? id.

(** A scenario for the listing and deleting handlers. *)
Module Scenario.

Definition deleteReq (id : string) (caller : User.t) : Request :=
  mkRequest id Fixture.noChange caller.

(** Two alerts that reference the stored test "wt0". *)
Definition alerted : World :=
  mkWorld (waterTests Fixture.three) (users Fixture.three)
    [LeaderAlert.mk "l1" "⚠️ Medium Water Quality at Yamuna" "wt0"]
    [GlobalAlert.mk "🚨 High Risk Water Quality detected at Yamuna" "wt0"]
    [].

End Scenario.

(** The quality column holds one of the three levels. *)
Definition qualityInRange (r : WaterTest.t) : Prop :=
  In (WaterTest.quality r) ["good"; "medium"; "high"].

(** [null] or a number: what the handlers put in a coordinate column. *)
Definition nullOrNumber (v : Js.Value) : bool :=
  match v with
  | Js.Null | Js.Number _ _ => true
  | _ => false
  end.

Definition coordinatesTyped (r : WaterTest.t) : Prop :=
  nullOrNumber (WaterTest.latitude r) = true /\
  nullOrNumber (WaterTest.longitude r) = true.

(** No test of [updateWaterTest] lets a field of the body through: the
    fields tested for truthiness are falsy, waterbodyId is absent, the
    coordinates are no numbers. *)
Definition nothingToApply (b : Body.t) : bool :=
  negb (Js.truthy (Body.waterbodyName b))
  && (Js.typeof (Body.waterbodyId b) =? "undefined")
  && negb (Js.truthy (Body.dateTime b))
  && negb (Js.truthy (Body.location b))
  && negb (Js.typeof (Body.latitude b) =? "number")
  && negb (Js.typeof (Body.longitude b) =? "number")
  && negb (Js.truthy (Body.photoUrl b))
  && negb (Js.truthy (Body.notes b))
  && negb (Js.truthy (Body.quality b)).

(** * Properties *)

(** ** The JavaScript layer on examples *)

Example numberToString_latitude : Js.numberToString 286139 (-4) = "28.6139".
Proof. reflexivity. Qed.
Example numberToString_int : Js.numberToString 1200 0 = "1200".
Proof. reflexivity. Qed.
Example numberToString_exp : Js.numberToString (-15) 20 = "-1.5e+21".
Proof. reflexivity. Qed.
Example numberToString_small : Js.numberToString 1 (-6) = "0.000001".
Proof. reflexivity. Qed.
Example numberToString_tiny : Js.numberToString 15 (-8) = "1.5e-7".
Proof. reflexivity. Qed.
Example toLowerCase_High : Js.toLowerCase "HiGH" = "high".
Proof. reflexivity. Qed.
Example e164_ok : Js.e164_test "+911234567890" = true.
Proof. reflexivity. Qed.
Example e164_bad : Js.e164_test "invalid" = false.
Proof. reflexivity. Qed.

(** ** Facts about the JavaScript layer *)

Lemma validNumber_iff (n : Js.Value) :
  Js.truthy n && isValidPhoneNumber n = true <-> matchesE164 n.
Proof.
  unfold isValidPhoneNumber, matchesE164. split.
  - intros H. apply andb_true_iff in H as [_ H].
    apply andb_true_iff in H as [Ht Hr].
    destruct n; simpl in Ht; try discriminate. cbn [Js.toString] in Hr. eauto.
  - intros [s [-> Hs]]. cbn [Js.toString Js.typeof]. rewrite Hs.
    destruct s as [|c s]; [discriminate | reflexivity].
Qed.

(** The conversions throw for the same values. *)
Lemma throws_toString (v : Js.Value) :
  Js.toString v = if Js.throws v then None else Some (textOf v).
Proof. unfold textOf. destruct v as [| |[]| | |[s|]]; reflexivity. Qed.

Lemma toString_textOf (v : Js.Value) (s : string) :
  Js.toString v = Some s -> textOf v = s.
Proof. unfold textOf. now intros ->. Qed.

Lemma toString_throws (v : Js.Value) :
  Js.toString v = None <-> Js.throws v = true.
Proof. rewrite throws_toString. destruct (Js.throws v); split; congruence. Qed.

(** ** Facts about the promise monad and the collaborators *)

(** The monad laws, world by world. *)
Lemma bind_ret_l {A B : Type} (a : A) (k : A -> M B) (w : World) :
  bind (ret a) k w = k a w.
Proof. reflexivity. Qed.

Lemma bind_ret_r {A : Type} (m : M A) (w : World) :
  bind m ret w = m w.
Proof. unfold bind, ret. now destruct (m w) as [[a|e] w']. Qed.

Lemma bind_assoc {A B C : Type} (m : M A) (k : A -> M B) (h : B -> M C)
    (w : World) :
  bind (bind m k) h w = bind m (fun a => bind (k a) h) w.
Proof. unfold bind. now destruct (m w) as [[a|e] w']. Qed.

(** A rejection inside [tryCatch] never leaves it when the handler
    resolves. *)
Lemma tryCatch_resolves {A : Type} (m : M A) (handler : Error -> M A) (w : World) :
  (forall e w', exists a w'', handler e w' = (Resolved a, w'')) ->
  exists a w', tryCatch m handler w = (Resolved a, w').
Proof.
  intros Hh. unfold tryCatch. destruct (m w) as [[a|e] w']; eauto.
Qed.

(** A conversion changes nothing: it gives the string or throws. *)
Lemma toStringM_run (v : Js.Value) (w : World) :
  toStringM v w =
  if Js.throws v then (Rejected TypeError, w) else (Resolved (textOf v), w).
Proof.
  unfold toStringM. rewrite throws_toString. now destruct (Js.throws v).
Qed.

Lemma bind_toStringM {A : Type} (v : Js.Value) (k : string -> M A) (w : World) :
  bind (toStringM v) k w =
  if Js.throws v then (Rejected TypeError, w) else k (textOf v) w.
Proof. unfold bind. rewrite toStringM_run. now destruct (Js.throws v). Qed.

Section Collaborators.

Variable env : Env.

Lemma emit_run (e : Effect) (w : World) :
  emit e w =
  (Resolved tt,
   mkWorld (waterTests w) (users w) (leaderAlerts w) (globalAlerts w)
           (trace w ++ [e])).
Proof. reflexivity. Qed.

Lemma sameTables_refl (w : World) : sameTables w w.
Proof. repeat split. Qed.

Lemma bind_newDate {A : Type} (v : Js.Value) (k : Date -> M A) (w : World) :
  bind (newDate env v) k w =
  if Js.throws v then (Rejected TypeError, w) else k (timeValue env v) w.
Proof. unfold bind, newDate. now destruct (Js.throws v). Qed.

(** The rows for [createMany]: the callback throws at the first leader
    when the waterbody name has no string form. *)
Lemma mapM_alertRows (record : WaterTest.t) (xs : list User.t) (w : World) :
  mapM (fun l =>
          name <- toStringM (WaterTest.waterbodyName record) ;;
          ret (LeaderAlert.mk (User.id l)
                 ("⚠️ Medium Water Quality at " ++ name) (WaterTest.id record)))
       xs w =
  match xs with
  | [] => (Resolved [], w)
  | _ :: _ =>
      if Js.throws (WaterTest.waterbodyName record) then (Rejected TypeError, w)
      else (Resolved (map (leaderAlertFor record) xs), w)
  end.
Proof.
  induction xs as [|x xs IH]; [reflexivity|].
  cbn [mapM]. unfold bind at 1. rewrite bind_toStringM.
  destruct (Js.throws (WaterTest.waterbodyName record)) eqn:Hn; [reflexivity|].
  unfold ret at 1. unfold bind at 1. rewrite IH.
  destruct xs; reflexivity.
Qed.

(** The health-card block never rejects and never touches a table. *)
Lemma healthCardUpdate_run (req : Request) (record : WaterTest.t) (w : World) :
  exists w' ok,
    healthCardUpdate env req record w = (Resolved tt, w') /\
    sameTables w w' /\
    trace w' = (trace w ++ healthCardTrace req record ok)%list.
Proof.
  unfold healthCardUpdate, tryCatch, createOrUpdateHealthCard, healthCardTrace,
    healthCardReqFor.
  simpl.
  destruct (resolves env w _) eqn:Hr.
  - eexists; exists true. repeat split.
  - eexists; exists false. repeat split. simpl.
    now rewrite <- app_assoc.
Qed.

End Collaborators.

Section FanOut.

Variable env : Env.

Lemma fanOutEnds_cons (plan : list Effect) (o : Outcome unit) (e : Effect)
    (new : list Effect) :
  fanOutEnds plan o new -> fanOutEnds (e :: plan) o (e :: new).
Proof.
  destruct o as [u|[c|]]; simpl.
  - now intros ->.
  - intros (before & last & rest & -> & Hl & Hc & ->).
    exists (e :: before), last, rest. auto.
  - now intros ->.
Qed.

(** A fan-out loop leaves the tables alone and follows its plan until a
    send rejects or a template literal throws. *)
Lemma forOf_notify (body : User.t -> M unit) (message : option string)
    (warning : string) :
  (forall u w, body u w = notify env message warning u w) ->
  forall xs w o w',
    forOf xs body w = (o, w') ->
    sameTables w w' /\
    exists new,
      trace w' = (trace w ++ new)%list /\
      fanOutEnds (fanOutPlan message warning xs) o new.
Proof.
  intros Hbody.
  assert (Hthrow : forall w, sameTables w w /\
            exists new, trace w = (trace w ++ new)%list /\
                        fanOutEnds [] (@Rejected unit TypeError) new).
  { intros w. split; [apply sameTables_refl|].
    exists []. now rewrite app_nil_r. }
  induction xs as [|x xs IH]; intros w o w' Hrun.
  - injection Hrun as <- <-. split; [apply sameTables_refl|].
    exists []. rewrite app_nil_r. split; reflexivity.
  - cbn [forOf] in Hrun. unfold bind at 1 in Hrun. rewrite Hbody in Hrun.
    unfold notify in Hrun. cbn [fanOutPlan].
    destruct (Js.truthy (User.number x) && isValidPhoneNumber (User.number x)).
    + destruct message as [m|]; [|injection Hrun as <- <-; apply Hthrow].
      unfold bind at 1, sendSMSWrapper in Hrun. rewrite emit_run in Hrun.
      destruct (resolves env w (SendSMS (User.number x) m)) eqn:Hs.
      * unfold sendWhatsAppWrapper in Hrun. rewrite emit_run in Hrun.
        match type of Hrun with context [resolves env ?w1 (SendWhatsApp _ _)] =>
          destruct (resolves env w1 (SendWhatsApp (User.number x) m)) eqn:Hw
        end.
        -- apply IH in Hrun. destruct Hrun as (Ht & new & Htr & Hend).
           split; [exact Ht|].
           exists (Sms (User.number x) m true
                     :: WhatsApp (User.number x) m true :: new).
           split; [rewrite Htr; simpl; now rewrite <- !app_assoc|].
           now do 2 apply fanOutEnds_cons.
        -- injection Hrun as <- <-. split; [repeat split|].
           exists [Sms (User.number x) m true;
                   WhatsApp (User.number x) m false].
           split; [simpl; now rewrite <- app_assoc|].
           exists [Sms (User.number x) m true],
                  (WhatsApp (User.number x) m false),
                  (fanOutPlan (Some m) warning xs).
           repeat split.
      * injection Hrun as <- <-. split; [repeat split|].
        exists [Sms (User.number x) m false].
        split; [reflexivity|].
        exists [], (Sms (User.number x) m false),
               (WhatsApp (User.number x) m true
                  :: fanOutPlan (Some m) warning xs).
        repeat split.
    + unfold bind at 1, toStringM in Hrun.
      destruct (Js.toString (User.number x)) as [number|];
        [|injection Hrun as <- <-; apply Hthrow].
      unfold ret at 1, console_warn in Hrun. rewrite emit_run in Hrun.
      apply IH in Hrun. destruct Hrun as (Ht & new & Htr & Hend).
      split; [exact Ht|].
      exists (ConsoleWarn (warning ++ number) :: new).
      split; [rewrite Htr; simpl; now rewrite <- app_assoc|].
      now apply fanOutEnds_cons.
Qed.

(** The loop bodies of [alertHandling] are rounds of a fan-out. *)
Lemma round_template (message : string -> string -> string) (req : Request)
    (record : WaterTest.t) (warning : string) (u : User.t) (w : World) :
  (if Js.truthy (User.number u) && isValidPhoneNumber (User.number u)
   then
     name <- toStringM (WaterTest.waterbodyName record) ;;
     location <- toStringM (Body.location (body req)) ;;
     sendSMSWrapper env (User.number u) (message name location) ;;;
     sendWhatsAppWrapper env (User.number u) (message name location)
   else
     number <- toStringM (User.number u) ;;
     console_warn (warning ++ number)) w =
  notify env
    (match Js.toString (WaterTest.waterbodyName record),
           Js.toString (Body.location (body req)) with
     | Some name, Some location => Some (message name location)
     | _, _ => None
     end)
    warning u w.
Proof.
  unfold notify.
  destruct (Js.truthy (User.number u) && isValidPhoneNumber (User.number u));
    [|reflexivity].
  unfold bind at 1, toStringM at 1.
  destruct (Js.toString (WaterTest.waterbodyName record)) as [name|];
    [|reflexivity].
  unfold ret at 1, bind at 1, toStringM at 1.
  destruct (Js.toString (Body.location (body req))) as [location|]; reflexivity.
Qed.

End FanOut.

(** ** What a plan contains *)

Lemma fanOutPlan_effects (message : option string) (warning : string)
    (recipients xs : list User.t) :
  incl xs recipients ->
  Forall (fanOutEffect recipients) (fanOutPlan message warning xs).
Proof.
  induction xs as [|x xs IH]; intros Hincl; cbn [fanOutPlan]; [constructor|].
  assert (Hx : In x recipients) by (apply Hincl; now left).
  assert (Hxs : incl xs recipients) by (intros y Hy; apply Hincl; now right).
  destruct (Js.truthy (User.number x) && isValidPhoneNumber (User.number x)) eqn:Hv.
  - destruct message as [m|]; [|constructor].
    apply validNumber_iff in Hv.
    assert (Hfx : matchesE164 (User.number x) /\
                  exists u, In u recipients /\ User.number u = User.number x)
      by eauto.
    constructor; [exact Hfx|]. constructor; [exact Hfx | now apply IH].
  - destruct (Js.toString (User.number x)); [|constructor].
    constructor; [exact I | now apply IH].
Qed.

Lemma fanOutPlan_resolved (message : option string) (warning : string)
    (xs : list User.t) :
  Forall (fun e => failedSend e = false) (fanOutPlan message warning xs).
Proof.
  induction xs as [|x xs IH]; cbn [fanOutPlan]; [constructor|].
  destruct (Js.truthy (User.number x) && isValidPhoneNumber (User.number x)).
  - destruct message; [|constructor].
    constructor; [reflexivity|]. constructor; [reflexivity | exact IH].
  - destruct (Js.toString (User.number x)); [|constructor].
    constructor; [reflexivity | exact IH].
Qed.

Lemma alertPlan_effects (req : Request) (q : string) (record : WaterTest.t)
    (date : string) (w : World) :
  Forall (fanOutEffect (alertRecipients q w)) (alertPlan req q record date w).
Proof.
  unfold alertPlan, alertRecipients.
  destruct (q =? "medium"); [apply fanOutPlan_effects, incl_refl|].
  destruct (q =? "high"); [apply fanOutPlan_effects, incl_refl | constructor].
Qed.

Lemma alertPlan_resolved (req : Request) (q : string) (record : WaterTest.t)
    (date : string) (w : World) :
  Forall (fun e => failedSend e = false) (alertPlan req q record date w).
Proof.
  unfold alertPlan.
  destruct (q =? "medium"); [apply fanOutPlan_resolved|].
  destruct (q =? "high"); [apply fanOutPlan_resolved | constructor].
Qed.

Lemma fanOutEffect_settled (recipients : list User.t) (e : Effect) :
  fanOutEffect recipients (settled e) -> fanOutEffect recipients e.
Proof. destruct e; simpl; auto. Qed.

(** The part of a plan that ran before a send rejected, with that send. *)
Lemma plan_prefix_effects (recipients : list User.t) (plan before rest : list Effect)
    (last : Effect) :
  Forall (fanOutEffect recipients) plan ->
  plan = (before ++ settled last :: rest)%list ->
  Forall (fanOutEffect recipients) (before ++ [last]).
Proof.
  intros Hall ->. apply Forall_app in Hall as [Hb Hl].
  apply Forall_app. split; [exact Hb|].
  constructor; [|constructor]. inversion Hl; subst.
  now apply fanOutEffect_settled.
Qed.

Lemma plan_prefix_resolved (plan before rest : list Effect) (last : Effect) :
  Forall (fun e => failedSend e = false) plan ->
  plan = (before ++ settled last :: rest)%list ->
  Forall (fun e => failedSend e = false) before.
Proof. intros Hall ->. now apply Forall_app in Hall as [Hb _]. Qed.

Section AlertHandling.

Variable env : Env.

Lemma alertOutcome_rejected req q record date w w' (c : Call) w0 :
  waterTests w' = waterTests w -> users w' = users w -> trace w' = trace w ->
  isPrisma c = true -> resolves env w0 c = false ->
  alertOutcome env req q record date w (Rejected c) w'.
Proof.
  intros Hw Hu Ht Hc Hr. split; [exact Hw|]. split; [exact Hu|].
  exists []. split; [now rewrite app_nil_r|].
  left. exists c, w0. auto.
Qed.

Lemma alertOutcome_threw req q record date w :
  Js.throws (WaterTest.waterbodyName record) = true ->
  alertOutcome env req q record date w (Rejected TypeError) w.
Proof.
  intros Hn. split; [reflexivity|]. split; [reflexivity|].
  exists []. split; [now rewrite app_nil_r|].
  right. left. apply toString_throws in Hn. auto.
Qed.

Lemma alertOutcome_fanOut req q record date w w1 o w' body message warning xs :
  waterTests w1 = waterTests w -> users w1 = users w -> trace w1 = trace w ->
  leaderAlerts w1 = (leaderAlerts w ++ insertedLeaderAlerts q record w)%list ->
  globalAlerts w1 = (globalAlerts w ++ insertedGlobalAlerts q record)%list ->
  alertPlan req q record date w = fanOutPlan message warning xs ->
  (forall u w, body u w = notify env message warning u w) ->
  forOf xs body w1 = (o, w') ->
  alertOutcome env req q record date w o w'.
Proof.
  intros Hw Hu Ht Hl Hg Hplan Hbody Hrun.
  apply (forOf_notify env body message warning Hbody) in Hrun.
  destruct Hrun as ((H1 & H2 & H3 & H4) & new & Htr & Hend).
  split; [congruence|]. split; [congruence|].
  exists new. split; [congruence|].
  right. right. rewrite Hplan. split; [exact Hend|]. split; congruence.
Qed.

Lemma filter_all {A : Type} (l : list A) : filter (fun _ => true) l = l.
Proof. induction l as [|x l IH]; simpl; congruence. Qed.

Lemma alertHandling_run (req : Request) (q : string) (record : WaterTest.t)
    (date : string) (w : World) (o : Outcome unit) (w' : World) :
  alertHandling env req q record date w = (o, w') ->
  alertOutcome env req q record date w o w'.
Proof.
  unfold alertHandling. intros Hrun.
  destruct (q =? "medium") eqn:Hm; [|destruct (q =? "high") eqn:Hh].
  - (* medium *)
    await_in Hrun prisma_user_findMany Hfind.
    + fold (leadersOf w) in Hrun.
      unfold bind at 1 in Hrun.
      destruct (0 <? List.length (leadersOf w))%nat eqn:Hlen.
      * unfold bind at 1 in Hrun. rewrite mapM_alertRows in Hrun.
        destruct (leadersOf w) as [|l ls] eqn:Hls; [discriminate|].
        destruct (Js.throws (WaterTest.waterbodyName record)) eqn:Hn.
        -- injection Hrun as <- <-. now apply alertOutcome_threw.
        -- unfold prisma_leaderAlert_createMany, bind at 1, await in Hrun.
           destruct (resolves env w _) eqn:Hmany in Hrun.
           ++ eapply (alertOutcome_fanOut req q record date w _ o w' _
                        (mediumAlertMessage req record date)
                        "Skipping invalid leader number: " (l :: ls));
                cycle 7; [exact Hrun|..];
                try (unfold insertedLeaderAlerts, insertedGlobalAlerts, alertPlan;
                     rewrite ?Hm, ?Hls; simpl; rewrite ?app_nil_r; reflexivity).
              intros u w0. apply round_template.
           ++ injection Hrun as <- <-.
              eapply alertOutcome_rejected; try reflexivity. exact Hmany.
      * destruct (leadersOf w) as [|l ls] eqn:Hls; [|discriminate].
        injection Hrun as <- <-.
        split; [reflexivity|]. split; [reflexivity|].
        exists []. split; [now rewrite app_nil_r|].
        right. right. unfold insertedLeaderAlerts, insertedGlobalAlerts, alertPlan.
        rewrite Hm, Hls. simpl. rewrite !app_nil_r. repeat split.
    + injection Hrun as <- <-.
      eapply alertOutcome_rejected; try reflexivity. exact Hfind.
  - (* high *)
    rewrite bind_toStringM in Hrun.
    destruct (Js.throws (WaterTest.waterbodyName record)) eqn:Hn.
    { injection Hrun as <- <-. now apply alertOutcome_threw. }
    assert (Hname : globalAlertFor record =
              GlobalAlert.mk
                ("🚨 High Risk Water Quality detected at "
                   ++ textOf (WaterTest.waterbodyName record))
                (WaterTest.id record)) by reflexivity.
    await_in Hrun prisma_globalAlert_create Hga.
    + await_in Hrun prisma_user_findMany Hfind.
      * simpl users in Hrun. rewrite filter_all in Hrun.
        eapply (alertOutcome_fanOut req q record date w _ o w' _
                  (highAlertMessage req record date)
                  "Skipping invalid user number: " (users w));
          cycle 7; [exact Hrun|..];
          try (unfold insertedLeaderAlerts, insertedGlobalAlerts, alertPlan;
               rewrite ?Hm, ?Hh; simpl; rewrite ?app_nil_r; reflexivity).
        intros u w0. apply round_template.
      * injection Hrun as <- <-.
        eapply alertOutcome_rejected; try reflexivity. exact Hfind.
    + injection Hrun as <- <-.
      eapply alertOutcome_rejected; try reflexivity. exact Hga.
  - (* neither *)
    injection Hrun as <- <-.
    split; [reflexivity|]. split; [reflexivity|].
    exists []. split; [now rewrite app_nil_r|].
    right. right. unfold insertedLeaderAlerts, insertedGlobalAlerts, alertPlan.
    rewrite Hm, Hh, !app_nil_r. repeat split.
Qed.

End AlertHandling.

Section CreateWaterTest.

Variable env : Env.

(** The handler, path by path. *)
Lemma createWaterTest_cases (req : Request) (w : World) :
  createWaterTest env req w =
  if missingRequired (body req) then
    (mkResponse 400 (Json.Message requiredMessage), w)
  else if negb (Js.includes ["asha"; "admin"; "leader"] (User.role (user req))) then
    (mkResponse 403 (Json.Message "forbidden"), w)
  else if Js.throws (Body.quality (body req)) then
    (internalError, snd (console_error "createWaterTest error" TypeError w))
  else if negb (Js.includes ["good"; "medium"; "high"]
                  (normalize (Body.quality (body req)))) then
    (mkResponse 400 (Json.Message "invalid quality"), w)
  else if Js.throws (Body.dateTime (body req)) then
    (internalError, snd (console_error "createWaterTest error" TypeError w))
  else if resolves env w (WaterTestCreate (createData env req)) then
    let record := createdRow env (createData env req) w in
    match alertHandling env req (normalize (Body.quality (body req))) record
            (formattedDate env req)
            (setWaterTests (waterTests w ++ [record]) w) with
    | (Resolved _, w2) =>
        (mkResponse 201 (Json.WaterTestId (WaterTest.id record)),
         snd (healthCardUpdate env req record w2))
    | (Rejected c, w2) =>
        (internalError, snd (console_error "createWaterTest error" c w2))
    end
  else
    (internalError,
     snd (console_error "createWaterTest error"
            (WaterTestCreate (createData env req)) w)).
Proof.
  unfold createWaterTest, catching, createWaterTest_try.
  fold (missingRequired (body req)).
  destruct (missingRequired (body req)); [reflexivity|].
  destruct (negb (Js.includes ["asha"; "admin"; "leader"] _)); [reflexivity|].
  rewrite bind_toStringM.
  destruct (Js.throws (Body.quality (body req))); [reflexivity|].
  fold (normalize (Body.quality (body req))).
  destruct (negb (Js.includes ["good"; "medium"; "high"] _)); [reflexivity|].
  rewrite bind_newDate.
  destruct (Js.throws (Body.dateTime (body req))) eqn:Hd; [reflexivity|].
  fold (createData env req).
  await_goal prisma_waterTest_create Hc; [|reflexivity].
  fold (createdRow env (createData env req) w).
  rewrite bind_newDate. cbn [setWaterTests]. rewrite Hd.
  fold (formattedDate env req).
  change (mkWorld (waterTests w ++ [createdRow env (createData env req) w])
            (users w) (leaderAlerts w) (globalAlerts w) (trace w))
    with (setWaterTests (waterTests w ++ [createdRow env (createData env req) w]) w).
  cbv zeta. unfold bind at 1.
  destruct (alertHandling _ _ _ _ _ _) as [[u|c] w2]; [|reflexivity].
  unfold bind at 1.
  destruct (healthCardUpdate_run env req (createdRow env (createData env req) w) w2)
    as (w3 & ok & Hrun & _).
  rewrite Hrun. reflexivity.
Qed.

Lemma alertHandling_good (req : Request) (record : WaterTest.t)
    (date : string) (w : World) :
  alertHandling env req "good" record date w = (Resolved tt, w).
Proof. reflexivity. Qed.

End CreateWaterTest.

Section CreateEndings.

Variable env : Env.

(** A request that does not get as far as the insert is refused from an
    untouched world, or a conversion throws and only the log grows. *)
Lemma createWaterTest_stopped (req : Request) (w : World) :
  accepted req = false ->
  (snd (createWaterTest env req w) = w /\
   (status (fst (createWaterTest env req w)) = 400 \/
    status (fst (createWaterTest env req w)) = 403)) \/
  (createWaterTest env req w =
     (internalError,
      snd (console_error "createWaterTest error" TypeError w)) /\
   (Js.throws (Body.quality (body req)) = true \/
    Js.throws (Body.dateTime (body req)) = true)).
Proof.
  unfold accepted. intros H. rewrite createWaterTest_cases.
  destruct (missingRequired (body req)); [simpl; auto|].
  destruct (Js.includes ["asha"; "admin"; "leader"] _); [|simpl; auto].
  destruct (Js.throws (Body.quality (body req))); [auto|].
  destruct (Js.includes ["good"; "medium"; "high"] _); [|simpl; auto].
  destruct (Js.throws (Body.dateTime (body req))); [auto | discriminate].
Qed.

(** Either way the tables are as they were and nothing but the log of the
    outer catch is added to the trace. *)
Lemma createWaterTest_stopped_trace (req : Request) (w : World) :
  accepted req = false ->
  sameTables w (snd (createWaterTest env req w)) /\
  (trace (snd (createWaterTest env req w)) = trace w \/
   trace (snd (createWaterTest env req w)) =
     (trace w ++ [ConsoleError "createWaterTest error" TypeError])%list) /\
  status (fst (createWaterTest env req w)) <> 201.
Proof.
  intros H. destruct (createWaterTest_stopped req w H) as [[-> Hs] | [-> _]].
  - split; [apply sameTables_refl|]. split; [now left|].
    destruct Hs as [-> | ->]; discriminate.
  - split; [repeat split|]. split; [now right | discriminate].
Qed.

Theorem createWaterTest_ending (req : Request) (w : World) :
  accepted req = true ->
  CreateEnding env req w (fst (createWaterTest env req w))
               (snd (createWaterTest env req w)).
Proof.
  unfold accepted. intros H.
  apply andb_true_iff in H as [H Hd]. apply andb_true_iff in H as [H Hq].
  apply andb_true_iff in H as [H Hs]. apply andb_true_iff in H as [Hm Hr].
  apply negb_true_iff in Hm, Hs, Hd.
  rewrite createWaterTest_cases, Hm, Hr, Hs, Hq, Hd. simpl negb. cbv iota.
  destruct (resolves env w (WaterTestCreate (createData env req))) eqn:Hc.
  - cbv zeta.
    destruct (alertHandling _ _ _ _ _ _) as [o w2] eqn:Hrun.
    apply alertHandling_run in Hrun.
    destruct Hrun as (Hw & Hu & new & Htr & Hcase).
    simpl in Hw, Hu, Htr.
    destruct Hcase as [(c & w0 & -> & Hp & Hrej & ->)
                      | [(-> & Hn & -> & Hl & Hg) | (Hend & Hl & Hg)]].
    + eapply AlertStoreRejected; eauto; simpl.
      now rewrite Htr, app_nil_r.
    + eapply AlertRowThrew; simpl; try assumption; try reflexivity.
      now rewrite Htr, app_nil_r.
    + unfold insertedLeaderAlerts, leadersOf in Hl. simpl in Hl, Hg.
      fold (leadersOf w) in Hl.
      fold (insertedLeaderAlerts (normalize (Body.quality (body req)))
              (createdRow env (createData env req) w) w) in Hl.
      assert (Hplan :
        alertPlan req (normalize (Body.quality (body req)))
          (createdRow env (createData env req) w) (formattedDate env req)
          (setWaterTests (waterTests w ++ [createdRow env (createData env req) w]) w) =
        alertPlan req (normalize (Body.quality (body req)))
          (createdRow env (createData env req) w) (formattedDate env req) w)
        by reflexivity.
      rewrite Hplan in Hend.
      destruct o as [u|[c|]].
      * destruct (healthCardUpdate_run env req
                    (createdRow env (createData env req) w) w2)
          as (w3 & ok & Hhc & (T1 & T2 & T3 & T4) & Htr3).
        rewrite Hhc. simpl fst. simpl snd. simpl in Hend. subst new.
        eapply Answered with (ok := ok); try congruence; try reflexivity.
        rewrite Htr3, Htr. now rewrite <- app_assoc.
      * destruct Hend as (before & last & rest & -> & Hlast & Hcall & Hrest).
        eapply SendRejected with (before := before) (last := last) (rest := rest) (c := c);
          simpl; try assumption; try reflexivity.
        rewrite Htr. rewrite <- !app_assoc. reflexivity.
      * simpl in Hend. subst new.
        eapply FanOutThrew; simpl; try assumption; try reflexivity.
        rewrite Htr. now rewrite <- app_assoc.
  - eapply InsertRejected; simpl; try reflexivity; [exact Hc | repeat split].
Qed.

End CreateEndings.

(** ** Splitting a trace at an effect *)

Lemma no_split {A : Type} (p : A -> bool) (l pre post : list A) (x : A) :
  l = (pre ++ x :: post)%list ->
  Forall (fun e => p e = false) l -> p x = true -> False.
Proof.
  intros -> Hall Hx. rewrite Forall_forall in Hall.
  specialize (Hall x (in_elt x pre post)). congruence.
Qed.

Lemma split_unique {A : Type} (p : A -> bool) (l1 l2 l1' l2' : list A) (a a' : A) :
  (l1 ++ a :: l2 = l1' ++ a' :: l2')%list ->
  Forall (fun e => p e = false) l1 ->
  Forall (fun e => p e = false) l2 ->
  p a' = true ->
  l1 = l1' /\ a = a' /\ l2 = l2'.
Proof.
  revert l1'. induction l1 as [|x l1 IH]; intros [|y l1'] Heq H1 H2 Ha'; simpl in Heq.
  - injection Heq as -> ->. auto.
  - injection Heq as -> ->. exfalso.
    apply (no_split p _ _ _ _ eq_refl H2 Ha').
  - injection Heq as -> _. inversion H1; subst. congruence.
  - injection Heq as -> Heq. inversion H1; subst.
    destruct (IH _ Heq H4 H2 Ha') as (-> & -> & ->). auto.
Qed.

Lemma fanOutEffect_not_healthCard (recipients : list User.t) (l : list Effect) :
  Forall (fanOutEffect recipients) l ->
  Forall (fun e => isHealthCard e = false) l.
Proof.
  apply Forall_impl. intros [] H; simpl in *; auto; contradiction.
Qed.

Lemma fanOutEffect_send (recipients : list User.t) (e : Effect) :
  fanOutEffect recipients e -> isSend e = true ->
  exists u, In u recipients /\ recipient e = Some (User.number u) /\
            matchesE164 (User.number u).
Proof.
  destruct e; simpl; try discriminate; intros (Hm & u & Hin & <-) _; eauto.
Qed.

Lemma healthCardTrace_no_send (req : Request) (record : WaterTest.t) (ok : bool) :
  Forall (fun e => isSend e = false) (healthCardTrace req record ok).
Proof. destruct ok; repeat constructor. Qed.

Lemma failedSend_isSend (e : Effect) : failedSend e = true -> isSend e = true.
Proof. destruct e; simpl; auto. Qed.

Lemma leadersOf_role (w : World) (l : User.t) :
  In l (leadersOf w) <-> In l (users w) /\ User.role l = "leader".
Proof.
  unfold leadersOf. rewrite filter_In, String.eqb_eq. reflexivity.
Qed.

Lemma normalize_throws (v : Js.Value) : Js.throws v = true -> normalize v = "".
Proof. destruct v as [| | | | |[s|]]; simpl; try discriminate. reflexivity. Qed.

Lemma no_healthCard_in (recipients : list User.t) (plan : list Effect) (e : Error) :
  Forall (fanOutEffect recipients) plan ->
  Forall (fun x => isHealthCard x = false)
         (plan ++ [ConsoleError "createWaterTest error" e]).
Proof.
  intros H. apply Forall_app. split; [|repeat constructor].
  now apply (fanOutEffect_not_healthCard recipients).
Qed.

(** With the persistence layer up, an accepted create whose waterbody name
    converts inserts the record and the alert rows of its quality, and
    sends only to recipients of that quality with a valid number; when it
    answers 201 its trace is the whole plan of the alert block followed by
    the health-card call. *)
Lemma createWaterTest_fanOut (env : Env) (req : Request) (w : World) :
  accepted req = true ->
  Js.throws (Body.waterbodyName (body req)) = false ->
  persistenceUp env ->
  let q := normalize (Body.quality (body req)) in
  let record := createdRow env (createData env req) w in
  let w' := snd (createWaterTest env req w) in
  waterTests w' = (waterTests w ++ [record])%list /\
  leaderAlerts w' = (leaderAlerts w ++ insertedLeaderAlerts q record w)%list /\
  globalAlerts w' = (globalAlerts w ++ insertedGlobalAlerts q record)%list /\
  exists new,
    trace w' = (trace w ++ new)%list /\
    (forall e, In e new -> isSend e = true ->
       exists u, In u (alertRecipients q w) /\
                 recipient e = Some (User.number u) /\
                 matchesE164 (User.number u)) /\
    (status (fst (createWaterTest env req w)) = 201 ->
       exists ok,
         new = (alertPlan req q record (formattedDate env req) w
                  ++ healthCardTrace req record ok)%list).
Proof.
  intros Hacc Hname Hup q record w'.
  pose proof (alertPlan_effects req q record (formattedDate env req) w) as Hplan.
  destruct (createWaterTest_ending env req w Hacc)
    as [Hc _ _ _
       | c w0 _ Hp Hrej _ _ _ _
       | _ Hn _ _ _ _ _ _
       | _ Hw _ Hl Hg Htr Hres
       | before rest last c _ Hw _ Hl Hg Heq _ _ Htr Hres
       | ok _ Hw _ Hl Hg Htr Hres].
  - rewrite Hup in Hc by reflexivity. discriminate.
  - rewrite Hup in Hrej by assumption. discriminate.
  - apply toString_throws in Hn. congruence.
  - split; [exact Hw|]. split; [exact Hl|]. split; [exact Hg|].
    eexists. split; [exact Htr|]. split.
    + intros e Hin Hs. apply in_app_or in Hin. destruct Hin as [Hin | [<- | []]].
      * rewrite Forall_forall in Hplan.
        exact (fanOutEffect_send _ _ (Hplan e Hin) Hs).
      * discriminate.
    + rewrite Hres. discriminate.
  - split; [exact Hw|]. split; [exact Hl|]. split; [exact Hg|].
    eexists. split; [exact Htr|]. split.
    + intros e Hin Hs.
      pose proof (plan_prefix_effects _ _ _ _ _ Hplan Heq) as Hall.
      rewrite Forall_forall in Hall.
      apply in_app_or in Hin. destruct Hin as [Hin | [<- | [<- | []]]].
      * apply (fanOutEffect_send _ _ (Hall e (in_or_app _ _ _ (or_introl Hin))) Hs).
      * apply (fanOutEffect_send _ _ (Hall last (in_elt last before [])) Hs).
      * discriminate.
    + rewrite Hres. discriminate.
  - split; [exact Hw|]. split; [exact Hl|]. split; [exact Hg|].
    eexists. split; [exact Htr|]. split.
    + intros e Hin Hs. apply in_app_or in Hin. destruct Hin as [Hin | Hin].
      * rewrite Forall_forall in Hplan.
        exact (fanOutEffect_send _ _ (Hplan e Hin) Hs).
      * pose proof (healthCardTrace_no_send req record ok) as Hno.
        rewrite Forall_forall in Hno. rewrite (Hno e Hin) in Hs. discriminate.
    + intros _. now exists ok.
Qed.

(** ** The claims about createWaterTest *)

(** C9.  Required-field validation runs before the role check: a request in
    which one of waterbodyName, dateTime, location, photoUrl, notes, quality
    is missing (falsy) is answered 400 with the message naming the required
    fields, whatever the caller's role, never 403, and the world is left as
    it was. *)
Theorem C9_required_fields_before_role (env : Env) (req : Request) (w : World) :
  Js.truthy (Body.waterbodyName (body req)) = false \/
  Js.truthy (Body.dateTime (body req)) = false \/
  Js.truthy (Body.location (body req)) = false \/
  Js.truthy (Body.photoUrl (body req)) = false \/
  Js.truthy (Body.notes (body req)) = false \/
  Js.truthy (Body.quality (body req)) = false ->
  createWaterTest env req w =
    (mkResponse 400
       (Json.Message
          "waterbodyName, dateTime, location, photoUrl, notes, quality are required"),
     w) /\
  status (fst (createWaterTest env req w)) <> 403.
Proof.
  intros H.
  assert (E : missingRequired (body req) = true).
  { unfold missingRequired. repeat rewrite orb_true_iff.
    repeat rewrite negb_true_iff. tauto. }
  rewrite createWaterTest_cases, E. split; [reflexivity | discriminate].
Qed.

Lemma C9_required_fields_before_role_witness :
  Js.truthy (Body.quality (Fixture.form Js.Undefined)) = false /\
  User.role Fixture.villager = "villager" /\
  createWaterTest Fixture.reliable
    (mkRequest "" (Fixture.form Js.Undefined) Fixture.villager) Fixture.world =
    (mkResponse 400
       (Json.Message
          "waterbodyName, dateTime, location, photoUrl, notes, quality are required"),
     Fixture.world).
Proof.
  split; [reflexivity|]. split; [reflexivity|].
  apply (C9_required_fields_before_role Fixture.reliable
           (mkRequest "" (Fixture.form Js.Undefined) Fixture.villager)).
  do 5 right. reflexivity.
Defined.

(** C3.  A create request whose quality normalizes to "good" inserts no
    LeaderAlert and no GlobalAlert and attempts no SMS or WhatsApp send,
    whether it is valid or not and whatever the collaborators do. *)
Theorem C3_good_quality_no_alerts (env : Env) (req : Request) (w : World) :
  normalize (Body.quality (body req)) = "good" ->
  leaderAlerts (snd (createWaterTest env req w)) = leaderAlerts w /\
  globalAlerts (snd (createWaterTest env req w)) = globalAlerts w /\
  exists new,
    trace (snd (createWaterTest env req w)) = (trace w ++ new)%list /\
    Forall (fun e => isSend e = false) new.
Proof.
  intros Hq. rewrite createWaterTest_cases.
  assert (Hnil : exists new, trace w = (trace w ++ new)%list /\
                             Forall (fun e => isSend e = false) new).
  { exists []. rewrite app_nil_r. split; [reflexivity | constructor]. }
  assert (Hlog : exists new,
            (trace w ++ [ConsoleError "createWaterTest error" TypeError])%list =
              (trace w ++ new)%list /\
            Forall (fun e => isSend e = false) new).
  { eexists. split; [reflexivity | repeat constructor]. }
  destruct (missingRequired (body req)); [simpl; auto|].
  destruct (negb (Js.includes ["asha"; "admin"; "leader"] _)); [simpl; auto|].
  destruct (Js.throws (Body.quality (body req))); [simpl; auto|].
  destruct (negb (Js.includes ["good"; "medium"; "high"] _)); [simpl; auto|].
  destruct (Js.throws (Body.dateTime (body req))); [simpl; auto|].
  destruct (resolves env w (WaterTestCreate (createData env req))).
  - cbv zeta. rewrite Hq, alertHandling_good.
    destruct (healthCardUpdate_run env req (createdRow env (createData env req) w)
                (setWaterTests (waterTests w ++ [createdRow env (createData env req) w]) w))
      as (w3 & ok & -> & (T1 & T2 & T3 & T4) & Htr).
    simpl in *. repeat split; try assumption.
    eexists. split; [exact Htr|]. destruct ok; repeat constructor.
  - simpl. repeat split.
    eexists. split; [reflexivity|]. repeat constructor.
Qed.

Lemma C3_good_quality_no_alerts_witness :
  normalize (Js.Str "Good") = "good" /\
  status (fst (createWaterTest Fixture.reliable
                 (mkRequest "" (Fixture.form (Js.Str "Good")) Fixture.asha)
                 Fixture.empty)) = 201 /\
  leaderAlerts (snd (createWaterTest Fixture.reliable
                       (mkRequest "" (Fixture.form (Js.Str "Good")) Fixture.asha)
                       Fixture.empty)) = [] /\
  globalAlerts (snd (createWaterTest Fixture.reliable
                       (mkRequest "" (Fixture.form (Js.Str "Good")) Fixture.asha)
                       Fixture.empty)) = [].
Proof.
  split; [reflexivity|]. split; [reflexivity|].
  destruct (C3_good_quality_no_alerts Fixture.reliable
              (mkRequest "" (Fixture.form (Js.Str "Good")) Fixture.asha)
              Fixture.empty eq_refl) as (Hl & Hg & _).
  split; assumption.
Defined.

(** C1.  When a create request passes the checks, its quality normalizes
    to "medium", its dateTime and its waterbody name convert (so that the
    request gets to the alert rows) and the persistence layer answers, the
    handler inserts exactly one LeaderAlert per user with role "leader", in
    the order of the table, each referencing the new test; every SMS or
    WhatsApp send it attempts goes to the number of a leader, and that
    number matches [^\+\d{10,15}$]; a leader whose number does not match is
    sent nothing and still has a LeaderAlert.  When the request is answered
    201, each leader with a matching number was sent one SMS and one
    WhatsApp message and each other leader was skipped with a warning, in
    the order of the table. *)
Theorem C1_medium_leader_alerts (env : Env) (req : Request) (w : World)
    (name : string) :
  missingRequired (body req) = false ->
  Js.includes ["asha"; "admin"; "leader"] (User.role (user req)) = true ->
  normalize (Body.quality (body req)) = "medium" ->
  Js.throws (Body.dateTime (body req)) = false ->
  Js.toString (Body.waterbodyName (body req)) = Some name ->
  persistenceUp env ->
  let record := createdRow env (createData env req) w in
  let leaders := filter (fun u => User.role u =? "leader") (users w) in
  let w' := snd (createWaterTest env req w) in
  waterTests w' = (waterTests w ++ [record])%list /\
  leaderAlerts w' =
    (leaderAlerts w ++
     map (fun l =>
            LeaderAlert.mk (User.id l)
              ("⚠️ Medium Water Quality at " ++ name)
              (WaterTest.id record))
         leaders)%list /\
  exists new,
    trace w' = (trace w ++ new)%list /\
    (forall e, In e new -> isSend e = true ->
       exists l, In l (users w) /\ User.role l = "leader" /\
                 recipient e = Some (User.number l) /\
                 matchesE164 (User.number l)) /\
    (forall l, In l (users w) -> User.role l = "leader" ->
       ~ matchesE164 (User.number l) ->
       (forall e, In e new -> recipient e <> Some (User.number l)) /\
       In (LeaderAlert.mk (User.id l)
             ("⚠️ Medium Water Quality at " ++ name)
             (WaterTest.id record))
          (leaderAlerts w')) /\
    (status (fst (createWaterTest env req w)) = 201 ->
       exists ok,
         new = (fanOutPlan (mediumAlertMessage req record (formattedDate env req))
                  "Skipping invalid leader number: " leaders
                  ++ healthCardTrace req record ok)%list).
Proof.
  intros Hm Hr Hq Hd Hname Hup record leaders w'.
  assert (Hs : Js.throws (Body.quality (body req)) = false).
  { destruct (Js.throws (Body.quality (body req))) eqn:Hs; [|reflexivity].
    rewrite (normalize_throws _ Hs) in Hq. discriminate. }
  assert (Hn : Js.throws (Body.waterbodyName (body req)) = false).
  { destruct (Js.throws (Body.waterbodyName (body req))) eqn:Hn; [|reflexivity].
    apply toString_throws in Hn. congruence. }
  assert (Hacc : accepted req = true).
  { unfold accepted. now rewrite Hm, Hr, Hs, Hq, Hd. }
  destruct (createWaterTest_fanOut env req w Hacc Hn Hup)
    as (Hw & Hl & _ & new & Htr & Hsend & Hall).
  fold record w' in Hw, Hl, Htr, Hall. rewrite Hq in Hl, Hsend, Hall.
  change (insertedLeaderAlerts "medium" record w)
    with (map (leaderAlertFor record) (leadersOf w)) in Hl.
  unfold leaderAlertFor in Hl.
  change (WaterTest.waterbodyName record) with (Body.waterbodyName (body req)) in Hl.
  rewrite (toString_textOf _ _ Hname) in Hl.
  change (alertRecipients "medium" w) with (leadersOf w) in Hsend.
  split; [exact Hw|]. split; [exact Hl|].
  exists new. split; [exact Htr|]. split; [|split].
  - intros e Hin Hse. destruct (Hsend e Hin Hse) as (l & Hlin & Hrec & Hv).
    apply leadersOf_role in Hlin. destruct Hlin. exists l. auto.
  - intros l Hlin Hrole Hbad. split.
    + intros e Hin Hrec.
      assert (Hse : isSend e = true) by (destruct e; simpl in *; congruence).
      destruct (Hsend e Hin Hse) as (l' & _ & Hrec' & Hv).
      rewrite Hrec in Hrec'. injection Hrec' as Heq. rewrite <- Heq in Hv.
      contradiction.
    + rewrite Hl. apply in_or_app. right.
      apply (in_map (fun l => LeaderAlert.mk (User.id l)
                                ("⚠️ Medium Water Quality at " ++ name)
                                (WaterTest.id record))
               (leadersOf w) l).
      apply leadersOf_role. auto.
  - exact Hall.
Qed.

Lemma C1_medium_leader_alerts_witness :
  missingRequired (Fixture.form (Js.Str "Medium")) = false /\
  normalize (Js.Str "Medium") = "medium" /\
  leaderAlerts (snd (createWaterTest Fixture.reliable
                       (mkRequest "" (Fixture.form (Js.Str "Medium")) Fixture.asha)
                       Fixture.empty)) =
    [LeaderAlert.mk "l1" "⚠️ Medium Water Quality at Yamuna" "wt0";
     LeaderAlert.mk "l2" "⚠️ Medium Water Quality at Yamuna" "wt0"] /\
  filter isSend
    (trace (snd (createWaterTest Fixture.reliable
                   (mkRequest "" (Fixture.form (Js.Str "Medium")) Fixture.asha)
                   Fixture.empty))) =
    [Sms (Js.Str "+911234567890")
       ("⚠️ Medium Water Quality Alert" ++ nl ++ "Waterbody: Yamuna" ++ nl
          ++ "Location: Delhi" ++ nl ++ "Date: Thu, 11 Sept 2025, 03:30 pm") true;
     WhatsApp (Js.Str "+911234567890")
       ("⚠️ Medium Water Quality Alert" ++ nl ++ "Waterbody: Yamuna" ++ nl
          ++ "Location: Delhi" ++ nl ++ "Date: Thu, 11 Sept 2025, 03:30 pm") true].
Proof.
  split; [reflexivity|]. split; [reflexivity|].
  destruct (C1_medium_leader_alerts Fixture.reliable
              (mkRequest "" (Fixture.form (Js.Str "Medium")) Fixture.asha)
              Fixture.empty "Yamuna" eq_refl eq_refl eq_refl eq_refl eq_refl
              (fun _ _ _ => eq_refl))
    as (_ & Hl & _).
  split; [exact Hl | reflexivity].
Defined.

(** C2.  When a create request passes the checks, its quality normalizes
    to "high", its dateTime and its waterbody name convert (so that the
    request gets to the alert row) and the persistence layer answers, the
    handler inserts exactly one GlobalAlert, whose message is "🚨 High Risk
    Water Quality detected at " followed by the waterbody name and which
    references the new test, and no LeaderAlert; every SMS or WhatsApp send
    it attempts goes to the number of a user, of any role, and that number
    matches [^\+\d{10,15}$].  When the request is answered 201, each user
    with a matching number was sent one SMS and one WhatsApp message and
    each other user was skipped with a warning, in the order of the
    table. *)
Theorem C2_high_global_alert (env : Env) (req : Request) (w : World)
    (name : string) :
  missingRequired (body req) = false ->
  Js.includes ["asha"; "admin"; "leader"] (User.role (user req)) = true ->
  normalize (Body.quality (body req)) = "high" ->
  Js.throws (Body.dateTime (body req)) = false ->
  Js.toString (Body.waterbodyName (body req)) = Some name ->
  persistenceUp env ->
  let record := createdRow env (createData env req) w in
  let w' := snd (createWaterTest env req w) in
  waterTests w' = (waterTests w ++ [record])%list /\
  globalAlerts w' =
    (globalAlerts w ++
     [GlobalAlert.mk
        ("🚨 High Risk Water Quality detected at " ++ name)
        (WaterTest.id record)])%list /\
  leaderAlerts w' = leaderAlerts w /\
  exists new,
    trace w' = (trace w ++ new)%list /\
    (forall e, In e new -> isSend e = true ->
       exists u, In u (users w) /\ recipient e = Some (User.number u) /\
                 matchesE164 (User.number u)) /\
    (status (fst (createWaterTest env req w)) = 201 ->
       exists ok,
         new = (fanOutPlan (highAlertMessage req record (formattedDate env req))
                  "Skipping invalid user number: " (users w)
                  ++ healthCardTrace req record ok)%list).
Proof.
  intros Hm Hr Hq Hd Hname Hup record w'.
  assert (Hs : Js.throws (Body.quality (body req)) = false).
  { destruct (Js.throws (Body.quality (body req))) eqn:Hs; [|reflexivity].
    rewrite (normalize_throws _ Hs) in Hq. discriminate. }
  assert (Hn : Js.throws (Body.waterbodyName (body req)) = false).
  { destruct (Js.throws (Body.waterbodyName (body req))) eqn:Hn; [|reflexivity].
    apply toString_throws in Hn. congruence. }
  assert (Hacc : accepted req = true).
  { unfold accepted. now rewrite Hm, Hr, Hs, Hq, Hd. }
  destruct (createWaterTest_fanOut env req w Hacc Hn Hup)
    as (Hw & Hl & Hg & new & Htr & Hsend & Hall).
  fold record w' in Hw, Hl, Hg, Htr, Hall. rewrite Hq in Hl, Hg, Hsend, Hall.
  change (insertedLeaderAlerts "high" record w) with (@nil LeaderAlert.t) in Hl.
  change (insertedGlobalAlerts "high" record) with [globalAlertFor record] in Hg.
  unfold globalAlertFor in Hg.
  change (WaterTest.waterbodyName record) with (Body.waterbodyName (body req)) in Hg.
  rewrite (toString_textOf _ _ Hname) in Hg.
  change (alertRecipients "high" w) with (users w) in Hsend.
  rewrite app_nil_r in Hl.
  split; [exact Hw|]. split; [exact Hg|]. split; [exact Hl|].
  exists new. split; [exact Htr|]. split; [exact Hsend | exact Hall].
Qed.

Lemma C2_high_global_alert_witness :
  missingRequired (Fixture.form (Js.Str "HIGH")) = false /\
  normalize (Js.Str "HIGH") = "high" /\
  globalAlerts (snd (createWaterTest Fixture.reliable
                       (mkRequest "" (Fixture.form (Js.Str "HIGH")) Fixture.asha)
                       Fixture.empty)) =
    [GlobalAlert.mk "🚨 High Risk Water Quality detected at Yamuna" "wt0"] /\
  map recipient
    (filter isSend
       (trace (snd (createWaterTest Fixture.reliable
                      (mkRequest "" (Fixture.form (Js.Str "HIGH")) Fixture.asha)
                      Fixture.empty)))) =
    [Some (Js.Str "+919876543210"); Some (Js.Str "+919876543210");
     Some (Js.Str "+911234567890"); Some (Js.Str "+911234567890");
     Some (Js.Str "+919000000001"); Some (Js.Str "+919000000001")].
Proof.
  split; [reflexivity|]. split; [reflexivity|].
  destruct (C2_high_global_alert Fixture.reliable
              (mkRequest "" (Fixture.form (Js.Str "HIGH")) Fixture.asha)
              Fixture.empty "Yamuna" eq_refl eq_refl eq_refl eq_refl eq_refl
              (fun _ _ _ => eq_refl))
    as (_ & Hg & _).
  split; [exact Hg | reflexivity].
Defined.

(** C7.  Whenever [createWaterTest] has called the health-card controller
    and that call rejected, the rejection was caught and logged by the
    block itself: the log entry is the last effect of the request, the
    inserted WaterTest is still in the table, and the response is 201 with
    only the id of the new record. *)
Theorem C7_health_card_failure_isolated (env : Env) (req : Request) (w : World)
    (pre post : list Effect) (hc : HealthCardReq.t) :
  trace (snd (createWaterTest env req w)) =
    (trace w ++ pre ++ HealthCard hc false :: post)%list ->
  let record := createdRow env (createData env req) w in
  fst (createWaterTest env req w) =
    mkResponse 201 (Json.WaterTestId (WaterTest.id record)) /\
  waterTests (snd (createWaterTest env req w)) = (waterTests w ++ [record])%list /\
  post = [ConsoleError "Error updating health card:" (CreateOrUpdateHealthCard hc)].
Proof.
  intros Htrace record.
  destruct (accepted req) eqn:Hacc.
  - pose proof (alertPlan_effects req (normalize (Body.quality (body req))) record
                  (formattedDate env req) w) as Hplan.
    destruct (createWaterTest_ending env req w Hacc)
      as [_ _ Htr _
         | c w0 _ _ _ _ _ Htr _
         | _ _ _ _ _ _ Htr _
         | _ _ _ _ _ Htr _
         | before rest last c _ _ _ _ _ Heq _ _ Htr _
         | ok _ Hw _ _ _ Htr Hres];
      rewrite Htr in Htrace; apply app_inv_head in Htrace.
    + exfalso. apply (no_split isHealthCard _ _ _ _ Htrace); [|first [reflexivity | assumption]]. repeat constructor.
    + exfalso. apply (no_split isHealthCard _ _ _ _ Htrace); [|first [reflexivity | assumption]]. repeat constructor.
    + exfalso. apply (no_split isHealthCard _ _ _ _ Htrace); [|first [reflexivity | assumption]]. repeat constructor.
    + exfalso. apply (no_split isHealthCard _ _ _ _ Htrace); [|first [reflexivity | assumption]].
      apply (no_healthCard_in _ _ _ Hplan).
    + change (before ++ [last; ConsoleError "createWaterTest error" c])%list
        with (before ++ [last] ++ [ConsoleError "createWaterTest error" c])%list
        in Htrace.
      rewrite app_assoc in Htrace.
      exfalso. apply (no_split isHealthCard _ _ _ _ Htrace); [|first [reflexivity | assumption]].
      apply Forall_app. split.
      * apply (fanOutEffect_not_healthCard _ _
                 (plan_prefix_effects _ _ _ _ _ Hplan Heq)).
      * repeat constructor.
    + unfold healthCardTrace in Htrace.
      apply (split_unique isHealthCard) in Htrace.
      * destruct Htrace as (_ & Heq & Hpost). injection Heq as <- ->.
        split; [exact Hres|]. split; [exact Hw|]. now subst post.
      * apply (fanOutEffect_not_healthCard _ _ Hplan).
      * destruct ok; repeat constructor.
      * reflexivity.
  - destruct (createWaterTest_stopped_trace env req w Hacc) as (_ & [Htr | Htr] & _);
      rewrite Htr in Htrace.
    + rewrite <- (app_nil_r (trace w)) in Htrace at 1.
      apply app_inv_head in Htrace. destruct pre; discriminate.
    + apply app_inv_head in Htrace.
      exfalso. apply (no_split isHealthCard _ _ _ _ Htrace); [|reflexivity].
      repeat constructor.
Qed.

Lemma C7_health_card_failure_isolated_witness :
  createWaterTest Fixture.healthCardDown
    (mkRequest "" (Fixture.form (Js.Str "good")) Fixture.asha) Fixture.empty =
  (mkResponse 201 (Json.WaterTestId "wt0"),
   mkWorld
     [createdRow Fixture.healthCardDown
        (createData Fixture.healthCardDown
           (mkRequest "" (Fixture.form (Js.Str "good")) Fixture.asha))
        Fixture.empty]
     (users Fixture.empty) [] []
     [HealthCard
        (HealthCardReq.mk (Js.Str "Yamuna") Js.Null (Js.Str "Delhi")
           (Js.Number 286139 (-4)) (Js.Number 772090 (-4)) Fixture.asha) false;
      ConsoleError "Error updating health card:"
        (CreateOrUpdateHealthCard
           (HealthCardReq.mk (Js.Str "Yamuna") Js.Null (Js.Str "Delhi")
              (Js.Number 286139 (-4)) (Js.Number 772090 (-4)) Fixture.asha))]) /\
  fst (createWaterTest Fixture.healthCardDown
         (mkRequest "" (Fixture.form (Js.Str "good")) Fixture.asha) Fixture.empty) =
  mkResponse 201 (Json.WaterTestId "wt0").
Proof.
  split; [reflexivity|].
  apply (C7_health_card_failure_isolated Fixture.healthCardDown
           (mkRequest "" (Fixture.form (Js.Str "good")) Fixture.asha)
           Fixture.empty []
           [ConsoleError "Error updating health card:"
              (CreateOrUpdateHealthCard
                 (HealthCardReq.mk (Js.Str "Yamuna") Js.Null (Js.Str "Delhi")
                    (Js.Number 286139 (-4)) (Js.Number 772090 (-4)) Fixture.asha))]
           (HealthCardReq.mk (Js.Str "Yamuna") Js.Null (Js.Str "Delhi")
              (Js.Number 286139 (-4)) (Js.Number 772090 (-4)) Fixture.asha)).
  reflexivity.
Defined.

(** C10.  Whenever an SMS or WhatsApp send of [createWaterTest] rejected:
    what had been done before it is an initial part of the alert block's
    plan, and the rest of the plan (the remaining recipients) is never
    carried out: the only later effect is the outer catch logging the
    rejected call, so nothing is sent after it; the response is 500; and
    the WaterTest row and the alert rows of its quality are in the tables
    all the same. *)
Theorem C10_send_failure_aborts_fan_out (env : Env) (req : Request) (w : World)
    (pre post : list Effect) (e : Effect) :
  trace (snd (createWaterTest env req w)) = (trace w ++ pre ++ e :: post)%list ->
  failedSend e = true ->
  let q := normalize (Body.quality (body req)) in
  let record := createdRow env (createData env req) w in
  let w' := snd (createWaterTest env req w) in
  fst (createWaterTest env req w) =
    mkResponse 500 (Json.Message "Internal Server Error") /\
  (exists c rest,
     callOf e = Some c /\
     post = [ConsoleError "createWaterTest error" c] /\
     alertPlan req q record (formattedDate env req) w =
       (pre ++ settled e :: rest)%list) /\
  Forall (fun x => isSend x = false) post /\
  waterTests w' = (waterTests w ++ [record])%list /\
  leaderAlerts w' =
    (leaderAlerts w ++
     (if q =? "medium"
      then map (leaderAlertFor record)
               (filter (fun u => User.role u =? "leader") (users w))
      else []))%list /\
  globalAlerts w' =
    (globalAlerts w ++
     (if q =? "medium" then []
      else if q =? "high" then [globalAlertFor record]
      else []))%list.
Proof.
  intros Htrace He q record w'.
  destruct (accepted req) eqn:Hacc.
  - pose proof (alertPlan_resolved req q record (formattedDate env req) w) as Hplan.
    destruct (createWaterTest_ending env req w Hacc)
      as [_ _ Htr _
         | c w0 _ _ _ _ _ Htr _
         | _ _ _ _ _ _ Htr _
         | _ _ _ _ _ Htr _
         | before rest last c _ Hw _ Hl Hg Heq Hlast Hcall Htr Hres
         | ok _ _ _ _ _ Htr _];
      rewrite Htr in Htrace; apply app_inv_head in Htrace.
    + exfalso. apply (no_split failedSend _ _ _ _ Htrace); [|first [reflexivity | assumption]]. repeat constructor.
    + exfalso. apply (no_split failedSend _ _ _ _ Htrace); [|first [reflexivity | assumption]]. repeat constructor.
    + exfalso. apply (no_split failedSend _ _ _ _ Htrace); [|first [reflexivity | assumption]]. repeat constructor.
    + exfalso. apply (no_split failedSend _ _ _ _ Htrace); [|first [reflexivity | assumption]].
      apply Forall_app. split; [exact Hplan | repeat constructor].
    + apply (split_unique failedSend) in Htrace; try assumption.
      * destruct Htrace as (<- & <- & <-).
        split; [exact Hres|].
        split; [exists c, rest; repeat split; assumption|].
        split; [repeat constructor|].
        split; [exact Hw|]. split; [exact Hl | exact Hg].
      * apply (plan_prefix_resolved _ _ _ _ Hplan Heq).
      * repeat constructor.
    + exfalso. apply (no_split failedSend _ _ _ _ Htrace); [|first [reflexivity | assumption]].
      apply Forall_app. split; [exact Hplan|].
      unfold healthCardTrace. destruct ok; repeat constructor.
  - destruct (createWaterTest_stopped_trace env req w Hacc) as (_ & [Htr | Htr] & _);
      rewrite Htr in Htrace.
    + rewrite <- (app_nil_r (trace w)) in Htrace at 1.
      apply app_inv_head in Htrace. destruct pre; discriminate.
    + apply app_inv_head in Htrace.
      exfalso. apply (no_split failedSend _ _ _ _ Htrace); [|assumption].
      repeat constructor.
Qed.

Lemma C10_send_failure_aborts_fan_out_witness :
  failedSend
    (WhatsApp (Js.Str "+919876543210")
       ("🚨 HIGH RISK ALERT" ++ nl ++ "Waterbody: Yamuna" ++ nl
          ++ "Location: Delhi" ++ nl ++ "Date: Thu, 11 Sept 2025, 03:30 pm")
       false) = true /\
  status (fst (createWaterTest Fixture.whatsAppDown
                 (mkRequest "" (Fixture.form (Js.Str "high")) Fixture.asha)
                 Fixture.empty)) = 500 /\
  List.length (waterTests (snd (createWaterTest Fixture.whatsAppDown
                 (mkRequest "" (Fixture.form (Js.Str "high")) Fixture.asha)
                 Fixture.empty))) = 1 /\
  fst (createWaterTest Fixture.whatsAppDown
         (mkRequest "" (Fixture.form (Js.Str "high")) Fixture.asha)
         Fixture.empty) =
    mkResponse 500 (Json.Message "Internal Server Error").
Proof.
  split; [reflexivity|]. split; [reflexivity|]. split; [reflexivity|].
  apply (C10_send_failure_aborts_fan_out Fixture.whatsAppDown
           (mkRequest "" (Fixture.form (Js.Str "high")) Fixture.asha)
           Fixture.empty
           [Sms (Js.Str "+919876543210")
              ("🚨 HIGH RISK ALERT" ++ nl ++ "Waterbody: Yamuna" ++ nl
                 ++ "Location: Delhi" ++ nl ++ "Date: Thu, 11 Sept 2025, 03:30 pm")
              true]
           [ConsoleError "createWaterTest error"
              (SendWhatsApp (Js.Str "+919876543210")
                 ("🚨 HIGH RISK ALERT" ++ nl ++ "Waterbody: Yamuna" ++ nl
                    ++ "Location: Delhi" ++ nl ++ "Date: Thu, 11 Sept 2025, 03:30 pm"))]
           (WhatsApp (Js.Str "+919876543210")
              ("🚨 HIGH RISK ALERT" ++ nl ++ "Waterbody: Yamuna" ++ nl
                 ++ "Location: Delhi" ++ nl ++ "Date: Thu, 11 Sept 2025, 03:30 pm")
              false)).
  - reflexivity.
  - reflexivity.
Defined.

(** ** updateWaterTest and deleteWaterTest *)

Section UpdateWaterTest.

Variable env : Env.

Lemma find_map_patch (id : string) (p : Patch.t) (rows : list WaterTest.t) :
  find (fun r => WaterTest.id r =? id)
       (map (fun x => if WaterTest.id x =? id then applyPatch p x else x) rows) =
  option_map (applyPatch p) (find (fun r => WaterTest.id r =? id) rows).
Proof.
  induction rows as [|x rows IH]; [reflexivity|]. simpl.
  destruct (WaterTest.id x =? id) eqn:Hx.
  - simpl. now rewrite Hx.
  - now rewrite Hx.
Qed.

Lemma throws_truthy (v : Js.Value) : Js.throws v = true -> Js.truthy v = true.
Proof. destruct v as [| | | | |[s|]]; simpl; congruence. Qed.

(** The handler, path by path. *)
Lemma updateWaterTest_cases (req : Request) (w : World) :
  updateWaterTest env req w =
  if resolves env w (WaterTestFindUnique (params_id req)) then
    match lookup (params_id req) w with
    | None => (mkResponse 404 (Json.Message "water test not found"), w)
    | Some existing =>
        if negb (mayWrite (user req) existing) then
          (mkResponse 403 (Json.Message "forbidden"), w)
        else if Js.throws (Body.dateTime (body req)) then
          (internalError, snd (console_error "updateWaterTest error" TypeError w))
        else if Js.throws (Body.quality (body req)) then
          (internalError, snd (console_error "updateWaterTest error" TypeError w))
        else if Js.truthy (Body.quality (body req))
                && negb (Js.includes ["good"; "medium"; "high"]
                           (normalize (Body.quality (body req)))) then
          (mkResponse 400 (Json.Message "invalid quality"), w)
        else if resolves env w (WaterTestUpdate (params_id req) (patchOf env req)) then
          (mkResponse 200 (Json.WaterTestId (WaterTest.id existing)),
           setWaterTests
             (map (fun x => if WaterTest.id x =? params_id req
                            then applyPatch (patchOf env req) x else x)
                  (waterTests w)) w)
        else
          (internalError,
           snd (console_error "updateWaterTest error"
                  (WaterTestUpdate (params_id req) (patchOf env req)) w))
    end
  else
    (internalError,
     snd (console_error "updateWaterTest error"
            (WaterTestFindUnique (params_id req)) w)).
Proof.
  unfold updateWaterTest, catching, updateWaterTest_try, lookup, mayWrite.
  unfold bind at 1, prisma_waterTest_findUnique, bind at 1, await.
  destruct (resolves env w (WaterTestFindUnique (params_id req))); [|reflexivity].
  destruct (find _ (waterTests w)) as [existing|] eqn:Hfind; [|reflexivity].
  destruct (negb _); [reflexivity|].
  assert (Hdate :
    (if Js.truthy (Body.dateTime (body req))
     then d <- newDate env (Body.dateTime (body req)) ;; ret (Some d)
     else ret None) w =
    if Js.throws (Body.dateTime (body req)) then (Rejected TypeError, w)
    else (Resolved (Patch.dateTime (patchOf env req)), w)).
  { unfold patchOf. cbn [Patch.dateTime].
    destruct (Js.throws (Body.dateTime (body req))) eqn:Hd.
    - rewrite (throws_truthy _ Hd), bind_newDate, Hd. reflexivity.
    - destruct (Js.truthy (Body.dateTime (body req))); [|reflexivity].
      rewrite bind_newDate, Hd. reflexivity. }
  unfold bind at 1. rewrite Hdate.
  destruct (Js.throws (Body.dateTime (body req))) eqn:Hd; [reflexivity|].
  destruct (Js.throws (Body.quality (body req))) eqn:Hq.
  - rewrite (throws_truthy _ Hq), bind_toStringM, Hq. reflexivity.
  - unfold patchOf. cbn [Patch.dateTime].
    destruct (Js.truthy (Body.quality (body req))).
    + rewrite bind_toStringM, Hq. fold (normalize (Body.quality (body req))).
      destruct (negb (Js.includes _ _)); [reflexivity|]. cbn [andb].
      unfold bind, prisma_waterTest_update, bind, await.
      destruct (resolves env w _); [|reflexivity]. now rewrite Hfind.
    + cbn [andb].
      unfold bind, prisma_waterTest_update, bind, await.
      destruct (resolves env w _); [|reflexivity]. now rewrite Hfind.
Qed.

Lemma deleteWaterTest_cases (req : Request) (w : World) :
  deleteWaterTest env req w =
  if resolves env w (WaterTestFindUnique (params_id req)) then
    match lookup (params_id req) w with
    | None => (mkResponse 404 (Json.Message "water test not found"), w)
    | Some existing =>
        if negb (mayWrite (user req) existing) then
          (mkResponse 403 (Json.Message "forbidden"), w)
        else if resolves env w (WaterTestDelete (params_id req)) then
          (mkResponse 200 Json.Deleted,
           setWaterTests
             (filter (fun x => negb (WaterTest.id x =? params_id req))
                     (waterTests w)) w)
        else
          (internalError,
           snd (console_error "deleteWaterTest error"
                  (WaterTestDelete (params_id req)) w))
    end
  else
    (internalError,
     snd (console_error "deleteWaterTest error"
            (WaterTestFindUnique (params_id req)) w)).
Proof.
  unfold deleteWaterTest, catching, deleteWaterTest_try, lookup, mayWrite.
  unfold bind at 1, prisma_waterTest_findUnique, bind at 1, await.
  destruct (resolves env w (WaterTestFindUnique (params_id req))); [|reflexivity].
  destruct (find _ (waterTests w)) as [existing|] eqn:Hfind; [|reflexivity].
  destruct (negb _); [reflexivity|].
  unfold bind, prisma_waterTest_delete, bind, await.
  destruct (resolves env w _); [|reflexivity]. now rewrite Hfind.
Qed.

(** The row with the request's id after an update, whatever the path. *)
Lemma updateWaterTest_row (req : Request) (w : World) (existing : WaterTest.t) :
  lookup (params_id req) w = Some existing ->
  lookup (params_id req) (snd (updateWaterTest env req w)) =
    Some (if Nat.eqb (status (fst (updateWaterTest env req w))) 200
          then applyPatch (patchOf env req) existing
          else existing).
Proof.
  intros Hfind. rewrite updateWaterTest_cases, Hfind.
  destruct (resolves env w (WaterTestFindUnique _)); [|exact Hfind].
  destruct (negb _); [exact Hfind|].
  destruct (Js.throws (Body.dateTime (body req))); [exact Hfind|].
  destruct (Js.throws (Body.quality (body req))); [exact Hfind|].
  destruct (_ && _); [exact Hfind|].
  destruct (resolves env w (WaterTestUpdate _ _)); [|exact Hfind].
  simpl. unfold lookup in *. simpl. now rewrite find_map_patch, Hfind.
Qed.

End UpdateWaterTest.

(** C6.  An update or delete request for an existing record from a caller
    who is neither an admin nor the record's owner is answered 403
    "forbidden", and the world (every table, and the trace) is exactly as
    before. *)
Theorem C6_forbidden_leaves_store_unchanged (env : Env) (req : Request)
    (w : World) (existing : WaterTest.t) :
  resolves env w (WaterTestFindUnique (params_id req)) = true ->
  find (fun r => WaterTest.id r =? params_id req) (waterTests w) = Some existing ->
  User.role (user req) <> "admin" ->
  User.id (user req) <> WaterTest.ashaId existing ->
  updateWaterTest env req w = (mkResponse 403 (Json.Message "forbidden"), w) /\
  deleteWaterTest env req w = (mkResponse 403 (Json.Message "forbidden"), w).
Proof.
  intros Hr Hf Hrole Hid.
  apply String.eqb_neq in Hrole, Hid.
  rewrite updateWaterTest_cases, deleteWaterTest_cases.
  unfold lookup, mayWrite. rewrite Hr, Hf, Hrole, Hid. split; reflexivity.
Qed.

Lemma C6_forbidden_leaves_store_unchanged_witness :
  User.role Fixture.other <> "admin" /\
  User.id Fixture.other <> WaterTest.ashaId Fixture.stored /\
  updateWaterTest Fixture.reliable
    (mkRequest "wt0" (Fixture.form (Js.Str "high")) Fixture.other) Fixture.world =
    (mkResponse 403 (Json.Message "forbidden"), Fixture.world) /\
  deleteWaterTest Fixture.reliable
    (mkRequest "wt0" (Fixture.form (Js.Str "high")) Fixture.other) Fixture.world =
    (mkResponse 403 (Json.Message "forbidden"), Fixture.world).
Proof.
  split; [discriminate|]. split; [discriminate|].
  apply (C6_forbidden_leaves_store_unchanged Fixture.reliable
           (mkRequest "wt0" (Fixture.form (Js.Str "high")) Fixture.other)
           Fixture.world Fixture.stored);
    [reflexivity | reflexivity | discriminate | discriminate].
Defined.

Lemma typeof_undefined (v : Js.Value) :
  (Js.typeof v =? "undefined") = true <-> v = Js.Undefined.
Proof. destruct v; simpl; split; congruence. Qed.

(** C5.  An update request for an existing record from its owner or an
    admin: a field that is omitted from the body, or falsy in it, keeps its
    stored value (waterbodyName, dateTime, location, photoUrl, notes,
    quality); latitude and longitude change only when the supplied value
    has type number, and then take that value; waterbodyId keeps its value
    when omitted and becomes null when present but falsy.  The update goes
    through (200) when the persistence layer answers, the dateTime
    converts and the quality is falsy or valid. *)
Theorem C5_update_patch_semantics (env : Env) (req : Request) (w : World)
    (existing : WaterTest.t) :
  find (fun r => WaterTest.id r =? params_id req) (waterTests w) = Some existing ->
  User.role (user req) = "admin" \/ User.id (user req) = WaterTest.ashaId existing ->
  let b := body req in
  let res := fst (updateWaterTest env req w) in
  exists after,
    find (fun r => WaterTest.id r =? params_id req)
         (waterTests (snd (updateWaterTest env req w))) = Some after /\
    (Js.truthy (Body.waterbodyName b) = false ->
       WaterTest.waterbodyName after = WaterTest.waterbodyName existing) /\
    (Js.truthy (Body.dateTime b) = false ->
       WaterTest.dateTime after = WaterTest.dateTime existing) /\
    (Js.truthy (Body.location b) = false ->
       WaterTest.location after = WaterTest.location existing) /\
    (Js.truthy (Body.photoUrl b) = false ->
       WaterTest.photoUrl after = WaterTest.photoUrl existing) /\
    (Js.truthy (Body.notes b) = false ->
       WaterTest.notes after = WaterTest.notes existing) /\
    (Js.truthy (Body.quality b) = false ->
       WaterTest.quality after = WaterTest.quality existing) /\
    (Body.waterbodyId b = Js.Undefined ->
       WaterTest.waterbodyId after = WaterTest.waterbodyId existing) /\
    (Js.typeof (Body.latitude b) <> "number" ->
       WaterTest.latitude after = WaterTest.latitude existing) /\
    (Js.typeof (Body.longitude b) <> "number" ->
       WaterTest.longitude after = WaterTest.longitude existing) /\
    (status res = 200 ->
       (Js.typeof (Body.latitude b) = "number" ->
          WaterTest.latitude after = Body.latitude b) /\
       (Js.typeof (Body.longitude b) = "number" ->
          WaterTest.longitude after = Body.longitude b) /\
       (Body.waterbodyId b <> Js.Undefined ->
        Js.truthy (Body.waterbodyId b) = false ->
          WaterTest.waterbodyId after = Js.Null)) /\
    (persistenceUp env ->
     Js.throws (Body.dateTime b) = false ->
     Js.truthy (Body.quality b) = false \/
     Js.includes ["good"; "medium"; "high"] (normalize (Body.quality b)) = true ->
       status res = 200).
Proof.
  intros Hfind Hauth b res.
  pose proof (updateWaterTest_row env req w existing Hfind) as Hrow.
  unfold lookup in Hrow. fold res in Hrow.
  eexists. split; [exact Hrow|].
  assert (Hstatus : persistenceUp env ->
            Js.throws (Body.dateTime b) = false ->
            Js.truthy (Body.quality b) = false \/
            Js.includes ["good"; "medium"; "high"] (normalize (Body.quality b)) = true ->
            status res = 200).
  { intros Hup Hd Hq. unfold res. rewrite updateWaterTest_cases.
    unfold lookup. rewrite Hfind, !Hup by reflexivity.
    assert (Hw : mayWrite (user req) existing = true).
    { unfold mayWrite. apply orb_true_iff.
      destruct Hauth as [-> | ->]; [left | right]; apply String.eqb_refl. }
    rewrite Hw. fold b. rewrite Hd. cbn [negb].
    assert (Hs : Js.throws (Body.quality b) = false).
    { destruct (Js.throws (Body.quality b)) eqn:Hs; [|reflexivity].
      destruct Hq as [Hq | Hq].
      - rewrite (throws_truthy _ Hs) in Hq. discriminate.
      - rewrite (normalize_throws _ Hs) in Hq. discriminate. }
    rewrite Hs.
    destruct Hq as [-> | ->]; [reflexivity|].
    now rewrite andb_false_r. }
  destruct (Nat.eqb (status res) 200) eqn:Hres.
  - unfold applyPatch, patchOf. fold b. cbn [Patch.waterbodyName Patch.waterbodyId
      Patch.dateTime Patch.location Patch.latitude Patch.longitude Patch.photoUrl
      Patch.notes Patch.quality WaterTest.waterbodyName WaterTest.waterbodyId
      WaterTest.dateTime WaterTest.location WaterTest.latitude WaterTest.longitude
      WaterTest.photoUrl WaterTest.notes WaterTest.quality].
    assert (Hnum : forall v, Js.typeof v <> "number" ->
                     (Js.typeof v =? "number") = false)
      by (intros v Hn; now apply String.eqb_neq).
    split; [now intros ->|]. split; [now intros ->|]. split; [now intros ->|].
    split; [now intros ->|]. split; [now intros ->|]. split; [now intros ->|].
    split; [now intros ->|].
    split; [intros Hn; now rewrite (Hnum _ Hn)|].
    split; [intros Hn; now rewrite (Hnum _ Hn)|].
    split; [|exact Hstatus].
    intros _. split; [intros Hn; now rewrite Hn|]. split; [intros Hn; now rewrite Hn|].
    intros Hdef Hfalsy.
    destruct (Js.typeof (Body.waterbodyId b) =? "undefined") eqn:Ht.
    + apply typeof_undefined in Ht. contradiction.
    + unfold Js.or. now rewrite Hfalsy.
  - apply Nat.eqb_neq in Hres.
    repeat (split; [reflexivity|]). split; [contradiction | exact Hstatus].
Qed.

Lemma C5_update_patch_semantics_witness :
  updateWaterTest Fixture.reliable
    (mkRequest "wt0"
       (Body.mk Js.Undefined Js.Null (Js.Str "") Js.Undefined (Js.Number 0 0)
          (Js.Str "77.2") Js.Undefined (Js.Boolean false) Js.Undefined)
       Fixture.asha)
    (mkWorld
       [WaterTest.mk "wt0" (Js.Str "Yamuna") (Js.Str "wb7") (Some Fixture.epoch)
          (Js.Str "Delhi") (Js.Number 286139 (-4)) (Js.Number 772090 (-4))
          (Js.Str "https://cdn.example/p.jpg") (Js.Str "turbid") "good" "u1"
          Fixture.epoch]
       [] [] [] []) =
  (mkResponse 200 (Json.WaterTestId "wt0"),
   mkWorld
     [WaterTest.mk "wt0" (Js.Str "Yamuna") Js.Null (Some Fixture.epoch)
        (Js.Str "Delhi") (Js.Number 0 0) (Js.Number 772090 (-4))
        (Js.Str "https://cdn.example/p.jpg") (Js.Str "turbid") "good" "u1"
        Fixture.epoch]
     [] [] [] []) /\
  exists after,
    find (fun r => WaterTest.id r =? "wt0")
      (waterTests
         (snd (updateWaterTest Fixture.reliable
            (mkRequest "wt0"
               (Body.mk Js.Undefined Js.Null (Js.Str "") Js.Undefined (Js.Number 0 0)
                  (Js.Str "77.2") Js.Undefined (Js.Boolean false) Js.Undefined)
               Fixture.asha)
            (mkWorld
               [WaterTest.mk "wt0" (Js.Str "Yamuna") (Js.Str "wb7") (Some Fixture.epoch)
                  (Js.Str "Delhi") (Js.Number 286139 (-4)) (Js.Number 772090 (-4))
                  (Js.Str "https://cdn.example/p.jpg") (Js.Str "turbid") "good" "u1"
                  Fixture.epoch]
               [] [] [] [])))) = Some after /\
    WaterTest.waterbodyName after = Js.Str "Yamuna" /\
    WaterTest.longitude after = Js.Number 772090 (-4) /\
    WaterTest.latitude after = Js.Number 0 0 /\
    WaterTest.waterbodyId after = Js.Null.
Proof.
  split; [reflexivity|].
  destruct (C5_update_patch_semantics Fixture.reliable
              (mkRequest "wt0"
                 (Body.mk Js.Undefined Js.Null (Js.Str "") Js.Undefined (Js.Number 0 0)
                    (Js.Str "77.2") Js.Undefined (Js.Boolean false) Js.Undefined)
                 Fixture.asha)
              (mkWorld
                 [WaterTest.mk "wt0" (Js.Str "Yamuna") (Js.Str "wb7") (Some Fixture.epoch)
                    (Js.Str "Delhi") (Js.Number 286139 (-4)) (Js.Number 772090 (-4))
                    (Js.Str "https://cdn.example/p.jpg") (Js.Str "turbid") "good" "u1"
                    Fixture.epoch]
                 [] [] [] [])
              _ eq_refl (or_intror eq_refl))
    as (after & Hafter & Hname & _ & _ & _ & _ & _ & _ & _ & Hlong & Happlied & _).
  exists after. split; [exact Hafter|].
  split; [exact (Hname eq_refl)|].
  split; [apply Hlong; discriminate|].
  destruct (Happlied eq_refl) as (Hlat & _ & Hid).
  split; [exact (Hlat eq_refl)|].
  apply Hid; [discriminate | reflexivity].
Defined.

(** C4, as the claim states it, fails: an update whose body supplies the
    empty string as quality (lower-cased form outside good, medium, high)
    is answered 200, not 400; the guard [if (quality)] skips the check. *)
Lemma C4_supplied_empty_quality_not_rejected :
  Body.quality (Body.mk Js.Undefined Js.Undefined Js.Undefined Js.Undefined
                  Js.Undefined Js.Undefined Js.Undefined Js.Undefined (Js.Str ""))
    <> Js.Undefined /\
  Js.toString (Js.Str "") = Some "" /\
  Js.includes ["good"; "medium"; "high"] (Js.toLowerCase "") = false /\
  updateWaterTest Fixture.reliable
    (mkRequest "wt0"
       (Body.mk Js.Undefined Js.Undefined Js.Undefined Js.Undefined
          Js.Undefined Js.Undefined Js.Undefined Js.Undefined (Js.Str ""))
       Fixture.asha)
    Fixture.world =
  (mkResponse 200 (Json.WaterTestId "wt0"), Fixture.world).
Proof.
  split; [discriminate|]. repeat split.
Qed.

(** C4, amended.  In create and in update a truthy quality that converts
    to a string is normalized by lower-casing that string ("HIGH", "High"
    and "high" all become "high") and stored in that form; when the
    normalized value is outside good, medium, high the request is answered
    400 "invalid quality" and the world is left as it was.  This holds
    once the earlier steps have passed: in create the required fields are
    present and the role is allowed (the record is then inserted when the
    dateTime converts and the store answers), in update the record is
    found, the caller is an admin or the owner, and the dateTime converts.
    A quality whose conversion throws is answered 500, with nothing
    written. *)
Theorem C4_quality_normalized_and_validated (env : Env) (req : Request) (w : World) :
  (Js.toLowerCase "HIGH" = "high" /\ Js.toLowerCase "High" = "high" /\
   Js.toLowerCase "high" = "high") /\
  (missingRequired (body req) = false ->
   Js.includes ["asha"; "admin"; "leader"] (User.role (user req)) = true ->
   (forall s, Js.toString (Body.quality (body req)) = Some s ->
      let q := Js.toLowerCase s in
      (Js.includes ["good"; "medium"; "high"] q = false ->
         createWaterTest env req w =
           (mkResponse 400 (Json.Message "invalid quality"), w)) /\
      (Js.includes ["good"; "medium"; "high"] q = true ->
       Js.throws (Body.dateTime (body req)) = false ->
       resolves env w (WaterTestCreate (createData env req)) = true ->
         exists record,
           waterTests (snd (createWaterTest env req w)) =
             (waterTests w ++ [record])%list /\
           WaterTest.quality record = q)) /\
   (Js.toString (Body.quality (body req)) = None ->
      status (fst (createWaterTest env req w)) = 500 /\
      sameTables w (snd (createWaterTest env req w)))) /\
  (forall existing,
     resolves env w (WaterTestFindUnique (params_id req)) = true ->
     find (fun r => WaterTest.id r =? params_id req) (waterTests w) = Some existing ->
     User.role (user req) = "admin" \/ User.id (user req) = WaterTest.ashaId existing ->
     Js.truthy (Body.quality (body req)) = true ->
     Js.throws (Body.dateTime (body req)) = false ->
     (forall s, Js.toString (Body.quality (body req)) = Some s ->
        let q := Js.toLowerCase s in
        (Js.includes ["good"; "medium"; "high"] q = false ->
           updateWaterTest env req w =
             (mkResponse 400 (Json.Message "invalid quality"), w)) /\
        (Js.includes ["good"; "medium"; "high"] q = true ->
         resolves env w (WaterTestUpdate (params_id req) (patchOf env req)) = true ->
           exists after,
             fst (updateWaterTest env req w) =
               mkResponse 200 (Json.WaterTestId (WaterTest.id existing)) /\
             find (fun r => WaterTest.id r =? params_id req)
                  (waterTests (snd (updateWaterTest env req w))) = Some after /\
             WaterTest.quality after = q)) /\
     (Js.toString (Body.quality (body req)) = None ->
        status (fst (updateWaterTest env req w)) = 500 /\
        sameTables w (snd (updateWaterTest env req w)))).
Proof.
  assert (Hconv : forall s, Js.toString (Body.quality (body req)) = Some s ->
            Js.throws (Body.quality (body req)) = false /\
            normalize (Body.quality (body req)) = Js.toLowerCase s).
  { intros s Hs. unfold normalize. rewrite (toString_textOf _ _ Hs).
    split; [|reflexivity].
    destruct (Js.throws (Body.quality (body req))) eqn:Ht; [|reflexivity].
    apply toString_throws in Ht. congruence. }
  split; [repeat split|]. split.
  - intros Hm Hr. split.
    + intros s Hs q. destruct (Hconv s Hs) as [Ht Hn]. fold q in Hn. split.
      * intros Hq. rewrite createWaterTest_cases, Hm, Hr, Ht, Hn.
        now rewrite Hq.
      * intros Hq Hd Hc.
        assert (Hacc : accepted req = true).
        { unfold accepted. now rewrite Hm, Hr, Ht, Hn, Hq, Hd. }
        exists (createdRow env (createData env req) w).
        split; [|exact Hn].
        destruct (createWaterTest_ending env req w Hacc)
          as [Hc' _ _ _ | c w0 _ _ _ Hw _ _ _ | _ _ Hw _ _ _ _ _ | _ Hw _ _ _ _ _
             | before rest last c _ Hw _ _ _ _ _ _ _ _
             | ok _ Hw _ _ _ _ _];
          [congruence | exact Hw ..].
    + intros Hs. apply toString_throws in Hs.
      rewrite createWaterTest_cases, Hm, Hr, Hs. simpl. repeat split.
  - intros existing Hr Hfind Hauth Ht Hd.
    assert (Hw : mayWrite (user req) existing = true).
    { unfold mayWrite. apply orb_true_iff.
      destruct Hauth as [-> | ->]; [left | right]; apply String.eqb_refl. }
    split.
    + intros s Hs q. destruct (Hconv s Hs) as [Hth Hn]. fold q in Hn. split.
      * intros Hq. rewrite updateWaterTest_cases. unfold lookup.
        now rewrite Hr, Hfind, Hw, Hd, Hth, Ht, Hn, Hq.
      * intros Hq Hu.
        pose proof (updateWaterTest_row env req w existing Hfind) as Hrow.
        rewrite updateWaterTest_cases in *. unfold lookup in *.
        rewrite Hr, Hfind, Hw, Hd, Hth, Ht, Hn, Hq, Hu in *.
        simpl in Hrow. simpl.
        eexists. split; [reflexivity|]. split; [exact Hrow|].
        unfold applyPatch, patchOf. simpl. now rewrite Ht.
    + intros Hs. apply toString_throws in Hs.
      rewrite updateWaterTest_cases. unfold lookup.
      rewrite Hr, Hfind, Hw, Hd, Hs. simpl. repeat split.
Qed.

Lemma C4_quality_normalized_and_validated_witness :
  createWaterTest Fixture.reliable
    (mkRequest "" (Fixture.form (Js.Str "Excellent")) Fixture.asha) Fixture.world =
    (mkResponse 400 (Json.Message "invalid quality"), Fixture.world) /\
  (exists record,
     waterTests (snd (createWaterTest Fixture.reliable
                        (mkRequest "" (Fixture.form (Js.Str "HIGH")) Fixture.asha)
                        Fixture.empty)) = [record] /\
     WaterTest.quality record = "high") /\
  updateWaterTest Fixture.reliable
    (mkRequest "wt0" (Fixture.form (Js.Str "Excellent")) Fixture.asha) Fixture.world =
    (mkResponse 400 (Json.Message "invalid quality"), Fixture.world) /\
  (exists after,
     fst (updateWaterTest Fixture.reliable
            (mkRequest "wt0" (Fixture.form (Js.Str "High")) Fixture.asha)
            Fixture.world) = mkResponse 200 (Json.WaterTestId "wt0") /\
     find (fun r => WaterTest.id r =? "wt0")
          (waterTests (snd (updateWaterTest Fixture.reliable
                              (mkRequest "wt0" (Fixture.form (Js.Str "High")) Fixture.asha)
                              Fixture.world))) = Some after /\
     WaterTest.quality after = "high") /\
  status (fst (createWaterTest Fixture.reliable
                 (mkRequest "" (Fixture.form (Js.Object None)) Fixture.asha)
                 Fixture.world)) = 500.
Proof.
  split.
  { destruct (C4_quality_normalized_and_validated Fixture.reliable
                (mkRequest "" (Fixture.form (Js.Str "Excellent")) Fixture.asha)
                Fixture.world) as (_ & Hcreate & _).
    destruct (Hcreate eq_refl eq_refl) as (Hconv & _).
    destruct (Hconv "Excellent" eq_refl) as (Hreject & _).
    exact (Hreject eq_refl). }
  split.
  { destruct (C4_quality_normalized_and_validated Fixture.reliable
                (mkRequest "" (Fixture.form (Js.Str "HIGH")) Fixture.asha)
                Fixture.empty) as (_ & Hcreate & _).
    destruct (Hcreate eq_refl eq_refl) as (Hconv & _).
    destruct (Hconv "HIGH" eq_refl) as (_ & Haccept).
    exact (Haccept eq_refl eq_refl eq_refl). }
  split.
  { destruct (C4_quality_normalized_and_validated Fixture.reliable
                (mkRequest "wt0" (Fixture.form (Js.Str "Excellent")) Fixture.asha)
                Fixture.world) as (_ & _ & Hupdate).
    destruct (Hupdate Fixture.stored eq_refl eq_refl (or_intror eq_refl) eq_refl
                eq_refl) as (Hconv & _).
    destruct (Hconv "Excellent" eq_refl) as (Hreject & _).
    exact (Hreject eq_refl). }
  split.
  { destruct (C4_quality_normalized_and_validated Fixture.reliable
                (mkRequest "wt0" (Fixture.form (Js.Str "High")) Fixture.asha)
                Fixture.world) as (_ & _ & Hupdate).
    destruct (Hupdate Fixture.stored eq_refl eq_refl (or_intror eq_refl) eq_refl
                eq_refl) as (Hconv & _).
    destruct (Hconv "High" eq_refl) as (_ & Haccept).
    exact (Haccept eq_refl eq_refl). }
  destruct (C4_quality_normalized_and_validated Fixture.reliable
              (mkRequest "" (Fixture.form (Js.Object None)) Fixture.asha)
              Fixture.world) as (_ & Hcreate & _).
  destruct (Hcreate eq_refl eq_refl) as (_ & Hthrow).
  exact (proj1 (Hthrow eq_refl)).
Defined.

(** ** Listing: [orderBy: { createdAt: "desc" }] *)

Lemma insertDesc_perm (r : WaterTest.t) (l : list WaterTest.t) :
  Permutation (insertDesc r l) (r :: l).
Proof.
  induction l as [|x l IH]; simpl.
  - apply Permutation_refl.
  - destruct (WaterTest.createdAt x <=? WaterTest.createdAt r)%Z.
    + apply Permutation_refl.
    + apply perm_trans with (x :: r :: l).
      * now apply perm_skip.
      * apply perm_swap.
Qed.

Lemma orderByCreatedAtDesc_perm (l : list WaterTest.t) :
  Permutation (orderByCreatedAtDesc l) l.
Proof.
  induction l as [|x l IH]; simpl.
  - apply perm_nil.
  - apply perm_trans with (x :: orderByCreatedAtDesc l).
    + apply insertDesc_perm.
    + now apply perm_skip.
Qed.

Lemma insertDesc_sorted (r : WaterTest.t) (l : list WaterTest.t) :
  StronglySorted newerFirst l -> StronglySorted newerFirst (insertDesc r l).
Proof.
  induction l as [|x l IH]; intros Hs; simpl.
  - repeat constructor.
  - inversion Hs as [|? ? Hl Hx]; subst.
    destruct (WaterTest.createdAt x <=? WaterTest.createdAt r)%Z eqn:Hle.
    + apply Z.leb_le in Hle. constructor; [exact Hs|].
      constructor; [exact Hle|].
      apply (Forall_impl _ (P := newerFirst x)); [|exact Hx].
      unfold newerFirst. intros y Hy. lia.
    + apply Z.leb_gt in Hle. constructor; [now apply IH|].
      apply (Permutation_Forall (Permutation_sym (insertDesc_perm r l))).
      constructor; [unfold newerFirst; lia | exact Hx].
Qed.

Lemma orderByCreatedAtDesc_sorted (l : list WaterTest.t) :
  StronglySorted newerFirst (orderByCreatedAtDesc l).
Proof.
  induction l as [|x l IH]; simpl.
  - constructor.
  - now apply insertDesc_sorted.
Qed.

(** C8.  [getUserWaterTests] and [getWaterTestsByUser] give the same
    response for every caller in every world and never change a table.
    When the store answers, that response is 200 with the caller's own
    rows (those whose ashaId is the caller's id, each as often as it is in
    the table), newest first; when it does not, both answer 500. *)
Theorem C8_list_own_handlers_agree (env : Env) (req : Request) (w : World) :
  fst (getUserWaterTests env req w) = fst (getWaterTestsByUser env req w) /\
  sameTables w (snd (getUserWaterTests env req w)) /\
  sameTables w (snd (getWaterTestsByUser env req w)) /\
  if resolves env w (WaterTestFindMany (Some (User.id (user req)))) then
    exists items,
      getUserWaterTests env req w = (mkResponse 200 (Json.Items items), w) /\
      getWaterTestsByUser env req w = (mkResponse 200 (Json.Items items), w) /\
      Permutation items
        (filter (fun r => WaterTest.ashaId r =? User.id (user req)) (waterTests w)) /\
      (forall r, In r items <->
                 In r (waterTests w) /\ WaterTest.ashaId r = User.id (user req)) /\
      StronglySorted
        (fun a b => (WaterTest.createdAt b <= WaterTest.createdAt a)%Z) items
  else
    fst (getUserWaterTests env req w) =
      mkResponse 500 (Json.Message "Internal Server Error").
Proof.
  unfold getUserWaterTests, getWaterTestsByUser, catching,
    getUserWaterTests_try, getWaterTestsByUser_try,
    prisma_waterTest_findMany, bind, await.
  destruct (resolves env w (WaterTestFindMany (Some (User.id (user req))))).
  - simpl. split; [reflexivity|].
    split; [apply sameTables_refl|]. split; [apply sameTables_refl|].
    eexists. split; [reflexivity|]. split; [reflexivity|].
    split; [apply orderByCreatedAtDesc_perm|]. split.
    + intros r. split.
      * intros Hin.
        apply (Permutation_in _ (orderByCreatedAtDesc_perm _)) in Hin.
        apply filter_In in Hin. destruct Hin as [Hin Ha].
        apply String.eqb_eq in Ha. auto.
      * intros [Hin Ha].
        apply (Permutation_in _ (Permutation_sym (orderByCreatedAtDesc_perm _))).
        apply filter_In. split; [exact Hin|]. now apply String.eqb_eq.
    + apply orderByCreatedAtDesc_sorted.
  - simpl. repeat split.
Qed.

(** On a table with two rows of the caller and one of somebody else, both
    handlers return the caller's two rows, the newer one first. *)
Lemma C8_list_own_handlers_agree_witness :
  exists items,
    getUserWaterTests Fixture.reliable (mkRequest "" Fixture.noChange Fixture.asha)
      Fixture.three = (mkResponse 200 (Json.Items items), Fixture.three) /\
    getWaterTestsByUser Fixture.reliable (mkRequest "" Fixture.noChange Fixture.asha)
      Fixture.three = (mkResponse 200 (Json.Items items), Fixture.three) /\
    map WaterTest.id items = ["wt2"; "wt0"].
Proof.
  destruct (C8_list_own_handlers_agree Fixture.reliable
              (mkRequest "" Fixture.noChange Fixture.asha) Fixture.three)
    as (_ & _ & _ & items & Hfirst & Hsecond & _).
  exists items. split; [exact Hfirst|]. split; [exact Hsecond|].
  injection Hfirst as <-. reflexivity.
Defined.

(** * Further properties of the handlers *)

(** ** listAllWaterTests *)

(** X1.  [listAllWaterTests] is for admins only: any other role is answered
    403 from an untouched world, without the store being asked (so also
    when the store would reject); an admin for whom the store answers gets
    200 with every row of the table, each as often as it is there, newest
    first. *)
Theorem X1_list_all_is_admin_only (env : Env) (req : Request) (w : World) :
  (User.role (user req) <> "admin" ->
     listAllWaterTests env req w = (mkResponse 403 (Json.Message "forbidden"), w)) /\
  (User.role (user req) = "admin" ->
   resolves env w (WaterTestFindMany None) = true ->
     exists items,
       listAllWaterTests env req w = (mkResponse 200 (Json.Items items), w) /\
       Permutation items (waterTests w) /\
       StronglySorted
         (fun a b => (WaterTest.createdAt b <= WaterTest.createdAt a)%Z) items).
Proof.
  unfold listAllWaterTests, catching, listAllWaterTests_try. split.
  - intros Hrole. apply String.eqb_neq in Hrole. now rewrite Hrole.
  - intros Hrole Hr. apply String.eqb_eq in Hrole. rewrite Hrole. cbn [negb].
    unfold bind, prisma_waterTest_findMany, bind, await. rewrite Hr.
    rewrite filter_all.
    eexists. split; [reflexivity|].
    split; [apply orderByCreatedAtDesc_perm | apply orderByCreatedAtDesc_sorted].
Qed.

Lemma X1_list_all_is_admin_only_witness :
  listAllWaterTests Fixture.whatsAppDown (mkRequest "" Fixture.noChange Fixture.asha)
    Fixture.three = (mkResponse 403 (Json.Message "forbidden"), Fixture.three) /\
  exists items,
    listAllWaterTests Fixture.reliable (mkRequest "" Fixture.noChange Fixture.admin)
      Fixture.three = (mkResponse 200 (Json.Items items), Fixture.three) /\
    map WaterTest.id items = ["wt2"; "wt1"; "wt0"].
Proof.
  destruct (X1_list_all_is_admin_only Fixture.whatsAppDown
              (mkRequest "" Fixture.noChange Fixture.asha) Fixture.three)
    as (Hother & _).
  split; [apply Hother; discriminate|].
  destruct (X1_list_all_is_admin_only Fixture.reliable
              (mkRequest "" Fixture.noChange Fixture.admin) Fixture.three)
    as (_ & Hadmin).
  destruct (Hadmin eq_refl eq_refl) as (items & Hrun & _).
  exists items. split; [exact Hrun|]. injection Hrun as <-. reflexivity.
Defined.

(** ** deleteWaterTest *)

Lemma find_filter_other (id : string) (rows : list WaterTest.t) :
  find (fun r => WaterTest.id r =? id)
       (filter (fun x => negb (WaterTest.id x =? id)) rows) = None.
Proof.
  induction rows as [|x rows IH]; [reflexivity|]. simpl.
  destruct (WaterTest.id x =? id) eqn:Hx; simpl; [exact IH|].
  now rewrite Hx.
Qed.

Lemma mayWrite_true (caller : User.t) (row : WaterTest.t) :
  User.role caller = "admin" \/ User.id caller = WaterTest.ashaId row ->
  mayWrite caller row = true.
Proof.
  intros H. unfold mayWrite. apply orb_true_iff.
  destruct H as [-> | ->]; [left | right]; apply String.eqb_refl.
Qed.

(** X2.  A delete by the owner or an admin, with the store answering,
    answers 200 with the deletion flag and removes exactly the rows with
    the request's id: the id is no longer found, every other row is kept in
    its place, and nothing else changes; in particular the alerts that
    reference the deleted test stay in their tables. *)
Theorem X2_delete_removes_only_the_row (env : Env) (req : Request) (w : World)
    (existing : WaterTest.t) :
  resolves env w (WaterTestFindUnique (params_id req)) = true ->
  resolves env w (WaterTestDelete (params_id req)) = true ->
  find (fun r => WaterTest.id r =? params_id req) (waterTests w) = Some existing ->
  User.role (user req) = "admin" \/ User.id (user req) = WaterTest.ashaId existing ->
  let w' := snd (deleteWaterTest env req w) in
  fst (deleteWaterTest env req w) = mkResponse 200 Json.Deleted /\
  find (fun r => WaterTest.id r =? params_id req) (waterTests w') = None /\
  waterTests w' =
    filter (fun r => negb (WaterTest.id r =? params_id req)) (waterTests w) /\
  (forall r, In r (waterTests w) -> WaterTest.id r <> params_id req ->
             In r (waterTests w')) /\
  leaderAlerts w' = leaderAlerts w /\
  globalAlerts w' = globalAlerts w /\
  users w' = users w /\
  trace w' = trace w.
Proof.
  intros Hfind Hdel Hrow Hauth w'. unfold w'.
  rewrite deleteWaterTest_cases. unfold lookup.
  rewrite Hfind, Hrow, (mayWrite_true _ _ Hauth), Hdel. simpl.
  split; [reflexivity|]. split; [apply find_filter_other|].
  split; [reflexivity|]. split; [|repeat split].
  intros r Hin Hid. apply filter_In. split; [exact Hin|].
  apply negb_true_iff. now apply String.eqb_neq.
Qed.

Lemma X2_delete_removes_only_the_row_witness :
  deleteWaterTest Fixture.reliable (Scenario.deleteReq "wt0" Fixture.asha)
    Scenario.alerted =
  (mkResponse 200 Json.Deleted,
   mkWorld
     (filter (fun r => negb (WaterTest.id r =? "wt0")) (waterTests Fixture.three))
     (users Fixture.three)
     [LeaderAlert.mk "l1" "⚠️ Medium Water Quality at Yamuna" "wt0"]
     [GlobalAlert.mk "🚨 High Risk Water Quality detected at Yamuna" "wt0"]
     []) /\
  map WaterTest.id
    (waterTests (snd (deleteWaterTest Fixture.reliable
                        (Scenario.deleteReq "wt0" Fixture.asha) Scenario.alerted))) =
    ["wt1"; "wt2"] /\
  leaderAlerts (snd (deleteWaterTest Fixture.reliable
                       (Scenario.deleteReq "wt0" Fixture.asha) Scenario.alerted)) =
    leaderAlerts Scenario.alerted.
Proof.
  split; [reflexivity|]. split; [reflexivity|].
  destruct (X2_delete_removes_only_the_row Fixture.reliable
              (Scenario.deleteReq "wt0" Fixture.asha) Scenario.alerted
              Fixture.stored eq_refl eq_refl eq_refl (or_intror eq_refl))
    as (_ & _ & _ & _ & Hl & _).
  exact Hl.
Defined.

(** X3.  Once a record is deleted, its id is unknown: a following update or
    delete with that id, from any caller and with any body, is answered 404
    and changes nothing. *)
Theorem X3_deleted_id_is_not_found (env : Env) (req again : Request) (w : World) :
  status (fst (deleteWaterTest env req w)) = 200 ->
  params_id again = params_id req ->
  resolves env (snd (deleteWaterTest env req w))
    (WaterTestFindUnique (params_id req)) = true ->
  let w' := snd (deleteWaterTest env req w) in
  updateWaterTest env again w' =
    (mkResponse 404 (Json.Message "water test not found"), w') /\
  deleteWaterTest env again w' =
    (mkResponse 404 (Json.Message "water test not found"), w').
Proof.
  intros Hok Hid Hfind w'.
  assert (Hgone : lookup (params_id req) w' = None).
  { unfold w', lookup. revert Hok. rewrite deleteWaterTest_cases.
    destruct (resolves env w (WaterTestFindUnique _)); [|discriminate].
    destruct (lookup (params_id req) w); [|discriminate].
    destruct (negb (mayWrite (user req) _)); [discriminate|].
    destruct (resolves env w (WaterTestDelete _)); [|discriminate].
    intros _. apply find_filter_other. }
  rewrite updateWaterTest_cases, deleteWaterTest_cases, Hid.
  fold w' in Hfind. now rewrite Hfind, Hgone.
Qed.

Lemma X3_deleted_id_is_not_found_witness :
  status (fst (deleteWaterTest Fixture.reliable
                 (Scenario.deleteReq "wt0" Fixture.asha) Scenario.alerted)) = 200 /\
  deleteWaterTest Fixture.reliable (Scenario.deleteReq "wt0" Fixture.admin)
    (snd (deleteWaterTest Fixture.reliable
            (Scenario.deleteReq "wt0" Fixture.asha) Scenario.alerted)) =
  (mkResponse 404 (Json.Message "water test not found"),
   snd (deleteWaterTest Fixture.reliable
          (Scenario.deleteReq "wt0" Fixture.asha) Scenario.alerted)).
Proof.
  split; [reflexivity|].
  apply (X3_deleted_id_is_not_found Fixture.reliable
           (Scenario.deleteReq "wt0" Fixture.asha)
           (Scenario.deleteReq "wt0" Fixture.admin) Scenario.alerted);
    reflexivity.
Defined.

(** ** What updateWaterTest and deleteWaterTest write *)

(** X4.  [updateWaterTest] and [deleteWaterTest] write nothing but the
    WaterTest table, and that only when they answer 200: on every path the
    users and both alert tables are as before (an update that sets the
    quality to medium or high raises no alert), nothing is sent and the
    health-card controller is not called; with any other status the
    WaterTest table is as before too.  The trace grows only by the error
    log of the outer catch, exactly when the answer is 500. *)
Theorem X4_update_and_delete_write_only_water_tests (env : Env) (req : Request)
    (w : World) :
  writesOnlyWaterTests "updateWaterTest" 200 w
    (fst (updateWaterTest env req w)) (snd (updateWaterTest env req w)) /\
  writesOnlyWaterTests "deleteWaterTest" 200 w
    (fst (deleteWaterTest env req w)) (snd (deleteWaterTest env req w)).
Proof.
  unfold writesOnlyWaterTests. split.
  - rewrite updateWaterTest_cases.
    destruct (resolves env w (WaterTestFindUnique _)).
    + destruct (lookup (params_id req) w) as [existing|].
      * destruct (negb (mayWrite (user req) existing)); [simpl; repeat split; congruence|].
        destruct (Js.throws (Body.dateTime (body req)));
          [simpl; repeat split; try congruence; intros _; eexists; reflexivity|].
        destruct (Js.throws (Body.quality (body req)));
          [simpl; repeat split; try congruence; intros _; eexists; reflexivity|].
        destruct (Js.truthy (Body.quality (body req)) && _); [simpl; repeat split; congruence|].
        destruct (resolves env w (WaterTestUpdate _ _)).
        -- simpl. repeat split; congruence.
        -- simpl. repeat split; try congruence. intros _. eexists. reflexivity.
      * simpl. repeat split; congruence.
    + simpl. repeat split; try congruence. intros _. eexists. reflexivity.
  - rewrite deleteWaterTest_cases.
    destruct (resolves env w (WaterTestFindUnique _)).
    + destruct (lookup (params_id req) w) as [existing|].
      * destruct (negb (mayWrite (user req) existing)); [simpl; repeat split; congruence|].
        destruct (resolves env w (WaterTestDelete _)).
        -- simpl. repeat split; congruence.
        -- simpl. repeat split; try congruence. intros _. eexists. reflexivity.
      * simpl. repeat split; congruence.
    + simpl. repeat split; try congruence. intros _. eexists. reflexivity.
Qed.

(** ** Invariants of the WaterTest table *)

Lemma includes_In (xs : list string) (s : string) :
  Js.includes xs s = true -> In s xs.
Proof.
  unfold Js.includes. intros H. apply existsb_exists in H.
  destruct H as [x [Hin Heq]]. apply String.eqb_eq in Heq. now subst.
Qed.

(** A property of rows that the inserted row has and that patching keeps
    is kept by the three handlers that write the table. *)
Lemma rows_invariant (P : WaterTest.t -> Prop) (env : Env) (req : Request)
    (w : World) :
  (accepted req = true -> P (createdRow env (createData env req) w)) ->
  (forall r,
     (Js.truthy (Body.quality (body req))
      && negb (Js.includes ["good"; "medium"; "high"]
                 (normalize (Body.quality (body req))))) = false ->
     P r -> P (applyPatch (patchOf env req) r)) ->
  Forall P (waterTests w) ->
  Forall P (waterTests (snd (createWaterTest env req w))) /\
  Forall P (waterTests (snd (updateWaterTest env req w))) /\
  Forall P (waterTests (snd (deleteWaterTest env req w))).
Proof.
  intros Hnew Hpatch Hall. split; [|split].
  - destruct (accepted req) eqn:Hacc.
    + assert (Hgrown : Forall P (waterTests w ++ [createdRow env (createData env req) w]))
        by (apply Forall_app; split; [exact Hall | constructor; auto]).
      destruct (createWaterTest_ending env req w Hacc)
        as [_ (Hw & _) _ _ | c w0 _ _ _ Hw _ _ _
           | _ _ Hw _ _ _ _ _ | _ Hw _ _ _ _ _
           | before rest last c _ Hw _ _ _ _ _ _ _ _ | ok _ Hw _ _ _ _ _];
        rewrite Hw; assumption.
    + destruct (createWaterTest_stopped_trace env req w Hacc) as ((-> & _) & _).
      exact Hall.
  - rewrite updateWaterTest_cases.
    destruct (resolves env w (WaterTestFindUnique _)); [|exact Hall].
    destruct (lookup (params_id req) w) as [existing|]; [|exact Hall].
    destruct (negb (mayWrite (user req) existing)); [exact Hall|].
    destruct (Js.throws (Body.dateTime (body req))); [exact Hall|].
    destruct (Js.throws (Body.quality (body req))); [exact Hall|].
    destruct (Js.truthy (Body.quality (body req)) && _) eqn:Hq; [exact Hall|].
    destruct (resolves env w (WaterTestUpdate _ _)); [|exact Hall].
    simpl. apply Forall_map. revert Hall. apply Forall_impl.
    intros r Hr. destruct (WaterTest.id r =? params_id req); auto.
  - rewrite deleteWaterTest_cases.
    destruct (resolves env w (WaterTestFindUnique _)); [|exact Hall].
    destruct (lookup (params_id req) w) as [existing|]; [|exact Hall].
    destruct (negb (mayWrite (user req) existing)); [exact Hall|].
    destruct (resolves env w (WaterTestDelete _)); [|exact Hall].
    simpl. rewrite Forall_forall in *. intros r Hin.
    apply filter_In in Hin. now apply Hall.
Qed.

(** X5.  The handlers keep the quality column within good, medium, high:
    when every stored row has one of the three levels, so has every row
    after a create, an update or a delete, whatever the request and
    whatever the collaborators do. *)
Theorem X5_quality_stays_in_range (env : Env) (req : Request) (w : World) :
  Forall qualityInRange (waterTests w) ->
  Forall qualityInRange (waterTests (snd (createWaterTest env req w))) /\
  Forall qualityInRange (waterTests (snd (updateWaterTest env req w))) /\
  Forall qualityInRange (waterTests (snd (deleteWaterTest env req w))).
Proof.
  apply rows_invariant.
  - unfold accepted. intros Hacc. apply andb_true_iff in Hacc as [Hacc _].
    apply andb_true_iff in Hacc as [_ Hq].
    apply includes_In in Hq. exact Hq.
  - intros r Hq Hr. unfold qualityInRange, applyPatch, patchOf in *.
    cbn [WaterTest.quality Patch.quality].
    destruct (Js.truthy (Body.quality (body req))); [|exact Hr].
    cbn [andb] in Hq. apply negb_false_iff in Hq. now apply includes_In.
Qed.

Lemma X5_quality_stays_in_range_witness :
  Forall qualityInRange (waterTests Fixture.three) /\
  Forall qualityInRange
    (waterTests (snd (updateWaterTest Fixture.reliable
                        (mkRequest "wt0" (Fixture.form (Js.Str "MEDIUM")) Fixture.asha)
                        Fixture.three))) /\
  map WaterTest.quality
    (waterTests (snd (updateWaterTest Fixture.reliable
                        (mkRequest "wt0" (Fixture.form (Js.Str "MEDIUM")) Fixture.asha)
                        Fixture.three))) = ["medium"; "good"; "high"].
Proof.
  assert (H : Forall qualityInRange (waterTests Fixture.three)).
  { simpl. repeat (apply Forall_cons; [unfold qualityInRange; simpl; auto 6|]).
    apply Forall_nil. }
  split; [exact H|]. split; [|reflexivity].
  apply (X5_quality_stays_in_range Fixture.reliable
           (mkRequest "wt0" (Fixture.form (Js.Str "MEDIUM")) Fixture.asha)
           Fixture.three H).
Defined.

Lemma typeof_number (v : Js.Value) :
  (Js.typeof v =? "number") = true -> nullOrNumber v = true.
Proof. destruct v; simpl; congruence. Qed.

(** X6.  The handlers keep the coordinate columns typed: when every stored
    row has null or a number as latitude and as longitude, so has every row
    after a create, an update or a delete; a coordinate that the client
    sends as a string, a boolean or an object never reaches the table. *)
Theorem X6_coordinates_stay_typed (env : Env) (req : Request) (w : World) :
  Forall coordinatesTyped (waterTests w) ->
  Forall coordinatesTyped (waterTests (snd (createWaterTest env req w))) /\
  Forall coordinatesTyped (waterTests (snd (updateWaterTest env req w))) /\
  Forall coordinatesTyped (waterTests (snd (deleteWaterTest env req w))).
Proof.
  apply rows_invariant.
  - intros _. unfold coordinatesTyped, createdRow, createData.
    cbn [WaterTest.latitude WaterTest.longitude Data.latitude Data.longitude].
    split.
    + destruct (Js.typeof (Body.latitude (body req)) =? "number") eqn:Ht;
        [now apply typeof_number | reflexivity].
    + destruct (Js.typeof (Body.longitude (body req)) =? "number") eqn:Ht;
        [now apply typeof_number | reflexivity].
  - intros r _ [Hlat Hlong]. unfold coordinatesTyped, applyPatch, patchOf.
    cbn [WaterTest.latitude WaterTest.longitude Patch.latitude Patch.longitude].
    split.
    + destruct (Js.typeof (Body.latitude (body req)) =? "number") eqn:Ht;
        [now apply typeof_number | exact Hlat].
    + destruct (Js.typeof (Body.longitude (body req)) =? "number") eqn:Ht;
        [now apply typeof_number | exact Hlong].
Qed.

Lemma X6_coordinates_stay_typed_witness :
  Forall coordinatesTyped (waterTests Fixture.three) /\
  Forall coordinatesTyped
    (waterTests
       (snd (createWaterTest Fixture.reliable
               (mkRequest ""
                  (Body.mk (Js.Str "Yamuna") Js.Undefined (Js.Str "2025-09-11T10:00:00Z")
                     (Js.Str "Delhi") (Js.Str "28.6139") (Js.Number 772090 (-4))
                     (Js.Str "https://cdn.example/p.jpg") (Js.Str "turbid")
                     (Js.Str "good"))
                  Fixture.asha)
               Fixture.three))) /\
  map WaterTest.latitude
    (waterTests
       (snd (createWaterTest Fixture.reliable
               (mkRequest ""
                  (Body.mk (Js.Str "Yamuna") Js.Undefined (Js.Str "2025-09-11T10:00:00Z")
                     (Js.Str "Delhi") (Js.Str "28.6139") (Js.Number 772090 (-4))
                     (Js.Str "https://cdn.example/p.jpg") (Js.Str "turbid")
                     (Js.Str "good"))
                  Fixture.asha)
               Fixture.three))) =
    [Js.Number 286139 (-4); Js.Null; Js.Null; Js.Null].
Proof.
  assert (H : Forall coordinatesTyped (waterTests Fixture.three)).
  { simpl. repeat (apply Forall_cons; [split; reflexivity|]). apply Forall_nil. }
  split; [exact H|]. split; [|reflexivity].
  apply (X6_coordinates_stay_typed Fixture.reliable _ Fixture.three H).
Defined.

(** ** How updates compose *)

Lemma applyPatch_keeps (p : Patch.t) (r : WaterTest.t) :
  WaterTest.id (applyPatch p r) = WaterTest.id r /\
  WaterTest.ashaId (applyPatch p r) = WaterTest.ashaId r /\
  WaterTest.createdAt (applyPatch p r) = WaterTest.createdAt r.
Proof. repeat split. Qed.

Lemma applyPatch_twice (p : Patch.t) (r : WaterTest.t) :
  applyPatch p (applyPatch p r) = applyPatch p r.
Proof.
  unfold applyPatch. simpl.
  destruct (Patch.waterbodyName p), (Patch.waterbodyId p), (Patch.dateTime p),
    (Patch.location p), (Patch.latitude p), (Patch.longitude p),
    (Patch.photoUrl p), (Patch.notes p), (Patch.quality p); reflexivity.
Qed.

(** The table that a resolved [prisma.waterTest.update] leaves. *)
Lemma updateWaterTest_table (env : Env) (req : Request) (w : World) :
  waterTests (snd (updateWaterTest env req w)) =
  if Nat.eqb (status (fst (updateWaterTest env req w))) 200
  then map (fun x => if WaterTest.id x =? params_id req
                     then applyPatch (patchOf env req) x else x)
           (waterTests w)
  else waterTests w.
Proof.
  rewrite updateWaterTest_cases.
  destruct (resolves env w (WaterTestFindUnique _)); [|reflexivity].
  destruct (lookup (params_id req) w) as [existing|]; [|reflexivity].
  destruct (negb (mayWrite (user req) existing)); [reflexivity|].
  destruct (Js.throws (Body.dateTime (body req))); [reflexivity|].
  destruct (Js.throws (Body.quality (body req))); [reflexivity|].
  destruct (Js.truthy (Body.quality (body req)) && _); [reflexivity|].
  destruct (resolves env w (WaterTestUpdate _ _)); reflexivity.
Qed.

(** X7.  An update never adds, removes or reorders rows and never changes
    the id, the owner or the creation time of a row; rows with another id
    than the request's are left exactly as they were.  This holds on every
    path. *)
Theorem X7_update_keeps_identity_columns (env : Env) (req : Request) (w : World) :
  let w' := snd (updateWaterTest env req w) in
  map WaterTest.id (waterTests w') = map WaterTest.id (waterTests w) /\
  map WaterTest.ashaId (waterTests w') = map WaterTest.ashaId (waterTests w) /\
  map WaterTest.createdAt (waterTests w') = map WaterTest.createdAt (waterTests w) /\
  filter (fun r => negb (hasId (params_id req) r)) (waterTests w') =
  filter (fun r => negb (hasId (params_id req) r)) (waterTests w).
Proof.
  intros w'. unfold w'. rewrite updateWaterTest_table.
  destruct (Nat.eqb _ 200); [|repeat split].
  unfold hasId.
  induction (waterTests w) as [|x rows (IH1 & IH2 & IH3 & IH4)]; [repeat split|].
  simpl. destruct (WaterTest.id x =? params_id req) eqn:Hx; simpl.
  - rewrite Hx. simpl. repeat split; congruence.
  - rewrite Hx. simpl. repeat split; congruence.
Qed.

(** X8.  Updating twice with the same request is the same as updating
    once: after an update that was answered 200, repeating the request
    leaves the WaterTest table as the first update left it, whatever the
    second answer is; and the second answer is 200 again when the store
    answers. *)
Theorem X8_update_is_idempotent (env : Env) (req : Request) (w : World) :
  status (fst (updateWaterTest env req w)) = 200 ->
  let w1 := snd (updateWaterTest env req w) in
  waterTests (snd (updateWaterTest env req w1)) = waterTests w1 /\
  (resolves env w1 (WaterTestFindUnique (params_id req)) = true ->
   resolves env w1 (WaterTestUpdate (params_id req) (patchOf env req)) = true ->
   status (fst (updateWaterTest env req w1)) = 200).
Proof.
  intros Hok w1. split.
  - rewrite updateWaterTest_table.
    destruct (Nat.eqb _ 200); [|reflexivity].
    unfold w1. rewrite updateWaterTest_table, Hok. simpl.
    rewrite map_map. apply map_ext. intros x.
    destruct (WaterTest.id x =? params_id req) eqn:Hx.
    + cbn [applyPatch WaterTest.id]. rewrite Hx. apply applyPatch_twice.
    + now rewrite Hx.
  - intros Hfind Hupd.
    assert (Hpath : exists existing,
              lookup (params_id req) w = Some existing /\
              negb (mayWrite (user req) existing) = false /\
              Js.throws (Body.dateTime (body req)) = false /\
              Js.throws (Body.quality (body req)) = false /\
              (Js.truthy (Body.quality (body req))
               && negb (Js.includes ["good"; "medium"; "high"]
                          (normalize (Body.quality (body req))))) = false).
    { revert Hok. rewrite updateWaterTest_cases.
      destruct (resolves env w (WaterTestFindUnique _)); [|discriminate].
      destruct (lookup (params_id req) w) as [existing|]; [|discriminate].
      destruct (negb (mayWrite (user req) existing)) eqn:Hmay; [discriminate|].
      destruct (Js.throws (Body.dateTime (body req))) eqn:Hd; [discriminate|].
      destruct (Js.throws (Body.quality (body req))) eqn:Hs; [discriminate|].
      destruct (Js.truthy (Body.quality (body req)) && _) eqn:Hq; [discriminate|].
      intros _. exists existing. repeat split; assumption. }
    destruct Hpath as (existing & Hrow & Hmay & Hd & Hs & Hq).
    pose proof (updateWaterTest_row env req w existing Hrow) as Hrow1.
    fold w1 in Hrow1. rewrite Hok in Hrow1. simpl in Hrow1.
    rewrite updateWaterTest_cases, Hfind, Hrow1.
    unfold mayWrite in *. cbn [applyPatch WaterTest.ashaId].
    now rewrite Hmay, Hd, Hs, Hq, Hupd.
Qed.

Lemma X8_update_is_idempotent_witness :
  status (fst (updateWaterTest Fixture.reliable
                 (mkRequest "wt0" (Fixture.form (Js.Str "High")) Fixture.asha)
                 Fixture.three)) = 200 /\
  waterTests
    (snd (updateWaterTest Fixture.reliable
            (mkRequest "wt0" (Fixture.form (Js.Str "High")) Fixture.asha)
            (snd (updateWaterTest Fixture.reliable
                    (mkRequest "wt0" (Fixture.form (Js.Str "High")) Fixture.asha)
                    Fixture.three)))) =
  waterTests
    (snd (updateWaterTest Fixture.reliable
            (mkRequest "wt0" (Fixture.form (Js.Str "High")) Fixture.asha)
            Fixture.three)).
Proof.
  split; [reflexivity|].
  apply (X8_update_is_idempotent Fixture.reliable
           (mkRequest "wt0" (Fixture.form (Js.Str "High")) Fixture.asha)
           Fixture.three eq_refl).
Defined.

Lemma applyPatch_nothing (env : Env) (req : Request) (r : WaterTest.t) :
  nothingToApply (body req) = true ->
  applyPatch (patchOf env req) r = r.
Proof.
  unfold nothingToApply. intros H.
  repeat (apply andb_true_iff in H as [H ?]).
  repeat match goal with
         | Hn : negb _ = true |- _ => apply negb_true_iff in Hn
         end.
  unfold applyPatch, patchOf.
  repeat match goal with
         | Hf : _ = false |- _ => rewrite Hf; clear Hf
         | Ht : _ = true |- _ => rewrite Ht; clear Ht
         end.
  now destruct r.
Qed.

(** X9.  An update whose body has nothing to apply (an empty object, or
    only falsy fields and coordinates that are no numbers) writes nothing:
    the WaterTest table is as before on every path; for the owner or an
    admin of an existing record, with the store answering, the answer is
    200 with the record's id all the same. *)
Theorem X9_empty_patch_changes_nothing (env : Env) (req : Request) (w : World) :
  nothingToApply (body req) = true ->
  waterTests (snd (updateWaterTest env req w)) = waterTests w /\
  (forall existing,
     resolves env w (WaterTestFindUnique (params_id req)) = true ->
     resolves env w (WaterTestUpdate (params_id req) (patchOf env req)) = true ->
     find (fun r => WaterTest.id r =? params_id req) (waterTests w) = Some existing ->
     User.role (user req) = "admin" \/ User.id (user req) = WaterTest.ashaId existing ->
     fst (updateWaterTest env req w) =
       mkResponse 200 (Json.WaterTestId (params_id req))).
Proof.
  intros Hnone. split.
  - rewrite updateWaterTest_table. destruct (Nat.eqb _ 200); [|reflexivity].
    rewrite <- (map_id (waterTests w)) at 2. apply map_ext. intros x.
    destruct (WaterTest.id x =? params_id req); [|reflexivity].
    now apply applyPatch_nothing.
  - intros existing Hfind Hupd Hrow Hauth.
    rewrite updateWaterTest_cases. unfold lookup.
    rewrite Hfind, Hrow, (mayWrite_true _ _ Hauth), Hupd.
    assert (Hfalsy : forall v, Js.truthy v = false -> Js.throws v = false).
    { intros v Hv. destruct (Js.throws v) eqn:Ht; [|reflexivity].
      rewrite (throws_truthy _ Ht) in Hv. discriminate. }
    assert (Hq : Js.truthy (Body.quality (body req)) = false).
    { unfold nothingToApply in Hnone.
      apply andb_true_iff in Hnone as [_ Hq]. now apply negb_true_iff. }
    assert (Hd : Js.truthy (Body.dateTime (body req)) = false).
    { unfold nothingToApply in Hnone.
      repeat (apply andb_true_iff in Hnone as [Hnone ?]).
      now apply negb_true_iff. }
    rewrite (Hfalsy _ Hd), (Hfalsy _ Hq), Hq. simpl.
    apply find_some in Hrow. destruct Hrow as [_ Hid].
    apply String.eqb_eq in Hid. now rewrite Hid.
Qed.

Lemma X9_empty_patch_changes_nothing_witness :
  nothingToApply Fixture.noChange = true /\
  updateWaterTest Fixture.reliable (mkRequest "wt2" Fixture.noChange Fixture.asha)
    Fixture.three = (mkResponse 200 (Json.WaterTestId "wt2"), Fixture.three) /\
  waterTests (snd (updateWaterTest Fixture.reliable
                     (mkRequest "wt2" Fixture.noChange Fixture.asha) Fixture.three)) =
    waterTests Fixture.three.
Proof.
  split; [reflexivity|]. split; [reflexivity|].
  apply (X9_empty_patch_changes_nothing Fixture.reliable
           (mkRequest "wt2" Fixture.noChange Fixture.asha) Fixture.three eq_refl).
Defined.

(** ** What createWaterTest writes and calls *)

(** X10.  [createWaterTest] answers 400 or 403 exactly when one of its
    three checks fails, and then nothing has happened: no store call, no
    row, no log.  Every other request is answered 201 or 500.  The role is
    checked before the quality is looked at: a caller whose role is not
    allowed gets 403 also when the quality is invalid or cannot be
    converted.  For an allowed caller, a quality whose conversion throws
    is answered 500 before the store is called: the tables are as they
    were and the error is logged. *)
Theorem X10_create_refusals_write_nothing (env : Env) (req : Request) (w : World) :
  (refused req = true ->
     snd (createWaterTest env req w) = w /\
     (status (fst (createWaterTest env req w)) = 400 \/
      status (fst (createWaterTest env req w)) = 403)) /\
  (refused req = false ->
     status (fst (createWaterTest env req w)) = 201 \/
     status (fst (createWaterTest env req w)) = 500) /\
  (missingRequired (body req) = false ->
   Js.includes ["asha"; "admin"; "leader"] (User.role (user req)) = false ->
     createWaterTest env req w = (mkResponse 403 (Json.Message "forbidden"), w)) /\
  (missingRequired (body req) = false ->
   Js.includes ["asha"; "admin"; "leader"] (User.role (user req)) = true ->
   Js.toString (Body.quality (body req)) = None ->
     fst (createWaterTest env req w) =
       mkResponse 500 (Json.Message "Internal Server Error") /\
     sameTables w (snd (createWaterTest env req w)) /\
     trace (snd (createWaterTest env req w)) =
       (trace w ++ [ConsoleError "createWaterTest error" TypeError])%list).
Proof.
  unfold refused. rewrite createWaterTest_cases.
  destruct (missingRequired (body req)).
  { simpl. repeat split; auto; discriminate. }
  destruct (Js.includes ["asha"; "admin"; "leader"] _).
  2:{ simpl. repeat split; auto; discriminate. }
  cbn [negb orb].
  destruct (Js.throws (Body.quality (body req))) eqn:Hs.
  { cbn [negb andb]. simpl. split; [discriminate|]. split; [auto|].
    split; [discriminate|]. intros _ _ _. repeat split. }
  cbn [negb andb].
  assert (Hconv : Js.toString (Body.quality (body req)) = None -> False).
  { intros Hn. apply toString_throws in Hn. congruence. }
  destruct (Js.includes ["good"; "medium"; "high"] _).
  2:{ simpl. split; [auto|]. split; [discriminate|]. split; [discriminate|].
      intros _ _ Hn. now apply Hconv in Hn. }
  cbn [negb].
  split; [discriminate|]. split; [|split; [discriminate|]].
  2:{ intros _ _ Hn. now apply Hconv in Hn. }
  intros _.
  destruct (Js.throws (Body.dateTime (body req))); [simpl; auto|].
  destruct (resolves env w (WaterTestCreate (createData env req))); [|simpl; auto].
  cbv zeta. destruct (alertHandling _ _ _ _ _ _) as [[u|c] w2]; simpl; auto.
Qed.

Lemma X10_create_refusals_write_nothing_witness :
  createWaterTest Fixture.reliable
    (mkRequest "" (Fixture.form (Js.Str "excellent")) Fixture.villager)
    Fixture.three =
  (mkResponse 403 (Json.Message "forbidden"), Fixture.three) /\
  createWaterTest Fixture.reliable
    (mkRequest "" (Fixture.form (Js.Object None)) Fixture.villager)
    Fixture.three =
  (mkResponse 403 (Json.Message "forbidden"), Fixture.three) /\
  createWaterTest Fixture.reliable
    (mkRequest "" (Fixture.form (Js.Object None)) Fixture.asha)
    Fixture.three =
  (mkResponse 500 (Json.Message "Internal Server Error"),
   mkWorld (waterTests Fixture.three) (users Fixture.three) [] []
     [ConsoleError "createWaterTest error" TypeError]) /\
  status (fst (createWaterTest Fixture.whatsAppDown
                 (mkRequest "" (Fixture.form (Js.Str "high")) Fixture.asha)
                 Fixture.three)) = 500.
Proof.
  destruct (X10_create_refusals_write_nothing Fixture.reliable
              (mkRequest "" (Fixture.form (Js.Str "excellent")) Fixture.villager)
              Fixture.three) as (_ & _ & Hrole & _).
  split; [exact (Hrole eq_refl eq_refl)|].
  destruct (X10_create_refusals_write_nothing Fixture.reliable
              (mkRequest "" (Fixture.form (Js.Object None)) Fixture.villager)
              Fixture.three) as (_ & _ & Hrole' & _).
  split; [exact (Hrole' eq_refl eq_refl)|].
  split; reflexivity.
Defined.

Lemma filter_none {A : Type} (p : A -> bool) (l : list A) :
  Forall (fun x => p x = false) l -> filter p l = [].
Proof.
  induction 1 as [|x l Hx _ IH]; [reflexivity|]. simpl. now rewrite Hx.
Qed.

(** X11.  [createWaterTest] calls the health-card controller exactly when
    it answers 201, and then exactly once, with the name, the waterbody
    id, the location and the coordinates of the inserted row and with the
    caller; with any other answer the controller was not called. *)
Theorem X11_health_card_called_once_iff_created (env : Env) (req : Request)
    (w : World) :
  let record := createdRow env (createData env req) w in
  exists new,
    trace (snd (createWaterTest env req w)) = (trace w ++ new)%list /\
    (status (fst (createWaterTest env req w)) = 201 ->
       exists ok,
         filter isHealthCard new =
           [HealthCard
              (HealthCardReq.mk
                 (WaterTest.waterbodyName record) (WaterTest.waterbodyId record)
                 (WaterTest.location record) (WaterTest.latitude record)
                 (WaterTest.longitude record) (user req))
              ok]) /\
    (status (fst (createWaterTest env req w)) <> 201 ->
       filter isHealthCard new = []).
Proof.
  cbv zeta.
  destruct (accepted req) eqn:Hacc.
  - pose proof (fanOutEffect_not_healthCard _ _
                  (alertPlan_effects req (normalize (Body.quality (body req)))
                     (createdRow env (createData env req) w)
                     (formattedDate env req) w)) as Hplan.
    destruct (createWaterTest_ending env req w Hacc)
      as [_ _ Htr -> | c w0 _ _ _ _ _ Htr ->
         | _ _ _ _ _ _ Htr -> | _ _ _ _ _ Htr ->
         | before rest last c _ _ _ _ _ Heq Hfail _ Htr -> | ok _ _ _ _ _ Htr ->];
      eexists; (split; [exact Htr|]); simpl; (split; [intros H201 | intros Hnot]);
      try discriminate; try congruence.
    + rewrite filter_app, (filter_none _ _ Hplan). reflexivity.
    + rewrite Heq in Hplan. apply Forall_app in Hplan as [Hb _].
      rewrite filter_app, (filter_none _ _ Hb).
      destruct last; simpl in *; try discriminate; reflexivity.
    + exists ok. rewrite filter_app, (filter_none _ _ Hplan).
      unfold healthCardTrace, healthCardReqFor. destruct ok; reflexivity.
  - destruct (createWaterTest_stopped_trace env req w Hacc)
      as (_ & [Htr | Htr] & Hnot).
    + exists []. rewrite Htr, app_nil_r. split; [reflexivity|].
      split; [|reflexivity]. intros H201. contradiction.
    + eexists. split; [exact Htr|].
      split; [|reflexivity]. intros H201. contradiction.
Qed.

Section CreateAppends.

Variable env : Env.

(** The alert block only appends: each alert table is as before or has
    grown by the rows of the quality. *)
Lemma alertHandling_appends (req : Request) (q : string) (record : WaterTest.t)
    (date : string) (w : World) (o : Outcome unit) (w' : World) :
  alertHandling env req q record date w = (o, w') ->
  (leaderAlerts w' = leaderAlerts w \/
   leaderAlerts w' = (leaderAlerts w ++ insertedLeaderAlerts q record w)%list) /\
  (globalAlerts w' = globalAlerts w \/
   globalAlerts w' = (globalAlerts w ++ insertedGlobalAlerts q record)%list).
Proof.
  unfold alertHandling. intros Hrun.
  destruct (q =? "medium") eqn:Hm; [|destruct (q =? "high") eqn:Hh].
  - await_in Hrun prisma_user_findMany Hfind.
    + fold (leadersOf w) in Hrun. unfold bind at 1 in Hrun.
      destruct (0 <? List.length (leadersOf w))%nat eqn:Hlen.
      * unfold bind at 1 in Hrun. rewrite mapM_alertRows in Hrun.
        unfold insertedLeaderAlerts. rewrite Hm.
        destruct (leadersOf w) as [|l ls] eqn:Hls; [discriminate|].
        destruct (Js.throws (WaterTest.waterbodyName record)).
        { injection Hrun as <- <-. auto. }
        unfold prisma_leaderAlert_createMany, bind at 1, await in Hrun.
        destruct (resolves env w _) eqn:Hmany in Hrun.
        -- eapply (forOf_notify env) in Hrun;
             [|intros u w0; apply round_template].
           destruct Hrun as ((_ & _ & Hl & Hg) & _).
           simpl in Hl, Hg. split; [right | left]; assumption.
        -- injection Hrun as <- <-. auto.
      * destruct (leadersOf w) as [|l ls] eqn:Hls; [|discriminate].
        injection Hrun as <- <-. auto.
    + injection Hrun as <- <-. auto.
  - rewrite bind_toStringM in Hrun.
    destruct (Js.throws (WaterTest.waterbodyName record)).
    { injection Hrun as <- <-. auto. }
    await_in Hrun prisma_globalAlert_create Hga.
    + await_in Hrun prisma_user_findMany Hfind.
      * eapply (forOf_notify env) in Hrun;
          [|intros u w0; apply round_template].
        destruct Hrun as ((_ & _ & Hl & Hg) & _).
        simpl in Hl, Hg. split; [left | right]; [exact Hl|].
        unfold insertedGlobalAlerts. now rewrite Hm, Hh.
      * injection Hrun as <- <-. simpl. split; [left | right]; [reflexivity|].
        unfold insertedGlobalAlerts. now rewrite Hm, Hh.
    + injection Hrun as <- <-. auto.
  - injection Hrun as <- <-. auto.
Qed.

End CreateAppends.

(** X12.  [createWaterTest] only appends.  On every path, whatever the
    request and whatever the collaborators do, the users are as before, the
    WaterTest table is as before or has the one new row at its end, the
    LeaderAlert table is as before or has the alerts for the leaders at
    its end, and the GlobalAlert table is as before or has the one global
    alert at its end: no existing row of any table is changed or removed,
    and alert rows are never written without the row they reference. *)
Theorem X12_create_only_appends (env : Env) (req : Request) (w : World) :
  let q := normalize (Body.quality (body req)) in
  let record := createdRow env (createData env req) w in
  let w' := snd (createWaterTest env req w) in
  users w' = users w /\
  (waterTests w' = waterTests w \/
   waterTests w' = (waterTests w ++ [record])%list) /\
  (leaderAlerts w' = leaderAlerts w \/
   leaderAlerts w' = (leaderAlerts w ++ insertedLeaderAlerts q record w)%list) /\
  (globalAlerts w' = globalAlerts w \/
   globalAlerts w' = (globalAlerts w ++ insertedGlobalAlerts q record)%list) /\
  (waterTests w' = waterTests w ->
   leaderAlerts w' = leaderAlerts w /\ globalAlerts w' = globalAlerts w).
Proof.
  intros q record w'. unfold w'. rewrite createWaterTest_cases.
  destruct (missingRequired (body req)); [simpl; auto 10|].
  destruct (negb (Js.includes ["asha"; "admin"; "leader"] _)); [simpl; auto 10|].
  destruct (Js.throws (Body.quality (body req))); [simpl; auto 10|].
  destruct (negb (Js.includes ["good"; "medium"; "high"] _)); [simpl; auto 10|].
  destruct (Js.throws (Body.dateTime (body req))); [simpl; auto 10|].
  destruct (resolves env w (WaterTestCreate (createData env req)));
    [|simpl; auto 10].
  cbv zeta. fold record q.
  destruct (alertHandling _ _ _ _ _ _) as [o w2] eqn:Hrun.
  pose proof (alertHandling_run env _ _ _ _ _ _ _ Hrun) as (Hw & Hu & _).
  apply alertHandling_appends in Hrun. destruct Hrun as (Hl & Hg).
  simpl in Hw, Hu, Hl, Hg.
  assert (Hgrow : (waterTests w ++ [record])%list = waterTests w -> False).
  { intros Heq. apply (f_equal (@List.length _)) in Heq.
    rewrite length_app in Heq. simpl in Heq. lia. }
  destruct o as [u|c].
  - destruct (healthCardUpdate_run env req record w2)
      as (w3 & ok & -> & (T1 & T2 & T3 & T4) & _).
    simpl. rewrite T1, T2, T3, T4, Hw, Hu.
    split; [reflexivity|]. split; [now right|]. split; [exact Hl|].
    split; [exact Hg|]. intros Heq. now apply Hgrow in Heq.
  - simpl. rewrite Hw, Hu.
    split; [reflexivity|]. split; [now right|]. split; [exact Hl|].
    split; [exact Hg|]. intros Heq. now apply Hgrow in Heq.
Qed.

(** ** From a create to the listings and to a delete *)

Section Listings.

Variable env : Env.

Lemma getUserWaterTests_run (req : Request) (w : World) :
  resolves env w (WaterTestFindMany (Some (User.id (user req)))) = true ->
  getUserWaterTests env req w =
  (mkResponse 200
     (Json.Items
        (orderByCreatedAtDesc
           (filter (fun r => WaterTest.ashaId r =? User.id (user req))
                   (waterTests w)))), w).
Proof.
  intros Hr.
  unfold getUserWaterTests, catching, getUserWaterTests_try, bind,
    prisma_waterTest_findMany, bind, await.
  now rewrite Hr.
Qed.

Lemma listAllWaterTests_run (req : Request) (w : World) :
  User.role (user req) = "admin" ->
  resolves env w (WaterTestFindMany None) = true ->
  listAllWaterTests env req w =
  (mkResponse 200 (Json.Items (orderByCreatedAtDesc (waterTests w))), w).
Proof.
  intros Hrole Hr. apply String.eqb_eq in Hrole.
  unfold listAllWaterTests, catching, listAllWaterTests_try.
  rewrite Hrole. cbn [negb].
  unfold bind, prisma_waterTest_findMany, bind, await.
  now rewrite Hr, filter_all.
Qed.

(** An accepted create whose insert resolves leaves the new row at the end
    of the table, however the request ends. *)
Lemma createWaterTest_row (req : Request) (w : World) :
  accepted req = true ->
  resolves env w (WaterTestCreate (createData env req)) = true ->
  waterTests (snd (createWaterTest env req w)) =
    (waterTests w ++ [createdRow env (createData env req) w])%list.
Proof.
  intros Hacc Hins.
  destruct (createWaterTest_ending env req w Hacc)
    as [Hno _ _ _ | c w0 _ _ _ Hw _ _ _ | _ _ Hw _ _ _ _ _ | _ Hw _ _ _ _ _
       | before rest last c _ Hw _ _ _ _ _ _ _ _
       | ok _ Hw _ _ _ _ _]; [congruence | exact Hw ..].
Qed.

Lemma createWaterTest_users (req : Request) (w : World) :
  accepted req = true ->
  users (snd (createWaterTest env req w)) = users w.
Proof.
  intros Hacc.
  destruct (createWaterTest_ending env req w Hacc)
    as [_ (_ & Hu & _) _ _ | c w0 _ _ _ _ Hu _ _
       | _ _ _ Hu _ _ _ _ | _ _ Hu _ _ _ _
       | before rest last c _ _ Hu _ _ _ _ _ _ _ | ok _ _ Hu _ _ _ _]; exact Hu.
Qed.

End Listings.

Lemma insertDesc_front (x : WaterTest.t) (l : list WaterTest.t) :
  Forall (newerFirst x) l -> insertDesc x l = x :: l.
Proof.
  intros H. destruct l as [|y l]; [reflexivity|]. simpl.
  inversion H as [|? ? Hy _]; subst. unfold newerFirst in Hy.
  apply Z.leb_le in Hy. now rewrite Hy.
Qed.

Lemma filter_insertDesc (f : WaterTest.t -> bool) (x : WaterTest.t)
    (l : list WaterTest.t) :
  StronglySorted newerFirst l ->
  filter f (insertDesc x l) =
    if f x then insertDesc x (filter f l) else filter f l.
Proof.
  induction l as [|y l IH]; intros Hs.
  - simpl. now destruct (f x).
  - inversion Hs as [|? ? Hl Hy]; subst.
    cbn [insertDesc].
    destruct (WaterTest.createdAt y <=? WaterTest.createdAt x)%Z eqn:Hle.
    + cbn [filter]. destruct (f x) eqn:Hx; [|reflexivity].
      symmetry. apply (insertDesc_front x (filter f (y :: l))).
      apply Z.leb_le in Hle.
      apply Forall_forall. intros z Hz. apply filter_In in Hz as [Hz _].
      destruct Hz as [<- | Hz]; [exact Hle|].
      rewrite Forall_forall in Hy. specialize (Hy z Hz).
      unfold newerFirst in *. lia.
    + cbn [filter]. rewrite (IH Hl).
      destruct (f y) eqn:Hfy, (f x) eqn:Hfx; try reflexivity.
      cbn [insertDesc]. now rewrite Hle.
Qed.

Lemma filter_orderByCreatedAtDesc (f : WaterTest.t -> bool) (l : list WaterTest.t) :
  filter f (orderByCreatedAtDesc l) = orderByCreatedAtDesc (filter f l).
Proof.
  induction l as [|x l IH]; [reflexivity|]. cbn [orderByCreatedAtDesc filter].
  rewrite filter_insertDesc by apply orderByCreatedAtDesc_sorted.
  rewrite IH. now destruct (f x).
Qed.

Lemma filter_keeps {A : Type} (p : A -> bool) (l : list A) :
  Forall (fun x => p x = true) l -> filter p l = l.
Proof.
  induction 1 as [|x l Hx _ IH]; [reflexivity|]. simpl. now rewrite Hx, IH.
Qed.

Lemma find_none {A : Type} (p : A -> bool) (l : list A) :
  Forall (fun x => p x = false) l -> find p l = None.
Proof.
  induction 1 as [|x l Hx _ IH]; [reflexivity|]. simpl. now rewrite Hx.
Qed.

Lemma find_app {A : Type} (p : A -> bool) (l1 l2 : list A) :
  find p (l1 ++ l2)%list =
    match find p l1 with Some x => Some x | None => find p l2 end.
Proof.
  induction l1 as [|x l1 IH]; [reflexivity|]. simpl. now destruct (p x).
Qed.

(** X13.  A created record shows up in its creator's listing and in nobody
    else's.  After an accepted create whose insert resolved, however the
    request then ended (201, or 500 from the alert block), the own listing
    of a viewer for whom the store answers is 200, and it holds the new
    row exactly when the viewer's id is the creator's. *)
Theorem X13_created_record_listed_for_its_creator (env : Env)
    (req viewer : Request) (w : World) :
  accepted req = true ->
  resolves env w (WaterTestCreate (createData env req)) = true ->
  resolves env (snd (createWaterTest env req w))
    (WaterTestFindMany (Some (User.id (user viewer)))) = true ->
  exists items,
    getUserWaterTests env viewer (snd (createWaterTest env req w)) =
      (mkResponse 200 (Json.Items items), snd (createWaterTest env req w)) /\
    (In (createdRow env (createData env req) w) items <->
     User.id (user viewer) = User.id (user req)).
Proof.
  intros Hacc Hins Hfind.
  rewrite (getUserWaterTests_run env viewer _ Hfind).
  eexists. split; [reflexivity|].
  rewrite (createWaterTest_row env req w Hacc Hins).
  rewrite (Permutation_in' (x := createdRow env (createData env req) w) eq_refl
             (orderByCreatedAtDesc_perm _)).
  rewrite filter_In, in_app_iff. simpl. rewrite String.eqb_eq. split.
  - intros [_ H]. now symmetry.
  - intros H. split; [right; now left | now symmetry].
Qed.

Lemma X13_created_record_listed_for_its_creator_witness :
  (exists items,
     getUserWaterTests Fixture.reliable (mkRequest "" Fixture.noChange Fixture.asha)
       (snd (createWaterTest Fixture.reliable
               (mkRequest "" (Fixture.form (Js.Str "medium")) Fixture.asha)
               Fixture.world)) =
     (mkResponse 200 (Json.Items items),
      snd (createWaterTest Fixture.reliable
             (mkRequest "" (Fixture.form (Js.Str "medium")) Fixture.asha)
             Fixture.world)) /\
     In (createdRow Fixture.reliable
           (createData Fixture.reliable
              (mkRequest "" (Fixture.form (Js.Str "medium")) Fixture.asha))
           Fixture.world) items) /\
  (exists items,
     getUserWaterTests Fixture.reliable (mkRequest "" Fixture.noChange Fixture.other)
       (snd (createWaterTest Fixture.whatsAppDown
               (mkRequest "" (Fixture.form (Js.Str "medium")) Fixture.asha)
               Fixture.world)) =
     (mkResponse 200 (Json.Items items),
      snd (createWaterTest Fixture.whatsAppDown
             (mkRequest "" (Fixture.form (Js.Str "medium")) Fixture.asha)
             Fixture.world)) /\
     ~ In (createdRow Fixture.whatsAppDown
             (createData Fixture.whatsAppDown
                (mkRequest "" (Fixture.form (Js.Str "medium")) Fixture.asha))
             Fixture.world) items).
Proof.
  split.
  - destruct (X13_created_record_listed_for_its_creator Fixture.reliable
                (mkRequest "" (Fixture.form (Js.Str "medium")) Fixture.asha)
                (mkRequest "" Fixture.noChange Fixture.asha)
                Fixture.world eq_refl eq_refl eq_refl) as (items & Hrun & Hin).
    exists items. split; [exact Hrun|]. now apply Hin.
  - assert (Hfind :
      resolves Fixture.whatsAppDown
        (snd (createWaterTest Fixture.whatsAppDown
                (mkRequest "" (Fixture.form (Js.Str "medium")) Fixture.asha)
                Fixture.world))
        (WaterTestFindMany (Some (User.id Fixture.other))) = true)
      by reflexivity.
    destruct (X13_created_record_listed_for_its_creator Fixture.whatsAppDown
                (mkRequest "" (Fixture.form (Js.Str "medium")) Fixture.asha)
                (mkRequest "" Fixture.noChange Fixture.other)
                Fixture.world eq_refl eq_refl Hfind) as (items & Hrun & Hin).
    exists items. split; [exact Hrun|].
    intros H. apply Hin in H. discriminate.
Defined.

(** X14.  What a create wrote to the WaterTest table, its creator can take
    back.  When the generated id is not in the table yet, a delete of the
    returned id by the creator (the store answering) is answered 200 and
    leaves the WaterTest table exactly as it was before the create; the
    alert rows that the create wrote stay. *)
Theorem X14_creator_can_delete_the_created (env : Env) (req del : Request)
    (w : World) :
  accepted req = true ->
  resolves env w (WaterTestCreate (createData env req)) = true ->
  (forall r, In r (waterTests w) -> WaterTest.id r <> generateId env w) ->
  params_id del = generateId env w ->
  user del = user req ->
  resolves env (snd (createWaterTest env req w))
    (WaterTestFindUnique (params_id del)) = true ->
  resolves env (snd (createWaterTest env req w))
    (WaterTestDelete (params_id del)) = true ->
  let w1 := snd (createWaterTest env req w) in
  let w2 := snd (deleteWaterTest env del w1) in
  fst (deleteWaterTest env del w1) = mkResponse 200 Json.Deleted /\
  waterTests w2 = waterTests w /\
  leaderAlerts w2 = leaderAlerts w1 /\
  globalAlerts w2 = globalAlerts w1 /\
  users w2 = users w.
Proof.
  intros Hacc Hins Hfresh Hid Huser Hfind Hdel. cbv zeta.
  pose proof (createWaterTest_row env req w Hacc Hins) as Hrows.
  pose proof (createWaterTest_users env req w Hacc) as Husers.
  rewrite deleteWaterTest_cases.
  rewrite Hfind. unfold lookup. rewrite Hrows, find_app.
  rewrite find_none.
  2:{ apply Forall_forall. intros r Hr. apply String.eqb_neq.
      rewrite Hid. now apply Hfresh. }
  simpl find. rewrite Hid, String.eqb_refl.
  unfold mayWrite. rewrite Huser. simpl WaterTest.ashaId.
  rewrite String.eqb_refl, orb_true_r. cbn [negb].
  rewrite <- Hid, Hdel. simpl. rewrite filter_app. simpl.
  rewrite Hid, String.eqb_refl. simpl. rewrite app_nil_r.
  split; [reflexivity|]. split; [|repeat split; exact Husers].
  apply filter_keeps. apply Forall_forall. intros r Hr.
  apply negb_true_iff, String.eqb_neq. now apply Hfresh.
Qed.

Lemma X14_creator_can_delete_the_created_witness :
  fst (createWaterTest Fixture.reliable
         (mkRequest "" (Fixture.form (Js.Str "Medium")) Fixture.asha)
         Fixture.world) =
    mkResponse 201 (Json.WaterTestId "wt1") /\
  fst (deleteWaterTest Fixture.reliable (Scenario.deleteReq "wt1" Fixture.asha)
         (snd (createWaterTest Fixture.reliable
                 (mkRequest "" (Fixture.form (Js.Str "Medium")) Fixture.asha)
                 Fixture.world))) =
    mkResponse 200 Json.Deleted /\
  waterTests
    (snd (deleteWaterTest Fixture.reliable (Scenario.deleteReq "wt1" Fixture.asha)
            (snd (createWaterTest Fixture.reliable
                    (mkRequest "" (Fixture.form (Js.Str "Medium")) Fixture.asha)
                    Fixture.world)))) =
    waterTests Fixture.world /\
  leaderAlerts
    (snd (deleteWaterTest Fixture.reliable (Scenario.deleteReq "wt1" Fixture.asha)
            (snd (createWaterTest Fixture.reliable
                    (mkRequest "" (Fixture.form (Js.Str "Medium")) Fixture.asha)
                    Fixture.world)))) =
    [LeaderAlert.mk "l1" "⚠️ Medium Water Quality at Yamuna" "wt1";
     LeaderAlert.mk "l2" "⚠️ Medium Water Quality at Yamuna" "wt1"].
Proof.
  split; [reflexivity|].
  assert (Hfresh : forall r, In r (waterTests Fixture.world) ->
                     WaterTest.id r <> generateId Fixture.reliable Fixture.world).
  { intros r [<- | []]. discriminate. }
  destruct (X14_creator_can_delete_the_created Fixture.reliable
              (mkRequest "" (Fixture.form (Js.Str "Medium")) Fixture.asha)
              (Scenario.deleteReq "wt1" Fixture.asha) Fixture.world
              eq_refl eq_refl Hfresh eq_refl eq_refl eq_refl eq_refl)
    as (Hres & Hrows & Hl & _).
  split; [exact Hres|]. split; [exact Hrows|]. rewrite Hl. reflexivity.
Defined.

(** ** The listings against each other *)

(** X15.  What a caller gets from [getUserWaterTests] is what an admin gets
    from [listAllWaterTests], restricted to the caller's rows and in the
    same order: with the store answering both, the own listing is the
    admin's listing filtered by [ashaId]. *)
Theorem X15_own_listing_is_the_callers_part_of_all (env : Env)
    (req adminReq : Request) (w : World) :
  User.role (user adminReq) = "admin" ->
  resolves env w (WaterTestFindMany None) = true ->
  resolves env w (WaterTestFindMany (Some (User.id (user req)))) = true ->
  exists all own,
    listAllWaterTests env adminReq w = (mkResponse 200 (Json.Items all), w) /\
    getUserWaterTests env req w = (mkResponse 200 (Json.Items own), w) /\
    own = filter (fun r => WaterTest.ashaId r =? User.id (user req)) all.
Proof.
  intros Hrole Hall Hown.
  rewrite (listAllWaterTests_run env adminReq w Hrole Hall).
  rewrite (getUserWaterTests_run env req w Hown).
  do 2 eexists. split; [reflexivity|]. split; [reflexivity|].
  symmetry. apply filter_orderByCreatedAtDesc.
Qed.

Lemma X15_own_listing_is_the_callers_part_of_all_witness :
  exists all own,
    listAllWaterTests Fixture.reliable (mkRequest "" Fixture.noChange Fixture.admin)
      Fixture.three = (mkResponse 200 (Json.Items all), Fixture.three) /\
    getUserWaterTests Fixture.reliable (mkRequest "" Fixture.noChange Fixture.asha)
      Fixture.three = (mkResponse 200 (Json.Items own), Fixture.three) /\
    map WaterTest.id all = ["wt2"; "wt1"; "wt0"] /\
    map WaterTest.id own = ["wt2"; "wt0"].
Proof.
  destruct (X15_own_listing_is_the_callers_part_of_all Fixture.reliable
              (mkRequest "" Fixture.noChange Fixture.asha)
              (mkRequest "" Fixture.noChange Fixture.admin)
              Fixture.three eq_refl eq_refl eq_refl)
    as (all & own & Hall & Hown & Heq).
  exists all, own. split; [exact Hall|]. split; [exact Hown|].
  injection Hall as <-. subst own. split; reflexivity.
Defined.

(** ** isValidPhoneNumber *)

Lemma allDigits_spec (s : string) :
  Js.allDigits s = true <->
  forall c, In c (list_ascii_of_string s) -> (48 <= nat_of_ascii c <= 57)%nat.
Proof.
  induction s as [|a s IH]; simpl.
  - split; [intros _ c [] | reflexivity].
  - unfold Js.isDigit. rewrite !andb_true_iff, IH, !Nat.leb_le. split.
    + intros [Ha Hs] c [<- | Hc]; [exact Ha | now apply Hs].
    + intros H. split; [apply H; now left | intros c Hc; apply H; now right].
Qed.

(** X16.  The numbers that [isValidPhoneNumber] accepts are exactly the
    strings made of a plus sign followed by 10 to 15 ASCII digits; a number
    stored as a JavaScript number, null or a string with a space or without
    the plus sign is not accepted.  The truthiness test that the fan-out
    loops put in front of it never decides anything. *)
Theorem X16_valid_phone_number_shape (number : Js.Value) :
  (isValidPhoneNumber number = true <->
   exists digits,
     number = Js.Str (String "+" digits) /\
     (10 <= String.length digits <= 15)%nat /\
     forall c, In c (list_ascii_of_string digits) ->
               (48 <= nat_of_ascii c <= 57)%nat) /\
  Js.truthy number && isValidPhoneNumber number = isValidPhoneNumber number.
Proof.
  split.
  - unfold isValidPhoneNumber. split.
    + intros H. apply andb_true_iff in H as [Ht He].
      destruct number; simpl in Ht; try discriminate.
      cbn [Js.toString] in He. unfold Js.e164_test in He.
      destruct s as [|a s]; [discriminate|].
      destruct a as [[] [] [] [] [] [] [] []]; try discriminate.
      apply andb_true_iff in He as [He H15].
      apply andb_true_iff in He as [Hd H10].
      apply Nat.leb_le in H10, H15.
      exists s. split; [reflexivity|]. split; [split; assumption|].
      exact (proj1 (allDigits_spec s) Hd).
    + intros (digits & -> & [H10 H15] & Hd).
      apply (proj2 (allDigits_spec digits)) in Hd. apply Nat.leb_le in H10, H15.
      apply andb_true_iff. split; [reflexivity|].
      change (Js.allDigits digits && (10 <=? String.length digits)%nat
              && (String.length digits <=? 15)%nat = true).
      now rewrite Hd, H10, H15.
  - destruct (isValidPhoneNumber number) eqn:Hv; [|apply andb_false_r].
    rewrite andb_true_r. unfold isValidPhoneNumber in Hv.
    apply andb_true_iff in Hv as [Ht He].
    destruct number; simpl in Ht; try discriminate.
    destruct s; [discriminate | reflexivity].
Qed.

(** ** Values that cannot be converted *)




